(** * Fallout Room: the plan/action generation pipeline

    A shallow embedding of the response parser, the plan validator, the
    plan-selection operations, the action-generation command and the
    deliverable formatter of the [incident_response] application, and the
    properties of the specification settled against it.

    Python values are embedded as a tagged union, Python strings as lists of
    code points, exceptions as a result type, and the database tables as
    lists of rows threaded through a state-and-error monad. *)

From Stdlib Require Import ZArith NArith List String Ascii Bool Lia.
From Stdlib Require Import DecimalString SpecFloat Sorted.
From stdpp Require Import base list option.

Import ListNotations.
Local Open Scope N_scope.

(* ================================================================== *)
(** * Python strings *)
(* ================================================================== *)

Module Str.

(** A Python [str] is a sequence of Unicode code points. *)
Definition pystr := list N.

(** Source literals are written as Rocq strings (UTF-8 bytes) and decoded. *)
Fixpoint utf8_decode (bs : list N) : pystr :=
  match bs with
  | [] => []
  | b :: r =>
      if b <? 128 then b :: utf8_decode r
      else if b <? 224 then
        match r with
        | b1 :: r1 => ((b mod 32) * 64 + b1 mod 64) :: utf8_decode r1
        | _ => [b]
        end
      else if b <? 240 then
        match r with
        | b1 :: b2 :: r2 =>
            ((b mod 16) * 4096 + (b1 mod 64) * 64 + b2 mod 64) :: utf8_decode r2
        | _ => [b]
        end
      else
        match r with
        | b1 :: b2 :: b3 :: r3 =>
            ((b mod 8) * 262144 + (b1 mod 64) * 4096 + (b2 mod 64) * 64 + b3 mod 64)
              :: utf8_decode r3
        | _ => [b]
        end
  end.

Definition lit (s : string) : pystr :=
  utf8_decode (map N_of_ascii (list_ascii_of_string s)).

(** A literal in which the apostrophe stands for the double quote. *)
Definition dq (s : string) : pystr :=
  map (fun c => if c =? 39 then 34 else c) (lit s).

Definition NL : N := 10.
Definition DQUOTE : N := 34.
Definition COMMA : N := 44.
Definition BACKTICK : N := 96.

Fixpoint str_eqb (a b : pystr) : bool :=
  match a, b with
  | [], [] => true
  | x :: a', y :: b' => (x =? y) && str_eqb a' b'
  | _, _ => false
  end.

(** [str.isspace] on one code point: the interpreter's whitespace table. *)
Definition isspace (c : N) : bool :=
  ((9 <=? c) && (c <=? 13)) || ((28 <=? c) && (c <=? 32))
  || (c =? 133) || (c =? 160) || (c =? 5760)
  || ((8192 <=? c) && (c <=? 8202))
  || (c =? 8232) || (c =? 8233) || (c =? 8239) || (c =? 8287) || (c =? 12288).

(** The character class [[a-zA-Z]]. *)
Definition is_ascii_letter (c : N) : bool :=
  ((65 <=? c) && (c <=? 90)) || ((97 <=? c) && (c <=? 122)).

Fixpoint lstrip (s : pystr) : pystr :=
  match s with
  | c :: r => if isspace c then lstrip r else s
  | [] => []
  end.

Definition rstrip (s : pystr) : pystr := rev (lstrip (rev s)).

(** [s.strip()] *)
Definition strip (s : pystr) : pystr := rstrip (lstrip s).

Fixpoint startswith (p s : pystr) : bool :=
  match p, s with
  | [], _ => true
  | a :: p', b :: s' => (a =? b) && startswith p' s'
  | _ :: _, [] => false
  end.

(** [s.endswith(p)] *)
Definition endswith (s p : pystr) : bool := startswith (rev p) (rev s).

(** [needle in hay] for two strings. *)
Fixpoint str_in (needle hay : pystr) : bool :=
  startswith needle hay ||
  match hay with
  | [] => false
  | _ :: r => str_in needle r
  end.

(** [s.split(sep)] for a one-character separator. *)
Fixpoint split (sep : N) (s : pystr) : list pystr :=
  match s with
  | [] => [[]]
  | c :: r =>
      if c =? sep then [] :: split sep r
      else match split sep r with
           | l :: ls => (c :: l) :: ls
           | [] => [[c]]
           end
  end.

(** [sep.join(parts)] *)
Fixpoint join (sep : pystr) (parts : list pystr) : pystr :=
  match parts with
  | [] => []
  | [p] => p
  | p :: ps => p ++ sep ++ join sep ps
  end.

(** Lines of text, joined by the newline character. *)
Definition text (lines : list pystr) : pystr := join [NL] lines.

(** [s.count(c, 0, n)] for a one-character needle. *)
Definition count_upto (c : N) (n : nat) (s : pystr) : nat :=
  length (List.filter (fun x => x =? c) (take n s)).

(** The decimal rendering of an integer, as ['%d'] and [f'{n}'] print it. *)
Definition decimal (z : Z) : pystr :=
  lit (NilZero.string_of_int (Z.to_int z)).

(** ASCII case mapping of one code point. *)
Definition ascii_upper (c : N) : N :=
  if (97 <=? c) && (c <=? 122) then c - 32 else c.
Definition ascii_lower (c : N) : N :=
  if (65 <=? c) && (c <=? 90) then c + 32 else c.
Definition is_ascii (s : pystr) : bool := forallb (fun c => c <? 128) s.

End Str.
Export Str.

(* ================================================================== *)
(** * Python values, exceptions and results *)
(* ================================================================== *)

(** The values [json.loads] produces, which are the values that flow through
    the pipeline: [None], [bool], [int], [float], [str], [list], [dict].
    A dictionary keeps its insertion order. *)
#[local] Set Warnings "-register-all".
Inductive value : Type :=
| VNone
| VBool (b : bool)
| VInt (z : Z)
| VFloat (f : spec_float)
| VStr (s : pystr)
| VList (l : list value)
| VDict (d : list (pystr * value)).

(** The exception classes the modelled code can meet. [JSONDecodeError]
    carries the message, the document and the position, as the library's
    class does; [CommandError] is what the argument parser of a management
    command raises when the command is called from code. *)
Inductive exn : Type :=
| AttributeError
| TypeError
| ValueError
| OverflowError
| RecursionError
| KeyError
| IndexError
| UnboundLocalError
| JSONDecodeError (msg : pystr) (doc : pystr) (pos : nat)
| DoesNotExist
| DatabaseError
| CommandError
| APIError.

Inductive result (A : Type) : Type :=
| Ok (a : A)
| Raise (e : exn).
Arguments Ok {A} a.
Arguments Raise {A} e.

Definition rbind {A B} (m : result A) (k : A -> result B) : result B :=
  match m with
  | Ok a => k a
  | Raise e => Raise e
  end.

Notation "'let!' x ':=' m 'in' k" := (rbind m (fun x => k))
  (at level 10, x name, m at level 100, k at level 200).

Definition is_ok {A} (r : result A) : bool :=
  match r with Ok _ => true | Raise _ => false end.

(** Equality of values, as Python's [==] decides it on the values met here
    (strings against strings); used for membership tests. *)
Definition value_is_str (v : value) (s : pystr) : bool :=
  match v with
  | VStr t => str_eqb t s
  | _ => false
  end.

(** Truth value of an object ([if v:], [not v]). *)
Definition truthy (v : value) : bool :=
  match v with
  | VNone => false
  | VBool b => b
  | VInt z => negb (z =? 0)%Z
  | VFloat (S754_zero _) => false
  | VFloat _ => true
  | VStr s => match s with [] => false | _ => true end
  | VList l => match l with [] => false | _ => true end
  | VDict d => match d with [] => false | _ => true end
  end.

(** [d.get(k)] on the entries of a dictionary. *)
Fixpoint dict_lookup (k : pystr) (d : list (pystr * value)) : option value :=
  match d with
  | [] => None
  | (k', v) :: r => if str_eqb k' k then Some v else dict_lookup k r
  end.

(** [d.get(k, default)] *)
Definition dict_get (d : list (pystr * value)) (k : pystr) (dflt : value) : value :=
  default dflt (dict_lookup k d).

(** [obj.get]: only a dictionary has the method. *)
Definition get_method (v : value) : result (list (pystr * value)) :=
  match v with
  | VDict d => Ok d
  | _ => Raise AttributeError
  end.

(** [v[k]] with a string key. *)
Definition getitem (v : value) (k : pystr) : result value :=
  match v with
  | VDict d => match dict_lookup k d with
               | Some x => Ok x
               | None => Raise KeyError
               end
  | _ => Raise TypeError
  end.

(** [k in v] with a string [k]. *)
Definition contains (k : pystr) (v : value) : result bool :=
  match v with
  | VDict d => Ok (match dict_lookup k d with Some _ => true | None => false end)
  | VList l => Ok (existsb (fun x => value_is_str x k) l)
  | VStr s => Ok (str_in k s)
  | _ => Raise TypeError
  end.

(** [v[:n]] *)
Definition slice_to (n : nat) (v : value) : result value :=
  match v with
  | VList l => Ok (VList (take n l))
  | VStr s => Ok (VStr (take n s))
  | _ => Raise TypeError
  end.

(** [len(v)] *)
Definition py_len (v : value) : result nat :=
  match v with
  | VStr s => Ok (length s)
  | VList l => Ok (length l)
  | VDict d => Ok (length d)
  | _ => Raise TypeError
  end.

(** [v += s] for a string [s]: concatenation on a string, [extend] with the
    characters of [s] on a list, no such operator on the other types. *)
Definition iadd_str (v : value) (s : pystr) : result value :=
  match v with
  | VStr t => Ok (VStr (t ++ s))
  | VList l => Ok (VList (l ++ map (fun c => VStr [c]) s))
  | _ => Raise TypeError
  end.

(** [int(f)] on a float truncates toward zero and refuses infinities and
    NaN. *)
Definition float_to_int (f : spec_float) : result Z :=
  match f with
  | S754_zero _ => Ok 0%Z
  | S754_infinity _ => Raise OverflowError
  | S754_nan => Raise ValueError
  | S754_finite sgn m e =>
      let mag := if (0 <=? e)%Z then (Z.pos m * 2 ^ e)%Z
                 else (Z.pos m / 2 ^ (- e))%Z in
      Ok (if sgn then (- mag)%Z else mag)
  end.

(** What the interpreter, its standard library and the framework supply.
    The JSON decoder: on a [str] it returns the decoded value or raises;
    what it raises on a malformed document is a [JSONDecodeError] with a
    message and a position, but it also raises a plain [ValueError] on an
    integer literal with more digits than [int] converts, and
    [RecursionError] on arrays and objects nested beyond the recursion
    limit. The Unicode case mappings, the parser behind [int(str)] and the
    text an f-string interpolates for a value. The argument parser of the
    command [generate_actions_from_plan] as [call_command] uses it: the
    required option [--plan-id], declared with [type=int], is given the
    [str] of the value passed (of each element, for a list), and the
    parser accepts or refuses. *)
Class Runtime : Type := {
  json_loads : pystr -> result value;
  str_upper : pystr -> pystr;
  str_lower : pystr -> pystr;
  int_of_str : pystr -> option Z;
  format_value : value -> pystr;
  command_accepts : value -> bool;
}.

(** On ASCII text the case mappings are the ASCII ones. *)
Definition ascii_case_mapping (rt : Runtime) : Prop :=
  forall s, is_ascii s = true ->
    str_upper s = map ascii_upper s /\ str_lower s = map ascii_lower s.

Section WithRuntime.
Context {rt : Runtime}.

(** [json.loads(s)]: the value or the exception of the decoder. A
    [JSONDecodeError] carries the document that was given. *)
Definition loads (s : pystr) : result value :=
  match json_loads s with
  | Ok v => Ok v
  | Raise (JSONDecodeError msg _ pos) => Raise (JSONDecodeError msg s pos)
  | Raise e => Raise e
  end.

(** [json.loads(v)] on an arbitrary object: [None] is a [TypeError]. *)
Definition loads_value (v : value) : result value :=
  match v with
  | VStr s => loads s
  | _ => Raise TypeError
  end.

(** [v.upper()], [v.lower()] *)
Definition upper_method (v : value) : result pystr :=
  match v with
  | VStr s => Ok (str_upper s)
  | _ => Raise AttributeError
  end.
Definition lower_method (v : value) : result pystr :=
  match v with
  | VStr s => Ok (str_lower s)
  | _ => Raise AttributeError
  end.

(** [int(v)] *)
Definition py_int (v : value) : result Z :=
  match v with
  | VInt z => Ok z
  | VBool b => Ok (if b then 1 else 0)%Z
  | VFloat f => float_to_int f
  | VStr s => match int_of_str s with
              | Some z => Ok z
              | None => Raise ValueError
              end
  | _ => Raise TypeError
  end.

End WithRuntime.

(* ================================================================== *)
(** * The response parser ([auto_create_actions_deliverables.py]) *)
(* ================================================================== *)

(** The payload [safe_json_parse] returns when nothing can be decoded. *)
Definition FALLBACK_PAYLOAD : value :=
  VDict [(lit "action_plans", VList [
    VDict [
      (lit "plan_name",
       VStr (lit "Rapid Response Plan"));
      (lit "strategy",
       VStr (lit "Immediate threat containment with fast response times. Focus on quick isolation and damage control to minimize business impact. This approach prioritizes speed over thoroughness when time is critical."));
      (lit "timeline",
       VStr (lit "1-2 hours"));
      (lit "risk_level",
       VStr (lit "HIGH"));
      (lit "confidence_score",
       VStr (lit "HIGH"));
      (lit "estimated_hours",
       VInt 2);
      (lit "resource_requirements",
       VStr (lit "SOC Analyst, Security Team Lead, Network Administrator"));
      (lit "success_criteria",
       VStr (lit "Threat contained within 2 hours, systems restored to normal operation"))];
    VDict [
      (lit "plan_name",
       VStr (lit "Comprehensive Analysis Plan"));
      (lit "strategy",
       VStr (lit "Thorough investigation approach with detailed forensic analysis and root cause identification. Ensures complete understanding before action. Like having a detective solve the case properly before making arrests."));
      (lit "timeline",
       VStr (lit "4-6 hours"));
      (lit "risk_level",
       VStr (lit "LOW"));
      (lit "confidence_score",
       VStr (lit "HIGH"));
      (lit "estimated_hours",
       VInt 5);
      (lit "resource_requirements",
       VStr (lit "Security Analyst, Forensics Expert, Compliance Officer, Technical Lead"));
      (lit "success_criteria",
       VStr (lit "Complete incident analysis, root cause identified, prevention measures implemented"))];
    VDict [
      (lit "plan_name",
       VStr (lit "Stakeholder Communication Plan"));
      (lit "strategy",
       VStr (lit "Communication-focused approach prioritizing stakeholder management, compliance reporting, and transparency throughout the incident response. Perfect when reputation and trust are paramount."));
      (lit "timeline",
       VStr (lit "2-4 hours"));
      (lit "risk_level",
       VStr (lit "MEDIUM"));
      (lit "confidence_score",
       VStr (lit "MEDIUM"));
      (lit "estimated_hours",
       VInt 3);
      (lit "resource_requirements",
       VStr (lit "Communications Team, Legal Counsel, Management, Compliance Officer"));
      (lit "success_criteria",
       VStr (lit "All stakeholders informed, compliance maintained, reputation protected"))];
    VDict [
      (lit "plan_name",
       VStr (lit "Hybrid Response Plan"));
      (lit "strategy",
       VStr (lit "Balanced approach combining immediate containment with parallel investigation activities. Optimizes both speed and thoroughness. The Swiss Army knife of incident response strategies."));
      (lit "timeline",
       VStr (lit "3-5 hours"));
      (lit "risk_level",
       VStr (lit "MEDIUM"));
      (lit "confidence_score",
       VStr (lit "HIGH"));
      (lit "estimated_hours",
       VInt 4);
      (lit "resource_requirements",
       VStr (lit "Multi-disciplinary team: SOC Analyst, Forensics Expert, Communications Lead"));
      (lit "success_criteria",
       VStr (lit "Incident contained and analyzed simultaneously, stakeholders kept informed"))]])].

(** [re.sub(r'```[a-zA-Z]*\n?', '', s)]: every fence marker goes, with the
    letters after it and one newline after those. [tag] is true while the
    scan is inside the letters of a match. *)
Fixpoint sub_fence_markers (tag : bool) (s : pystr) : pystr :=
  match s with
  | [] => []
  | c :: r =>
      if tag && is_ascii_letter c then sub_fence_markers true r
      else if tag && (c =? NL) then sub_fence_markers false r
      else
        match r with
        | c2 :: c3 :: r3 =>
            if (c =? BACKTICK) && (c2 =? BACKTICK) && (c3 =? BACKTICK)
            then sub_fence_markers true r3
            else c :: sub_fence_markers false r
        | _ => c :: sub_fence_markers false r
        end
  end.

(** [re.sub(r'```\s*$', '', s)]: a fence marker followed by nothing but
    white space up to the end goes, with that white space. *)
Fixpoint sub_fence_tail (s : pystr) : pystr :=
  match s with
  | [] => []
  | c :: r =>
      if startswith [BACKTICK; BACKTICK; BACKTICK] s && forallb isspace (drop 3 s)
      then []
      else c :: sub_fence_tail r
  end.

(** [e.lineno], [e.colno] and [str(e)] of a [JSONDecodeError]. *)
Definition err_lineno (doc : pystr) (pos : nat) : nat :=
  count_upto NL pos doc + 1.

Fixpoint rindex_from (c : N) (s : pystr) (i : nat) (found : option nat) : option nat :=
  match s with
  | [] => found
  | x :: r => rindex_from c r (S i) (if x =? c then Some i else found)
  end.

Definition err_colno (doc : pystr) (pos : nat) : nat :=
  match rindex_from NL (take pos doc) 0 None with
  | Some i => pos - i
  | None => pos + 1
  end.

Definition err_str (msg doc : pystr) (pos : nat) : pystr :=
  msg ++ lit ": line " ++ decimal (Z.of_nat (err_lineno doc pos))
      ++ lit " column " ++ decimal (Z.of_nat (err_colno doc pos))
      ++ lit " (char " ++ decimal (Z.of_nat pos) ++ lit ")".

Section Parser.
Context {rt : Runtime}.

(** The repair steps of [safe_json_parse], between the two decoding
    attempts. They run outside any [try], so an exception here would reach
    the caller. *)
Definition repair (response_text msg : pystr) (pos : nat) : result pystr :=
  let cleaned := strip response_text in
  let cleaned := sub_fence_markers false cleaned in
  let cleaned := sub_fence_tail cleaned in
  if str_in (lit "Unterminated string") (err_str msg response_text pos) then
    let lines := split NL cleaned in
    let lineno := err_lineno response_text pos in
    if (lineno <? length lines)%nat then
      match lines !! (lineno - 1)%nat with
      | None => Raise IndexError
      | Some line =>
          if negb (endswith (strip line) [DQUOTE])
             && negb (endswith (strip line) [DQUOTE; COMMA])
          then Ok (join [NL] (<[(lineno - 1)%nat := line ++ [DQUOTE]]> lines))
          else Ok cleaned
      end
    else Ok cleaned
  else Ok cleaned.

(** [safe_json_parse(response_text)] *)
Definition safe_json_parse (response_text : pystr) : result value :=
  match loads response_text with
  | Ok v => Ok v
  | Raise (JSONDecodeError msg _ pos) =>
      let! cleaned := repair response_text msg pos in
      match loads cleaned with
      | Ok v => Ok v
      | Raise _ => Ok FALLBACK_PAYLOAD
      end
  | Raise e => Raise e
  end.

End Parser.

(* ================================================================== *)
(** * The plan validator ([Command.validate_and_enhance_plans]) *)
(* ================================================================== *)

(** The dictionary [enhanced_plan], with its eight keys in the order of the
    literal that builds it. [risk_level] and [confidence_score] come out of
    [.upper()] and [estimated_hours] out of [int()], so they are a string,
    a string and an integer from the start. *)
Record enhanced_plan : Type := {
  plan_name : value;
  strategy : value;
  timeline : value;
  risk_level : pystr;
  confidence_score : pystr;
  estimated_hours : Z;
  resource_requirements : value;
  success_criteria : value;
}.

Definition plan_dict (p : enhanced_plan) : value :=
  VDict [(lit "plan_name", plan_name p);
         (lit "strategy", strategy p);
         (lit "timeline", timeline p);
         (lit "risk_level", VStr (risk_level p));
         (lit "confidence_score", VStr (confidence_score p));
         (lit "estimated_hours", VInt (estimated_hours p));
         (lit "resource_requirements", resource_requirements p);
         (lit "success_criteria", success_criteria p)].

Definition LEVELS : list pystr := [lit "LOW"; lit "MEDIUM"; lit "HIGH"].

Definition DEFAULT_STRATEGY : pystr :=
  lit "Comprehensive incident response approach with focus on rapid containment and thorough analysis".
Definition DEFAULT_RESOURCES : pystr :=
  lit "Security Team, SOC Analyst, Incident Manager".
Definition DEFAULT_CRITERIA : pystr :=
  lit "Incident resolved successfully with minimal business impact".

Section Validator.
Context {rt : Runtime}.

(** The sentence appended to a short strategy. *)
Definition risk_sentence (risk : pystr) : pystr :=
  lit " This " ++ str_lower risk ++
  lit "-risk approach focuses on balancing speed with thoroughness to achieve optimal incident resolution.".

(** The body of the loop: [n] is [len(enhanced_plans)] on entry. *)
Definition enhance_plan (n : nat) (plan : value) : result value :=
  let! d := get_method plan in
  let v_plan_name :=
    dict_get d (lit "plan_name")
      (VStr (lit "Strategic Plan " ++ decimal (Z.of_nat n + 1))) in
  let v_strategy := dict_get d (lit "strategy") (VStr DEFAULT_STRATEGY) in
  let v_timeline := dict_get d (lit "timeline") (VStr (lit "2-4 hours")) in
  let! v_risk := upper_method (dict_get d (lit "risk_level") (VStr (lit "MEDIUM"))) in
  let! v_conf := upper_method (dict_get d (lit "confidence_score") (VStr (lit "MEDIUM"))) in
  let! hours := py_int (dict_get d (lit "estimated_hours") (VInt 3)) in
  let v_hours := Z.min (Z.max hours 1) 8 in
  let v_resources := dict_get d (lit "resource_requirements") (VStr DEFAULT_RESOURCES) in
  let v_criteria := dict_get d (lit "success_criteria") (VStr DEFAULT_CRITERIA) in
  let v_risk := if existsb (str_eqb v_risk) LEVELS then v_risk else lit "MEDIUM" in
  let v_conf := if existsb (str_eqb v_conf) LEVELS then v_conf else lit "MEDIUM" in
  let! len := py_len v_strategy in
  let! v_strategy :=
    if (len <? 50)%nat then iadd_str v_strategy (risk_sentence v_risk)
    else Ok v_strategy in
  Ok (plan_dict {| plan_name := v_plan_name;
                   strategy := v_strategy;
                   timeline := v_timeline;
                   risk_level := v_risk;
                   confidence_score := v_conf;
                   estimated_hours := v_hours;
                   resource_requirements := v_resources;
                   success_criteria := v_criteria |}).

Fixpoint validate_loop (plans enhanced_plans : list value) : result (list value) :=
  match plans with
  | [] => Ok enhanced_plans
  | plan :: rest =>
      let! e := enhance_plan (length enhanced_plans) plan in
      validate_loop rest (enhanced_plans ++ [e])
  end.

(** [validate_and_enhance_plans(plans, incident_type)] *)
Definition validate_and_enhance_plans (plans : list value) (incident_type : pystr)
  : result (list value) :=
  validate_loop plans [].

End Validator.

(* ================================================================== *)
(** * A reference runtime *)
(* ================================================================== *)

(** One concrete [Runtime], on which the model can be run: a JSON decoder
    for documents without fractional or exponent numbers and without
    [\u] escapes, with the two limits of the interpreter (4300 digits for
    an integer, 1000 for the recursion, the frames of the caller not
    counted), the ASCII case mappings, [int()] on plain signed decimal
    numerals, and an argument parser that takes integers and the text
    [int] reads. The properties below are proved for every runtime; this
    one instantiates them. *)
Module Ref.

(** How decoding stops: at a position of a malformed document, or on a
    limit of the interpreter. *)
Inductive failure : Type :=
| Syntax (msg : pystr) (pos : nat)
| Limit (e : exn).

Definition jerr (A : Type) : Type := (A + failure)%type.

(** [sys.get_int_max_str_digits()] and [sys.getrecursionlimit()], as the
    interpreter starts. *)
Definition MAX_STR_DIGITS : nat := 4300.
Definition RECURSION_LIMIT : nat := 1000.

Definition json_ws (c : N) : bool :=
  (c =? 32) || (c =? 9) || (c =? 10) || (c =? 13).

Fixpoint skip_ws (s : pystr) (pos : nat) : pystr * nat :=
  match s with
  | c :: r => if json_ws c then skip_ws r (S pos) else (s, pos)
  | [] => ([], pos)
  end.

Definition simple_escape (c : N) : option N :=
  if c =? 34 then Some 34
  else if c =? 92 then Some 92
  else if c =? 47 then Some 47
  else if c =? 98 then Some 8
  else if c =? 102 then Some 12
  else if c =? 110 then Some 10
  else if c =? 114 then Some 13
  else if c =? 116 then Some 9
  else None.

(** The body of a string literal, after its opening quote at [start]. *)
Fixpoint scan_string (s : pystr) (pos start : nat) (acc : pystr)
  : jerr (pystr * pystr * nat) :=
  match s with
  | [] => inr (Syntax (lit "Unterminated string starting at") start)
  | c :: r =>
      if c =? 34 then inl (rev acc, r, S pos)
      else if c =? 92 then
        match r with
        | [] => inr (Syntax (lit "Unterminated string starting at") start)
        | e :: r' =>
            match simple_escape e with
            | Some x => scan_string r' (S (S pos)) start (x :: acc)
            | None => inr (Syntax (lit "Invalid \escape") pos)
            end
        end
      else if c <? 32 then inr (Syntax (lit "Invalid control character at") pos)
      else scan_string r (S pos) start (c :: acc)
  end.

Definition is_digit (c : N) : bool := (48 <=? c) && (c <=? 57).

Fixpoint scan_digits (s : pystr) (pos : nat) (acc : Z) : Z * pystr * nat :=
  match s with
  | c :: r =>
      if is_digit c then scan_digits r (S pos) (acc * 10 + Z.of_N (c - 48))%Z
      else (acc, s, pos)
  | [] => (acc, [], pos)
  end.

(** The integer part of a number: [0] or a numeral without leading zero. *)
Definition scan_int (s : pystr) (pos : nat) : option (Z * pystr * nat) :=
  match s with
  | c :: r =>
      if c =? 48 then Some (0%Z, r, S pos)
      else if is_digit c then Some (scan_digits s pos 0)
      else None
  | [] => None
  end.

Fixpoint dict_set (k : pystr) (v : value) (d : list (pystr * value))
  : list (pystr * value) :=
  match d with
  | [] => [(k, v)]
  | (k', v') :: r => if str_eqb k' k then (k', v) :: r else (k', v') :: dict_set k v r
  end.

Definition constant (s : pystr) (pos : nat) : option (value * pystr * nat) :=
  if startswith (lit "null") s then Some (VNone, drop 4 s, (pos + 4)%nat)
  else if startswith (lit "true") s then Some (VBool true, drop 4 s, (pos + 4)%nat)
  else if startswith (lit "false") s then Some (VBool false, drop 5 s, (pos + 5)%nat)
  else if startswith (lit "NaN") s then Some (VFloat S754_nan, drop 3 s, (pos + 3)%nat)
  else if startswith (lit "Infinity") s
       then Some (VFloat (S754_infinity false), drop 8 s, (pos + 8)%nat)
  else if startswith (lit "-Infinity") s
       then Some (VFloat (S754_infinity true), drop 9 s, (pos + 9)%nat)
  else None.

(** An integer literal, converted by [int]: more than [MAX_STR_DIGITS]
    digits are a [ValueError]. *)
Definition number (s : pystr) (pos : nat) : option (jerr (value * pystr * nat)) :=
  match s with
  | c :: r =>
      if c =? 45 then
        match scan_int r (S pos) with
        | Some (z, r', p') =>
            Some (if (MAX_STR_DIGITS <? p' - S pos)%nat then inr (Limit ValueError)
                  else inl (VInt (- z), r', p'))
        | None => None
        end
      else
        match scan_int s pos with
        | Some (z, r', p') =>
            Some (if (MAX_STR_DIGITS <? p' - pos)%nat then inr (Limit ValueError)
                  else inl (VInt z, r', p'))
        | None => None
        end
  | [] => None
  end.

(** [depth] counts the arrays and objects around the value. *)
Fixpoint parse_value (fuel depth : nat) (s : pystr) (pos : nat) {struct fuel}
  : jerr (value * pystr * nat) :=
  match fuel with
  | O => inr (Syntax (lit "Expecting value") pos)
  | S f =>
      match s with
      | [] => inr (Syntax (lit "Expecting value") pos)
      | c :: r =>
          if c =? 34 then
            match scan_string r (S pos) pos [] with
            | inl (str, r', p') => inl (VStr str, r', p')
            | inr e => inr e
            end
          else if c =? 123 then
            if (RECURSION_LIMIT <=? depth)%nat then inr (Limit RecursionError)
            else
            let '(r1, p1) := skip_ws r (S pos) in
            match r1 with
            | c1 :: r2 =>
                if c1 =? 125 then inl (VDict [], r2, S p1)
                else parse_members f (S depth) r1 p1 []
            | [] => inr (Syntax (lit "Expecting property name enclosed in double quotes") p1)
            end
          else if c =? 91 then
            if (RECURSION_LIMIT <=? depth)%nat then inr (Limit RecursionError)
            else
            let '(r1, p1) := skip_ws r (S pos) in
            match r1 with
            | c1 :: r2 =>
                if c1 =? 93 then inl (VList [], r2, S p1)
                else parse_elements f (S depth) r1 p1 []
            | [] => inr (Syntax (lit "Expecting value") p1)
            end
          else
            match constant s pos with
            | Some x => inl x
            | None =>
                match number s pos with
                | Some x => x
                | None => inr (Syntax (lit "Expecting value") pos)
                end
            end
      end
  end
with parse_elements (fuel depth : nat) (s : pystr) (pos : nat) (acc : list value)
  {struct fuel} : jerr (value * pystr * nat) :=
  match fuel with
  | O => inr (Syntax (lit "Expecting value") pos)
  | S f =>
      match parse_value f depth s pos with
      | inr e => inr e
      | inl (v, r, p) =>
          let '(r1, p1) := skip_ws r p in
          match r1 with
          | c :: r2 =>
              if c =? 44 then
                let '(r3, p3) := skip_ws r2 (S p1) in
                parse_elements f depth r3 p3 (v :: acc)
              else if c =? 93 then inl (VList (rev (v :: acc)), r2, S p1)
              else inr (Syntax (lit "Expecting ',' delimiter") p1)
          | [] => inr (Syntax (lit "Expecting ',' delimiter") p1)
          end
      end
  end
with parse_members (fuel depth : nat) (s : pystr) (pos : nat)
  (acc : list (pystr * value)) {struct fuel} : jerr (value * pystr * nat) :=
  match fuel with
  | O => inr (Syntax (lit "Expecting value") pos)
  | S f =>
      match s with
      | c :: r =>
          if c =? 34 then
            match scan_string r (S pos) pos [] with
            | inr e => inr e
            | inl (key, r0, p0) =>
                let '(r1, p1) := skip_ws r0 p0 in
                match r1 with
                | c1 :: r2 =>
                    if c1 =? 58 then
                      let '(r3, p3) := skip_ws r2 (S p1) in
                      match parse_value f depth r3 p3 with
                      | inr e => inr e
                      | inl (v, r4, p4) =>
                          let '(r5, p5) := skip_ws r4 p4 in
                          match r5 with
                          | c5 :: r6 =>
                              if c5 =? 44 then
                                let '(r7, p7) := skip_ws r6 (S p5) in
                                parse_members f depth r7 p7 (dict_set key v acc)
                              else if c5 =? 125
                              then inl (VDict (dict_set key v acc), r6, S p5)
                              else inr (Syntax (lit "Expecting ',' delimiter") p5)
                          | [] => inr (Syntax (lit "Expecting ',' delimiter") p5)
                          end
                      end
                    else inr (Syntax (lit "Expecting ':' delimiter") p1)
                | [] => inr (Syntax (lit "Expecting ':' delimiter") p1)
                end
            end
          else inr (Syntax (lit "Expecting property name enclosed in double quotes") pos)
      | [] => inr (Syntax (lit "Expecting property name enclosed in double quotes") pos)
      end
  end.

Definition ref_json_loads (s : pystr) : result value :=
  let '(s0, p0) := skip_ws s 0 in
  match parse_value (2 * length s + 2) 0 s0 p0 with
  | inr (Syntax msg pos) => Raise (JSONDecodeError msg s pos)
  | inr (Limit e) => Raise e
  | inl (v, r, p) =>
      let '(r1, p1) := skip_ws r p in
      match r1 with
      | [] => Ok v
      | _ => Raise (JSONDecodeError (lit "Extra data") s p1)
      end
  end.

Definition ref_int_of_str (s : pystr) : option Z :=
  match strip s with
  | [] => None
  | c :: r =>
      let body := if (c =? 45) || (c =? 43) then r else c :: r in
      match body with
      | [] => None
      | _ =>
          if forallb is_digit body && (length body <=? MAX_STR_DIGITS)%nat then
            let '(z, _, _) := scan_digits body 0 0 in
            Some (if c =? 45 then (- z)%Z else z)
          else None
      end
  end.

(** [str(v)] on [None], booleans, integers and strings; a placeholder on
    floats and containers. *)
Definition ref_format_value (v : value) : pystr :=
  match v with
  | VNone => lit "None"
  | VBool true => lit "True"
  | VBool false => lit "False"
  | VInt z => decimal z
  | VFloat _ => lit "nan"
  | VStr s => s
  | VList _ => lit "[...]"
  | VDict _ => lit "{...}"
  end.

(** The parser of [--plan-id] on the [str] of a value: an integer is
    written as a numeral, which [int] reads back; [True], [False], [None]
    and the text of a float or of a container are no numerals. *)
Definition numeral_text (v : value) : bool :=
  match v with
  | VInt _ => true
  | VStr s => match ref_int_of_str s with Some _ => true | None => false end
  | _ => false
  end.

Definition ref_command_accepts (v : value) : bool :=
  match v with
  | VList [e] => numeral_text e
  | VList _ => false
  | _ => numeral_text v
  end.

Definition runtime : Runtime := {|
  json_loads := ref_json_loads;
  str_upper := map ascii_upper;
  str_lower := map ascii_lower;
  int_of_str := ref_int_of_str;
  format_value := ref_format_value;
  command_accepts := ref_command_accepts;
|}.

End Ref.


(* ================================================================== *)
(** * The persistence boundary ([models.py]) *)
(* ================================================================== *)

Local Open Scope Z_scope.

Record Incident : Type := {
  inc_id : Z;
  inc_title : pystr;
  inc_description : value;
  inc_timestamp : Z;
  inc_control_objective : value;
  inc_framework_citations : value;
  inc_status : pystr;
}.

Record ActionPlan : Type := {
  ap_id : Z;
  ap_incident : Z;
  ap_plan_name : pystr;
  ap_strategy : pystr;
  ap_timeline : pystr;
  ap_risk_level : pystr;
  ap_confidence_score : pystr;
  ap_estimated_hours : Z;
  ap_resource_requirements : pystr;
  ap_success_criteria : pystr;
  ap_status : pystr;
  ap_is_selected : bool;
  ap_created_at : Z;
}.

(** An [Action] object holds what it was constructed with: the fields that
    come from the decoded reply are values of any type. *)
Record Action : Type := {
  act_id : Z;
  act_action_plan : option Z;
  act_incident : Z;
  act_step : Z;
  act_title : value;
  act_description : value;
  act_operator : value;
  act_priority : value;
  act_estimated_hours : value;
  act_ghostdraft : bool;
}.

Record Deliverable : Type := {
  dl_id : Z;
  dl_action : Z;
  dl_deliverable_format : value;
  dl_content : pystr;
  dl_export_options : value;
  dl_voice_eligible : value;
}.

(** The tables, and the number of requests made to the model so far. *)
Record World : Type := {
  incidents : list Incident;
  action_plans : list ActionPlan;
  actions : list Action;
  deliverables : list Deliverable;
  llm_calls : nat;
}.

(** What lies outside the program: the environment variable, whether the
    client constructor succeeds, the content of the model's n-th reply (or
    the exception the request or the access to its content raises), which
    rows the database accepts on insertion, and the formatted clock. *)
Class External : Type := {
  OPENROUTER_API_KEY : option pystr;
  client_constructs : bool;
  llm_reply : nat -> result value;
  accepts_action : Action -> bool;
  accepts_deliverable : Deliverable -> bool;
  now_text : pystr;
}.

(** Computations on the tables that may raise; a raised exception keeps
    the writes made before it (the commands run in autocommit mode). *)
Definition M (A : Type) : Type := World -> result A * World.

Definition ret {A} (a : A) : M A := fun w => (Ok a, w).
Definition raise {A} (e : exn) : M A := fun w => (Raise e, w).
Definition lift {A} (r : result A) : M A := fun w => (r, w).
Definition bind {A B} (m : M A) (k : A -> M B) : M B :=
  fun w => match m w with
           | (Ok a, w') => k a w'
           | (Raise e, w') => (Raise e, w')
           end.
(** [try: m except Exception: h] *)
Definition try_except {A} (m : M A) (h : exn -> M A) : M A :=
  fun w => match m w with
           | (Ok a, w') => (Ok a, w')
           | (Raise e, w') => h e w'
           end.

Notation "'do!' x ':=' m 'in' k" := (bind m (fun x => k))
  (at level 10, x name, m at level 100, k at level 200).

Definition next_id {A} (pk : A -> Z) (rows : list A) : Z :=
  fold_right Z.max 0 (map pk rows) + 1.

(** [ActionPlan.objects.get(id=plan_id)] *)
Definition get_action_plan (plan_id : Z) : M ActionPlan :=
  fun w => match find (fun p => ap_id p =? plan_id) (action_plans w) with
           | Some p => (Ok p, w)
           | None => (Raise DoesNotExist, w)
           end.

(** [action_plan.incident]: the related object, fetched by its key. *)
Definition get_incident (incident_id : Z) : M Incident :=
  fun w => match find (fun i => inc_id i =? incident_id) (incidents w) with
           | Some i => (Ok i, w)
           | None => (Raise DoesNotExist, w)
           end.

Definition set_action_plans (f : list ActionPlan -> list ActionPlan) : M unit :=
  fun w => (Ok tt, {| incidents := incidents w;
                      action_plans := f (action_plans w);
                      actions := actions w;
                      deliverables := deliverables w;
                      llm_calls := llm_calls w |}).

Definition set_incidents (f : list Incident -> list Incident) : M unit :=
  fun w => (Ok tt, {| incidents := f (incidents w);
                      action_plans := action_plans w;
                      actions := actions w;
                      deliverables := deliverables w;
                      llm_calls := llm_calls w |}).

Definition set_deliverables (f : list Deliverable -> list Deliverable) : M unit :=
  fun w => (Ok tt, {| incidents := incidents w;
                      action_plans := action_plans w;
                      actions := actions w;
                      deliverables := f (deliverables w);
                      llm_calls := llm_calls w |}).

Definition unselect (p : ActionPlan) : ActionPlan :=
  {| ap_id := ap_id p; ap_incident := ap_incident p;
     ap_plan_name := ap_plan_name p; ap_strategy := ap_strategy p;
     ap_timeline := ap_timeline p; ap_risk_level := ap_risk_level p;
     ap_confidence_score := ap_confidence_score p;
     ap_estimated_hours := ap_estimated_hours p;
     ap_resource_requirements := ap_resource_requirements p;
     ap_success_criteria := ap_success_criteria p;
     ap_status := ap_status p; ap_is_selected := false;
     ap_created_at := ap_created_at p |}.

(** [action_plan.is_selected = True; action_plan.status = 'SELECTED'] *)
Definition mark_selected (p : ActionPlan) : ActionPlan :=
  {| ap_id := ap_id p; ap_incident := ap_incident p;
     ap_plan_name := ap_plan_name p; ap_strategy := ap_strategy p;
     ap_timeline := ap_timeline p; ap_risk_level := ap_risk_level p;
     ap_confidence_score := ap_confidence_score p;
     ap_estimated_hours := ap_estimated_hours p;
     ap_resource_requirements := ap_resource_requirements p;
     ap_success_criteria := ap_success_criteria p;
     ap_status := lit "SELECTED"; ap_is_selected := true;
     ap_created_at := ap_created_at p |}.

Definition with_status (i : Incident) (s : pystr) : Incident :=
  {| inc_id := inc_id i; inc_title := inc_title i;
     inc_description := inc_description i;
     inc_timestamp := inc_timestamp i;
     inc_control_objective := inc_control_objective i;
     inc_framework_citations := inc_framework_citations i;
     inc_status := s |}.

(** [ActionPlan.objects.filter(incident=incident).update(is_selected=False)] *)
Definition clear_selection (incident_id : Z) : M unit :=
  set_action_plans
    (map (fun p => if ap_incident p =? incident_id then unselect p else p)).

(** [obj.save()]: the row with the object's key is overwritten with the
    object; a key that is not in the table is inserted. *)
Definition save_row {A} (pk : A -> Z) (obj : A) (rows : list A) : list A :=
  if existsb (fun r => pk r =? pk obj) rows
  then map (fun r => if pk r =? pk obj then obj else r) rows
  else rows ++ [obj].

Definition save_action_plan (p : ActionPlan) : M unit :=
  set_action_plans (save_row ap_id p).
Definition save_incident (i : Incident) : M unit :=
  set_incidents (save_row inc_id i).
Definition save_deliverable (d : Deliverable) : M unit :=
  set_deliverables (save_row dl_id d).

(* ================================================================== *)
(** * The action-generation command ([generate_actions_from_plan.py]) *)
(* ================================================================== *)

(** An f-string: literal text and replacement fields, evaluated from left
    to right; the first field that raises ends the evaluation. *)
Inductive piece : Type :=
| T (t : pystr)
| F (field : result pystr).

Fixpoint fstring (ps : list piece) : result pystr :=
  match ps with
  | [] => Ok []
  | T t :: r => let! rest := fstring r in Ok (t ++ rest)
  | F f :: r => let! x := f in let! rest := fstring r in Ok (x ++ rest)
  end.

(** A local variable of a function body is unbound until the assignment
    that binds it has completed. *)
Definition read_local {A} (binding : option A) : result A :=
  match binding with
  | Some a => Ok a
  | None => Raise UnboundLocalError
  end.

(** The methods defined in the body of [class Command], and the functions
    the module defines at its top level, after the class. *)
Definition Command_methods : list string :=
  ["add_arguments"; "handle"; "initialize_adaptive_ai_agent";
   "generate_actions_from_plan"; "get_fallback_actions";
   "create_action_records"; "process_smart_deliverables";
   "ai_decide_documentation_need"; "ai_determine_deliverable_format";
   "determine_format_fallback"; "generate_adaptive_documentation_enhanced";
   "enhance_documentation_content"; "add_professional_padding"]%string.
Definition module_functions : list string :=
  ["generate_comprehensive_fallback_documentation"]%string.

(** [self.name], where [impl] is the function the source defines under
    that name: the attribute is looked up in the class (the base class has
    none of these names). *)
Definition self_attribute {A} (name : string) (impl : A) : result A :=
  if existsb (String.eqb name) Command_methods then Ok impl
  else Raise AttributeError.

(** The client object. *)
Inductive Client : Type := OpenAIClient.

(** [get_fallback_actions()] *)
Definition get_fallback_actions : value :=
  VList [
    VDict [(lit "title", VStr (lit "Assess Incident Scope"));
           (lit "description", VStr (lit "Evaluate the full extent and impact of the security incident"));
           (lit "operator", VStr (lit "Security Analyst"));
           (lit "priority", VStr (lit "Critical"));
           (lit "estimated_hours", VInt 1)];
    VDict [(lit "title", VStr (lit "Implement Containment"));
           (lit "description", VStr (lit "Deploy containment measures to prevent further damage"));
           (lit "operator", VStr (lit "Security Team"));
           (lit "priority", VStr (lit "High"));
           (lit "estimated_hours", VInt 2)];
    VDict [(lit "title", VStr (lit "Notify Stakeholders"));
           (lit "description", VStr (lit "Communicate incident status to relevant stakeholders"));
           (lit "operator", VStr (lit "Communications Team"));
           (lit "priority", VStr (lit "High"));
           (lit "estimated_hours", VInt 1)];
    VDict [(lit "title", VStr (lit "Collect Technical Evidence"));
           (lit "description", VStr (lit "Gather forensic evidence from affected systems"));
           (lit "operator", VStr (lit "Forensics Expert"));
           (lit "priority", VStr (lit "Medium"));
           (lit "estimated_hours", VInt 3)]].

(** The six records of [determine_format_fallback]. *)
Definition COMMUNICATIONS_EXPERT : value :=
  VDict [(lit "expert_role", VStr (lit "Communications Expert"));
         (lit "format", VStr (lit "HTML"));
         (lit "voice_eligible", VBool true);
         (lit "export_options", VStr (lit "PDF,Email,Voice"));
         (lit "reasoning", VStr (lit "Action involves stakeholder communication requiring accessible formats"))].
Definition TECHNICAL_SPECIALIST : value :=
  VDict [(lit "expert_role", VStr (lit "Technical Specialist"));
         (lit "format", VStr (lit "HTML"));
         (lit "voice_eligible", VBool false);
         (lit "export_options", VStr (lit "PDF,Email"));
         (lit "reasoning", VStr (lit "Technical action requires detailed documentation with technical specifications"))].
Definition LEGAL_COMPLIANCE_EXPERT : value :=
  VDict [(lit "expert_role", VStr (lit "Legal Compliance Expert"));
         (lit "format", VStr (lit "HTML"));
         (lit "voice_eligible", VBool false);
         (lit "export_options", VStr (lit "PDF,Email"));
         (lit "reasoning", VStr (lit "Action involves legal/compliance requirements needing formal documentation"))].
Definition EXECUTIVE_ADVISOR : value :=
  VDict [(lit "expert_role", VStr (lit "Executive Advisor"));
         (lit "format", VStr (lit "HTML"));
         (lit "voice_eligible", VBool true);
         (lit "export_options", VStr (lit "PDF,Email,Voice"));
         (lit "reasoning", VStr (lit "Executive-level action requiring strategic perspective and clear communication"))].
Definition BUSINESS_CONTINUITY_MANAGER : value :=
  VDict [(lit "expert_role", VStr (lit "Business Continuity Manager"));
         (lit "format", VStr (lit "HTML"));
         (lit "voice_eligible", VBool true);
         (lit "export_options", VStr (lit "PDF,Email,Voice"));
         (lit "reasoning", VStr (lit "Business continuity action requiring operational perspective"))].
Definition INCIDENT_RESPONSE_SPECIALIST : value :=
  VDict [(lit "expert_role", VStr (lit "Incident Response Specialist"));
         (lit "format", VStr (lit "HTML"));
         (lit "voice_eligible", VBool true);
         (lit "export_options", VStr (lit "PDF,Email,Voice"));
         (lit "reasoning", VStr (lit "General incident response action requiring coordination expertise"))].

Definition EXPERT_RECORDS : list value :=
  [COMMUNICATIONS_EXPERT; TECHNICAL_SPECIALIST; LEGAL_COMPLIANCE_EXPERT;
   EXECUTIVE_ADVISOR; BUSINESS_CONTINUITY_MANAGER; INCIDENT_RESPONSE_SPECIALIST].

(** [any(word in text for word in words)] *)
Definition any_word_in (words : list string) (text : pystr) : bool :=
  existsb (fun w => str_in (lit w) text) words.

(** The iteration [for x in v]. *)
Definition py_iter (v : value) : result (list value) :=
  match v with
  | VList l => Ok l
  | VStr s => Ok (map (fun c => VStr [c]) s)
  | VDict d => Ok (map (fun kv => VStr (fst kv)) d)
  | _ => Raise TypeError
  end.

Section Command.
Context {rt : Runtime} {ext : External}.

(** [client.chat.completions.create(...)] followed by
    [response.choices[0].message.content]. The request text is fixed by the
    state of the program, so the boundary is indexed by the position of the
    request; of each request only the fields whose evaluation can raise are
    evaluated by the callers below. *)
Definition chat_completion (client : Client) : M value :=
  fun w => (llm_reply (llm_calls w),
            {| incidents := incidents w;
               action_plans := action_plans w;
               actions := actions w;
               deliverables := deliverables w;
               llm_calls := S (llm_calls w) |}).

(** [initialize_adaptive_ai_agent()]: [None] without a key or when the
    constructor raises. *)
Definition initialize_adaptive_ai_agent : option Client :=
  match OPENROUTER_API_KEY with
  | None => None
  | Some api_key =>
      match api_key with
      | [] => None
      | _ => if client_constructs then Some OpenAIClient else None
      end
  end.

(** [generate_actions_from_plan(client, action_plan)] *)
Definition generate_actions_from_plan (client : Client) (action_plan : ActionPlan)
  : M value :=
  try_except
    (do! content := chat_completion client in
     do! found :=
       try_except
         (do! parsed_data := lift (loads_value content) in
          do! has := lift (contains (lit "actions") parsed_data) in
          if has : bool then
            do! acts := lift (getitem parsed_data (lit "actions")) in
            do! first6 := lift (slice_to 6 acts) in
            ret (Some first6)
          else ret None)
         (fun _ => ret None) in
     match found with
     | Some actions_data => ret actions_data
     | None => ret get_fallback_actions
     end)
    (fun _ => ret get_fallback_actions).

(** [Action.objects.create(...)] *)
Definition create_action (fields : Action) : M Action :=
  fun w =>
    let row := {| act_id := next_id act_id (actions w);
                  act_action_plan := act_action_plan fields;
                  act_incident := act_incident fields;
                  act_step := act_step fields;
                  act_title := act_title fields;
                  act_description := act_description fields;
                  act_operator := act_operator fields;
                  act_priority := act_priority fields;
                  act_estimated_hours := act_estimated_hours fields;
                  act_ghostdraft := act_ghostdraft fields |} in
    if accepts_action row
    then (Ok row, {| incidents := incidents w;
                     action_plans := action_plans w;
                     actions := actions w ++ [row];
                     deliverables := deliverables w;
                     llm_calls := llm_calls w |})
    else (Raise DatabaseError, w).

(** The loop of [create_action_records]: [i] is the index [enumerate]
    pairs with the entry. *)
Fixpoint create_action_loop (action_plan : ActionPlan) (entries : list value)
  (i : Z) (created_actions : list Action) : M (list Action) :=
  match entries with
  | [] => ret created_actions
  | action_data :: rest =>
      do! created_actions :=
        try_except
          (do! d := lift (get_method action_data) in
           do! action := create_action
             {| act_id := 0;
                act_action_plan := Some (ap_id action_plan);
                act_incident := ap_incident action_plan;
                act_step := i;
                act_title := dict_get d (lit "title") (VStr (lit "Action " ++ decimal i));
                act_description := dict_get d (lit "description") (VStr (lit "Action description"));
                act_operator := dict_get d (lit "operator") (VStr (lit "Security Team"));
                act_priority := dict_get d (lit "priority") (VStr (lit "Medium"));
                act_estimated_hours := dict_get d (lit "estimated_hours") (VInt 2);
                act_ghostdraft := true |} in
           ret (created_actions ++ [action]))
          (fun _ => ret created_actions) in
      create_action_loop action_plan rest (i + 1) created_actions
  end.

(** [create_action_records(action_plan, actions_data)] *)
Definition create_action_records (action_plan : ActionPlan) (actions_data : value)
  : M (list Action) :=
  do! entries := lift (py_iter actions_data) in
  create_action_loop action_plan entries 1 [].

(** [ai_decide_documentation_need(ai_agent, action, action_plan)] *)
Definition ai_decide_documentation_need (ai_agent : Client) (action : Action)
  (action_plan : ActionPlan) : M value :=
  try_except
    (do! content := chat_completion ai_agent in
     lift (loads_value content))
    (fun _ => ret (VDict [(lit "create_deliverable", VBool true);
                          (lit "reason", VStr (lit "Fallback - ensuring coverage"));
                          (lit "importance_score", VInt 7)])).

(** [determine_format_fallback(action)] *)
Definition determine_format_fallback (action : Action) : result value :=
  let! title_lower := lower_method (act_title action) in
  let! description_lower :=
    if truthy (act_description action) then lower_method (act_description action)
    else Ok [] in
  let combined_text := title_lower ++ lit " " ++ description_lower in
  if any_word_in ["communication"; "notify"; "stakeholder"; "announce";
                  "inform"; "alert"; "message"; "contact"]%string combined_text
  then Ok COMMUNICATIONS_EXPERT
  else if any_word_in ["technical"; "forensic"; "system"; "configure";
                       "implement"; "deploy"; "analyze"; "investigate"]%string
                      combined_text
  then Ok TECHNICAL_SPECIALIST
  else if any_word_in ["legal"; "compliance"; "regulatory"; "report"; "audit";
                       "breach"]%string combined_text
  then Ok LEGAL_COMPLIANCE_EXPERT
  else if any_word_in ["executive"; "leadership"; "board"; "strategic";
                       "decision"]%string combined_text
  then Ok EXECUTIVE_ADVISOR
  else if any_word_in ["business"; "continuity"; "operational"; "process";
                       "workflow"]%string combined_text
  then Ok BUSINESS_CONTINUITY_MANAGER
  else Ok INCIDENT_RESPONSE_SPECIALIST.

(** [ai_determine_deliverable_format(ai_agent, action, action_plan)] *)
Definition ai_determine_deliverable_format (ai_agent : Client) (action : Action)
  (action_plan : ActionPlan) : M value :=
  try_except
    (do! content := chat_completion ai_agent in
     lift (loads_value content))
    (fun _ => lift (determine_format_fallback action)).

(** [enhance_documentation_content(action, action_plan, specs, expert_role)] *)
Definition enhance_documentation_content (action : Action) (action_plan : ActionPlan)
  (specs expert_role : value) : result pystr :=
  fstring
   [T (text [[];
          [];
          lit "DETAILED IMPLEMENTATION METHODOLOGY:";
          [];
          lit "As a "]);
    F (Ok (format_value expert_role));
    T (lit ", the implementation of ");
    F (Ok (format_value (act_title action)));
    T (text [lit " requires a systematic approach that considers both immediate tactical requirements and long-term strategic implications for the organization's security posture.";
          [];
          lit "PHASE 1: PREPARATION AND ASSESSMENT (Detailed)";
          lit "- Comprehensive review of current incident status and impact assessment";
          lit "- Detailed evaluation of available resources and personnel";
          lit "- Thorough assessment of technical requirements and dependencies";
          lit "- Complete review of applicable policies and procedures";
          lit "- Detailed risk assessment specific to this action";
          lit "- Comprehensive stakeholder identification and communication planning";
          [];
          lit "PHASE 2: EXECUTION METHODOLOGY (Comprehensive)";
          lit "- Step-by-step implementation procedures with detailed checkpoints";
          lit "- Continuous monitoring and progress assessment protocols";
          lit "- Real-time documentation and evidence collection procedures";
          lit "- Quality assurance measures and validation checkpoints";
          lit "- Escalation procedures and decision trees";
          lit "- Communication protocols for status updates and issue reporting";
          [];
          lit "PHASE 3: VALIDATION AND CLOSURE (Thorough)";
          lit "- Comprehensive testing and validation procedures";
          lit "- Detailed success criteria verification";
          lit "- Complete documentation review and finalization";
          lit "- Thorough handoff procedures to next phase or team";
          lit "- Comprehensive lessons learned documentation";
          lit "- Detailed post-action report preparation";
          [];
          lit "RISK MANAGEMENT FRAMEWORK:";
          lit "From a "]);
    F (lower_method expert_role);
    T (text [lit " perspective, this action involves multiple risk categories that must be carefully managed throughout the implementation process.";
          [];
          lit "TECHNICAL RISKS:";
          lit "- System availability and performance impacts";
          lit "- Data integrity and confidentiality considerations";
          lit "- Integration dependencies and compatibility issues";
          lit "- Resource utilization and capacity constraints";
          [];
          lit "OPERATIONAL RISKS:";
          lit "- Personnel availability and skill requirements";
          lit "- Time constraints and scheduling dependencies";
          lit "- Communication and coordination challenges";
          lit "- Process integration and workflow impacts";
          [];
          lit "COMPLIANCE RISKS:";
          lit "- Regulatory reporting requirements";
          lit "- Legal and contractual obligations";
          lit "- Industry standard compliance requirements";
          lit "- Organizational policy adherence";
          [];
          lit "BUSINESS RISKS:";
          lit "- Service delivery and customer impact";
          lit "- Revenue and financial implications";
          lit "- Reputation and stakeholder confidence";
          lit "- Competitive advantage considerations";
          [];
          lit "QUALITY ASSURANCE PROCEDURES:";
          lit "Comprehensive quality assurance measures ensure that all aspects of this action meet professional standards and organizational requirements.";
          [];
          lit "DOCUMENTATION QUALITY:";
          lit "- Complete and accurate technical specifications";
          lit "- Thorough procedural documentation";
          lit "- Comprehensive risk assessments";
          lit "- Detailed testing and validation results";
          [];
          lit "PROCESS QUALITY:";
          lit "- Adherence to established methodologies";
          lit "- Compliance with organizational standards";
          lit "- Integration with existing workflows";
          lit "- Alignment with strategic objectives";
          [];
          lit "OUTCOME QUALITY:";
          lit "- Achievement of defined success criteria";
          lit "- Validation of expected results";
          lit "- Confirmation of risk mitigation";
          lit "- Verification of compliance requirements"])].

(** [add_professional_padding(action, expert_role)] *)
Definition add_professional_padding (action : Action) (expert_role : value)
  : result pystr :=
  fstring
   [T (text [[];
          [];
          lit "PROFESSIONAL STANDARDS AND BEST PRACTICES:";
          [];
          lit "As a "]);
    F (Ok (format_value expert_role));
    T (text [lit ", this action must be executed in accordance with industry best practices and professional standards that ensure optimal outcomes while maintaining organizational integrity and compliance requirements.";
          [];
          lit "INDUSTRY BEST PRACTICES:";
          lit "- Implementation follows established methodologies proven in enterprise environments";
          lit "- Procedures align with international standards and frameworks";
          lit "- Quality assurance measures meet professional certification requirements";
          lit "- Documentation standards exceed regulatory minimum requirements";
          [];
          lit "ORGANIZATIONAL ALIGNMENT:";
          lit "- Action supports strategic security objectives";
          lit "- Implementation considers business continuity requirements";
          lit "- Procedures integrate with existing operational workflows";
          lit "- Outcomes contribute to organizational resilience and maturity";
          [];
          lit "CONTINUOUS IMPROVEMENT:";
          lit "- Lessons learned integration for future incidents";
          lit "- Process optimization based on implementation experience";
          lit "- Knowledge transfer and organizational learning";
          lit "- Capability development and skill enhancement";
          [];
          lit "STAKEHOLDER VALUE:";
          lit "- Clear business value proposition and ROI";
          lit "- Transparent communication and expectation management";
          lit "- Measurable outcomes and success metrics";
          lit "- Long-term strategic benefit realization"])].

(** The module-level [generate_comprehensive_fallback_documentation(self,
    action, action_plan, specs)]. [incident] is the object behind
    [action.incident]. *)
Definition generate_comprehensive_fallback_documentation (action : Action)
  (action_plan : ActionPlan) (incident : Incident) (specs : value) : result pystr :=
  let! base_content := fstring
   [T (lit "🤖 ADAPTIVE AI AGENT - ");
    F (let! r := getitem specs (lit "expert_role") in upper_method r);
    T (text [lit " (Enhanced Fallback Mode)";
          lit "🛡️ GUARD FRAMEWORK COMPLIANT";
          [];
          lit "Generated: "]);
    F (Ok now_text);
    T (text [[];
          lit "Content Type: Comprehensive Professional Documentation";
          lit "Expert Role: "]);
    F (let! r := getitem specs (lit "expert_role") in Ok (format_value r));
    T (text [[];
          [];
          lit "GUARD ACTION STATEMENT:";
          lit "Control provides reasonable assurance that "]);
    F (lower_method (act_title action));
    T (text [lit " activities achieve effective incident response while maintaining organizational compliance and resilience.";
          [];
          lit "# COMPREHENSIVE INCIDENT RESPONSE ACTION DOCUMENTATION";
          lit "## From "]);
    F (let! r := getitem specs (lit "expert_role") in Ok (format_value r));
    T (text [lit " Professional Perspective";
          [];
          lit "### EXECUTIVE SUMMARY";
          [];
          lit "As a "]);
    F (let! r := getitem specs (lit "expert_role") in Ok (format_value r));
    T (lit ", this comprehensive document provides detailed implementation guidance for **");
    F (Ok (format_value (act_title action)));
    T (text [lit "** within the context of incident response operations. This action represents a critical component of the overall incident response strategy and requires careful execution to ensure optimal outcomes while maintaining organizational security posture and compliance requirements.";
          [];
          lit "The implementation of this action involves coordination across multiple organizational functions and requires adherence to established policies, procedures, and regulatory requirements. Success depends on proper preparation, systematic execution, and thorough validation of outcomes.";
          [];
          lit "### DETAILED ACTION OVERVIEW";
          [];
          lit "**Action Identification:**";
          lit "- Title: "]);
    F (Ok (format_value (act_title action)));
    T (text [[];
          lit "- Description: "]);
    F (Ok (format_value (act_description action)));
    T (text [[];
          lit "- Assigned Operator: "]);
    F (Ok (format_value (act_operator action)));
    T (text [[];
          lit "- Priority Level: "]);
    F (Ok (format_value (act_priority action)));
    T (text [[];
          lit "- Sequence Step: "]);
    F (Ok (decimal (act_step action)));
    T (text [[];
          lit "- Expert Role: "]);
    F (let! r := getitem specs (lit "expert_role") in Ok (format_value r));
    T (text [[];
          [];
          lit "**Incident Context:**";
          lit "- Incident: "]);
    F (Ok (inc_title incident));
    T (text [[];
          lit "- Selected Plan: "]);
    F (Ok (ap_plan_name action_plan));
    T (text [[];
          lit "- Plan Strategy: "]);
    F (Ok (ap_strategy action_plan));
    T (text [[];
          lit "- Risk Assessment: "]);
    F (Ok (ap_risk_level action_plan));
    T (text [[];
          lit "- Timeline: "]);
    F (Ok (ap_timeline action_plan));
    T (text [[];
          [];
          lit "### COMPREHENSIVE IMPLEMENTATION METHODOLOGY";
          [];
          lit "**PHASE 1: PREPARATION AND READINESS (30 minutes)**";
          [];
          lit "From a "]);
    F (let! r := getitem specs (lit "expert_role") in lower_method r);
    T (text [lit " perspective, proper preparation is essential for successful action execution:";
          [];
          lit "1. **Comprehensive Situation Assessment**";
          lit "   - Review current incident status and timeline";
          lit "   - Evaluate available resources and personnel";
          lit "   - Assess technical requirements and dependencies";
          lit "   - Identify potential risks and mitigation strategies";
          [];
          lit "2. **Resource Coordination and Mobilization**";
          lit "   - Coordinate with "]);
    F (Ok (format_value (act_operator action)));
    T (text [lit " for action execution";
          lit "   - Ensure all required tools and access are available";
          lit "   - Establish communication channels and protocols";
          lit "   - Verify escalation procedures and contact information";
          [];
          lit "3. **Stakeholder Communication and Alignment**";
          lit "   - Brief relevant stakeholders on action objectives";
          lit "   - Establish progress reporting mechanisms";
          lit "   - Confirm decision-making authority and escalation paths";
          lit "   - Align on success criteria and validation procedures";
          [];
          lit "**PHASE 2: SYSTEMATIC EXECUTION ("]);
    F (Ok (format_value (if truthy (act_estimated_hours action)
                        then act_estimated_hours action else VInt 2)));
    T (text [lit " hours)**";
          [];
          lit "The execution phase requires systematic implementation with continuous monitoring:";
          [];
          lit "1. **Primary Action Implementation**";
          lit "   - Execute "]);
    F (Ok (format_value (act_description action)));
    T (text [lit " according to established procedures";
          lit "   - Monitor progress against defined milestones and checkpoints";
          lit "   - Document all findings, observations, and decisions";
          lit "   - Maintain real-time communication with stakeholders";
          [];
          lit "2. **Quality Assurance and Validation**";
          lit "   - Verify that all procedures are followed correctly";
          lit "   - Validate intermediate results against expected outcomes";
          lit "   - Conduct real-time risk assessment and mitigation";
          lit "   - Ensure compliance with organizational policies";
          [];
          lit "3. **Continuous Monitoring and Adjustment**";
          lit "   - Monitor system performance and business impact";
          lit "   - Assess effectiveness of implemented measures";
          lit "   - Make necessary adjustments based on evolving conditions";
          lit "   - Document any deviations from planned procedures";
          [];
          lit "**PHASE 3: VALIDATION AND CLOSURE (30 minutes)**";
          [];
          lit "Proper closure ensures action objectives are achieved:";
          [];
          lit "1. **Comprehensive Outcome Validation**";
          lit "   - Verify completion of all action objectives";
          lit "   - Validate results against defined success criteria";
          lit "   - Confirm no adverse impacts on business operations";
          lit "   - Document final status and outcomes";
          [];
          lit "2. **Documentation and Knowledge Transfer**";
          lit "   - Complete comprehensive action documentation";
          lit "   - Transfer relevant information to next phase teams";
          lit "   - Update incident timeline and status records";
          lit "   - Prepare lessons learned documentation";
          [];
          lit "### RISK MANAGEMENT AND MITIGATION";
          [];
          lit "**Risk Assessment Framework:**";
          lit "- **Execution Risk**: "]);
    F (Ok (ap_risk_level action_plan));
    T (text [[];
          lit "- **Business Impact**: Carefully managed through systematic approach";
          lit "- **Compliance Risk**: Mitigated through adherence to frameworks";
          lit "- **Technical Risk**: Addressed through proper preparation and validation";
          [];
          lit "**Mitigation Strategies:**";
          lit "- Comprehensive preparation and planning";
          lit "- Systematic execution with continuous monitoring";
          lit "- Real-time risk assessment and adjustment";
          lit "- Thorough validation and verification procedures";
          [];
          lit "### COMPLIANCE AND REGULATORY FRAMEWORK";
          [];
          lit "This action supports compliance with multiple frameworks:";
          [];
          lit "**Information Security Management:**";
          lit "- ISO 27001:2013 - Information security incident management";
          lit "- NIST 800-53 - Security controls for federal information systems";
          lit "- NIST Cybersecurity Framework - Incident response capabilities";
          [];
          lit "**Regulatory Requirements:**";
          lit "- GDPR Article 33 - Data breach notification requirements";
          lit "- SOX Section 404 - Internal control over financial reporting";
          lit "- Industry-specific regulatory requirements as applicable";
          [];
          lit "### SUCCESS CRITERIA AND VALIDATION";
          [];
          lit "**Primary Success Criteria:**";
          lit "- Action completed within estimated timeframe of "]);
    F (Ok (format_value (if truthy (act_estimated_hours action)
                        then act_estimated_hours action else VInt 2)));
    T (text [lit " hours";
          lit "- All objectives achieved without adverse business impact";
          lit "- Compliance requirements maintained throughout execution";
          lit "- Proper documentation and knowledge transfer completed";
          [];
          lit "**Validation Procedures:**";
          lit "- Technical validation of implemented measures";
          lit "- Business validation of operational continuity";
          lit "- Compliance validation of regulatory adherence";
          lit "- Stakeholder validation of communication effectiveness";
          [];
          lit "### PROFESSIONAL QUALITY ASSURANCE";
          [];
          lit "As a "]);
    F (let! r := getitem specs (lit "expert_role") in Ok (format_value r));
    T (text [lit ", this documentation meets enterprise-grade standards:";
          [];
          lit "**Documentation Standards:**";
          lit "- Comprehensive coverage of all implementation aspects";
          lit "- Clear procedures and decision criteria";
          lit "- Proper risk assessment and mitigation strategies";
          lit "- Complete compliance and regulatory considerations";
          [];
          lit "**Professional Methodology:**";
          lit "- Systematic approach to action implementation";
          lit "- Continuous monitoring and quality assurance";
          lit "- Proper stakeholder communication and coordination";
          lit "- Thorough validation and verification procedures";
          [];
          lit "### DETAILED CONTROL FRAMEWORK ALIGNMENT";
          [];
          lit "This action aligns with multiple international control frameworks:";
          [];
          lit "**ISO 27001:2013 CONTROLS:**";
          lit "- A.16.1.1 Responsibilities and procedures for incident response";
          lit "- A.16.1.2 Reporting information security events and weaknesses";
          lit "- A.16.1.4 Assessment of information security events and incidents";
          lit "- A.16.1.5 Response to information security incidents";
          lit "- A.16.1.7 Collection of evidence";
          [];
          lit "**NIST 800-53 REV 5 CONTROLS:**";
          lit "- IR-1 Policy and Procedures";
          lit "- IR-2 Incident Response Training";
          lit "- IR-3 Incident Response Testing";
          lit "- IR-4 Incident Handling";
          lit "- IR-5 Incident Monitoring";
          lit "- IR-6 Incident Reporting";
          lit "- IR-8 Incident Response Plan";
          [];
          lit "**REGULATORY COMPLIANCE:**";
          lit "- GDPR Article 33: Notification of personal data breach to supervisory authority";
          lit "- GDPR Article 34: Communication of personal data breach to data subject";
          lit "- SOX Section 404: Internal control over financial reporting";
          lit "- HIPAA Security Rule: Administrative safeguards for incident response";
          lit "- PCI DSS Requirement 12.10: Incident response plan implementation"])] in
  let! final_content := fstring
   [F (Ok base_content);
    T (text [[];
          [];
          lit "---";
          lit "Document Classification: Professional Incident Response Documentation";
          lit "Expert Role: "]);
    F (let! r := getitem specs (lit "expert_role") in Ok (format_value r));
    T (text [[];
          lit "Content Length: "]);
    F (Ok (decimal (Z.of_nat (length base_content))));
    T (text [lit " characters";
          lit "Quality Assurance: Enterprise-grade professional standards";
          lit "Generated by Single Adaptive AI Agent (GUARD Framework)";
          lit "Reasoning: "]);
    F (let! d := get_method specs in
       Ok (format_value (dict_get d (lit "reasoning")
             (VStr (lit "Role assigned based on action characteristics")))));
    T (text [[];
          []])] in
  let! final_content :=
    if (length final_content <? 2500)%nat then
      let! additional_content := fstring
   [T (text [[];
          [];
          lit "ADDITIONAL PROFESSIONAL CONSIDERATIONS:";
          [];
          lit "As a "]);
    F (let! r := getitem specs (lit "expert_role") in Ok (format_value r));
    T (text [lit ", this action must be executed in accordance with industry best practices and professional standards that ensure optimal outcomes while maintaining organizational integrity and compliance requirements.";
          [];
          lit "INDUSTRY BEST PRACTICES:";
          lit "- Implementation follows established methodologies proven in enterprise environments";
          lit "- Procedures align with international standards and frameworks";
          lit "- Quality assurance measures meet professional certification requirements";
          lit "- Documentation standards exceed regulatory minimum requirements";
          [];
          lit "ORGANIZATIONAL ALIGNMENT:";
          lit "- Action supports strategic security objectives";
          lit "- Implementation considers business continuity requirements";
          lit "- Procedures integrate with existing operational workflows";
          lit "- Outcomes contribute to organizational resilience and maturity";
          [];
          lit "CONTINUOUS IMPROVEMENT:";
          lit "- Lessons learned integration for future incidents";
          lit "- Process optimization based on implementation experience";
          lit "- Knowledge transfer and organizational learning";
          lit "- Capability development and skill enhancement";
          [];
          lit "STAKEHOLDER VALUE:";
          lit "- Clear business value proposition and ROI";
          lit "- Transparent communication and expectation management";
          lit "- Measurable outcomes and success metrics";
          lit "- Long-term strategic benefit realization"])] in
      Ok (final_content ++ additional_content)
    else Ok final_content in
  Ok final_content.

(** The f-string whose value [generate_adaptive_documentation_enhanced]
    assigns to [formatted_content]. One of its fields reads
    [formatted_content] itself, whose binding at that point is the
    argument of the same name. *)
Definition formatted_content_pieces (formatted_content : option pystr)
  (action : Action) (incident : Incident) (specs expert_role : value)
  (guard_statement : pystr) (ai_content : value) : list piece :=
   [T (lit "🤖 ADAPTIVE AI AGENT - ");
    F (upper_method expert_role);
    T (text [[];
          lit "🛡️ GUARD FRAMEWORK COMPLIANT";
          [];
          lit "Generated: "]);
    F (Ok now_text);
    T (text [[];
          lit "Format: "]);
    F (let! v := getitem specs (lit "format") in Ok (format_value v));
    T (lit " | Voice: ");
    F (let! v := getitem specs (lit "voice_eligible") in
       Ok (if truthy v then lit "Yes" else lit "No"));
    T (text [[];
          lit "Expert Role: "]);
    F (Ok (format_value expert_role));
    T (text [[];
          lit "Action: "]);
    F (Ok (format_value (act_title action)));
    T (text [[];
          lit "Incident: "]);
    F (Ok (inc_title incident));
    T (text [[];
          [];
          lit "GUARD ACTION STATEMENT:";
          []]);
    F (Ok guard_statement);
    T (text [[];
          [];
          lit "COMPREHENSIVE EXPERT DOCUMENTATION FROM "]);
    F (upper_method expert_role);
    T (text [lit " PERSPECTIVE:";
          [];
          []]);
    F (Ok (format_value ai_content));
    T (text [[];
          [];
          lit "DETAILED CONTROL FRAMEWORK ALIGNMENT:";
          [];
          lit "This action aligns with multiple international control frameworks:";
          [];
          lit "ISO 27001:2013 CONTROLS:";
          lit "- A.16.1.1 Responsibilities and procedures for incident response";
          lit "- A.16.1.2 Reporting information security events and weaknesses";
          lit "- A.16.1.4 Assessment of information security events and incidents";
          lit "- A.16.1.5 Response to information security incidents";
          lit "- A.16.1.7 Collection of evidence";
          [];
          lit "NIST 800-53 REV 5 CONTROLS:";
          lit "- IR-1 Policy and Procedures";
          lit "- IR-2 Incident Response Training";
          lit "- IR-3 Incident Response Testing";
          lit "- IR-4 Incident Handling";
          lit "- IR-5 Incident Monitoring";
          lit "- IR-6 Incident Reporting";
          lit "- IR-8 Incident Response Plan";
          [];
          lit "NIST CYBERSECURITY FRAMEWORK 2.0:";
          lit "- RESPOND (RS): RS.RP-1, RS.CO-1, RS.AN-1, RS.MI-1, RS.IM-1";
          lit "- GOVERN (GV): GV.RM-1, GV.SC-1, GV.OC-1";
          [];
          lit "SECURE CONTROLS FRAMEWORK (SCF):";
          lit "- SCF #1415 - Incident Response Planning";
          lit "- SCF #1416 - Incident Response Testing & Exercises";
          lit "- SCF #1417 - Incident Response Implementation";
          lit "- SCF #1418 - Incident Response Communication";
          lit "- SCF #1419 - Digital Forensics";
          [];
          lit "REGULATORY COMPLIANCE CONSIDERATIONS:";
          lit "- GDPR Article 33: Notification of personal data breach to supervisory authority";
          lit "- GDPR Article 34: Communication of personal data breach to data subject";
          lit "- SOX Section 404: Internal control over financial reporting";
          lit "- HIPAA Security Rule: Administrative safeguards for incident response";
          lit "- PCI DSS Requirement 12.10: Incident response plan implementation";
          [];
          lit "PROFESSIONAL QUALITY ASSURANCE:";
          lit "This documentation has been generated by an AI agent specialized in "]);
    F (lower_method expert_role);
    T (text [lit " responsibilities and meets enterprise-grade incident response documentation standards. The content addresses both immediate tactical requirements and strategic organizational needs.";
          [];
          lit "---";
          lit "Generated by Single Adaptive AI Agent with GUARD Framework compliance";
          lit "Expert Role: "]);
    F (Ok (format_value expert_role));
    T (text [[];
          lit "Content Length: "]);
    F (let! bound := read_local formatted_content in
       Ok (decimal (Z.of_nat (length bound))));
    T (text [lit " characters";
          lit "Reasoning: "]);
    F (let! d := get_method specs in
       Ok (format_value (dict_get d (lit "reasoning")
             (VStr (lit "Role selected based on action characteristics")))));
    T (text [[];
          lit "Quality Assurance: Enterprise-grade professional documentation";
          []])].

(** The body of the [try] of [generate_adaptive_documentation_enhanced];
    [incident] is the object behind [action.incident]. The local
    [formatted_content] is still unbound when the f-string that is to be
    assigned to it is evaluated. *)
Definition documentation_try (client : Client) (action : Action)
  (action_plan : ActionPlan) (incident : Incident) (specs : value) : M pystr :=
  do! expert_role := lift (getitem specs (lit "expert_role")) in
  do! title_lower := lift (lower_method (act_title action)) in
  let guard_statement :=
    lit "Control provides reasonable assurance that " ++ title_lower ++
    lit " activities achieve effective incident response while maintaining compliance and organizational resilience." in
  do! _ := lift (upper_method expert_role) in
  do! ai_content := chat_completion client in
  do! len := lift (py_len ai_content) in
  do! ai_content :=
    (if (len <? 2000)%nat then
       do! extra := lift (enhance_documentation_content action action_plan specs expert_role) in
       lift (iadd_str ai_content extra)
     else ret ai_content) in
  let formatted_content : option pystr := None in
  do! formatted_content :=
    lift (fstring (formatted_content_pieces formatted_content action incident
                     specs expert_role guard_statement ai_content)) in
  do! formatted_content :=
    (if (length formatted_content <? 2500)%nat then
       do! padding := lift (add_professional_padding action expert_role) in
       ret (formatted_content
              ++ text [[]; []; lit "ADDITIONAL PROFESSIONAL CONSIDERATIONS:"; []]
              ++ padding)
     else ret formatted_content) in
  ret formatted_content.

(** [generate_adaptive_documentation_enhanced(client, action, action_plan,
    specs)]: the handler asks [self] for the fallback function. *)
Definition generate_adaptive_documentation_enhanced (client : Client)
  (action : Action) (action_plan : ActionPlan) (incident : Incident)
  (specs : value) : M pystr :=
  try_except
    (documentation_try client action action_plan incident specs)
    (fun _ =>
       do! fallback := lift (self_attribute
                               "generate_comprehensive_fallback_documentation"
                               generate_comprehensive_fallback_documentation) in
       lift (fallback action action_plan incident specs)).

(** [Deliverable.objects.create(...)]: [content] takes the column's default,
    the empty string. *)
Definition create_deliverable (action : Action)
  (deliverable_format export_options voice_eligible : value) : M Deliverable :=
  fun w =>
    let row := {| dl_id := next_id dl_id (deliverables w);
                  dl_action := act_id action;
                  dl_deliverable_format := deliverable_format;
                  dl_content := [];
                  dl_export_options := export_options;
                  dl_voice_eligible := voice_eligible |} in
    if accepts_deliverable row
    then (Ok row, {| incidents := incidents w;
                     action_plans := action_plans w;
                     actions := actions w;
                     deliverables := deliverables w ++ [row];
                     llm_calls := llm_calls w |})
    else (Raise DatabaseError, w).

Definition with_content (d : Deliverable) (content : pystr) : Deliverable :=
  {| dl_id := dl_id d; dl_action := dl_action d;
     dl_deliverable_format := dl_deliverable_format d;
     dl_content := content;
     dl_export_options := dl_export_options d;
     dl_voice_eligible := dl_voice_eligible d |}.

(** The body of the loop of [process_smart_deliverables], inside its
    [try]: the result is the increment of [deliverables_created]. The
    messages written to the output are kept only for the fields whose
    evaluation can raise. *)
Definition process_one_deliverable (ai_agent : Client) (action : Action)
  (action_plan : ActionPlan) (incident : Incident) : M nat :=
  do! needs_documentation := ai_decide_documentation_need ai_agent action action_plan in
  do! create := lift (getitem needs_documentation (lit "create_deliverable")) in
  if truthy create then
    do! deliverable_specs := ai_determine_deliverable_format ai_agent action action_plan in
    do! _ := lift (getitem deliverable_specs (lit "expert_role")) in
    do! deliverable_format := lift (getitem deliverable_specs (lit "format")) in
    do! export_options := lift (getitem deliverable_specs (lit "export_options")) in
    do! voice_eligible := lift (getitem deliverable_specs (lit "voice_eligible")) in
    do! deliverable := create_deliverable action deliverable_format export_options voice_eligible in
    do! ai_content := generate_adaptive_documentation_enhanced
                        ai_agent action action_plan incident deliverable_specs in
    do! _ := save_deliverable (with_content deliverable ai_content) in
    ret 1%nat
  else
    do! _ := lift (getitem needs_documentation (lit "reason")) in
    ret 0%nat.

(** [process_smart_deliverables(ai_agent, actions, action_plan)];
    [deliverables_created] is the local counter, 0 at the call. *)
Fixpoint process_smart_deliverables (ai_agent : Client) (actions : list Action)
  (action_plan : ActionPlan) (incident : Incident) (deliverables_created : nat)
  : M nat :=
  match actions with
  | [] => ret deliverables_created
  | action :: rest =>
      do! made := try_except
                    (process_one_deliverable ai_agent action action_plan incident)
                    (fun _ => ret 0%nat) in
      process_smart_deliverables ai_agent rest action_plan incident
                                 (deliverables_created + made)%nat
  end.

(** [Command.handle(plan_id=plan_id)]. The object behind
    [action_plan.incident] is fetched at its first use and kept. *)
Definition handle (plan_id : Z) : M unit :=
  do! found := try_except
                 (do! p := get_action_plan plan_id in ret (Some p))
                 (fun e => match e with
                           | DoesNotExist => ret None
                           | _ => raise e
                           end) in
  match found with
  | None => ret tt
  | Some action_plan =>
      do! incident := get_incident (ap_incident action_plan) in
      do! _ := clear_selection (inc_id incident) in
      let action_plan := mark_selected action_plan in
      do! _ := save_action_plan action_plan in
      match initialize_adaptive_ai_agent with
      | None => ret tt
      | Some ai_agent =>
          do! actions_data := generate_actions_from_plan ai_agent action_plan in
          if negb (truthy actions_data) then ret tt
          else
            do! created_actions := create_action_records action_plan actions_data in
            do! deliverables_created :=
              process_smart_deliverables ai_agent created_actions action_plan incident 0 in
            do! _ := save_incident (with_status incident (lit "ACTIONS_GENERATED")) in
            ret tt
      end
  end.

End Command.

(* ================================================================== *)
(** * The selection endpoint ([views.select_action_plan]) *)
(* ================================================================== *)

Inductive response : Type :=
| JsonResponse (status : Z) (success : bool).

Section Views.
Context {rt : Runtime} {ext : External}.

(** [ActionPlan.objects.get(id=value)]: the integer field prepares the
    value of the lookup with [int(value)] and raises what [int] raises,
    then the row with that key is fetched. *)
Definition get_action_plan_by (plan_id : value) : M ActionPlan :=
  do! key := lift (py_int plan_id) in
  get_action_plan key.

(** [call_command('generate_actions_from_plan', plan_id=plan_id)]: the
    parser of the command is run on the text of the value, since the option
    is required, and raises [CommandError] when it refuses; the command
    then runs with [options['plan_id']] as it was passed, so its own lookup
    prepares the same value. *)
Definition call_command (plan_id : value) : M unit :=
  if command_accepts plan_id then
    do! key := lift (py_int plan_id) in
    handle key
  else raise CommandError.

(** [select_action_plan(request)], with [request.data.get('plan_id')] as
    its argument: any value of the request, [None] when the key is
    missing; the [ActionPlan] model is present. *)
Definition select_action_plan (plan_id : value) : M response :=
  try_except
    (if negb (truthy plan_id) then ret (JsonResponse 400 false)
     else
       do! action_plan := get_action_plan_by plan_id in
       do! incident := get_incident (ap_incident action_plan) in
       do! _ := clear_selection (inc_id incident) in
       let action_plan := mark_selected action_plan in
       do! _ := save_action_plan action_plan in
       do! _ := call_command plan_id in
       ret (JsonResponse 200 true))
    (fun _ => ret (JsonResponse 500 false)).

End Views.

(** A plan-selection operation, and a sequence of them run one after the
    other. *)
Inductive selection : Type :=
| ByEndpoint (plan_id : value)
| ByCommand (plan_id : Z).

Section Selections.
Context {rt : Runtime} {ext : External}.

Definition run_selection (op : selection) (w : World) : World :=
  match op with
  | ByEndpoint plan_id => snd (select_action_plan plan_id w)
  | ByCommand plan_id => snd (handle plan_id w)
  end.

Definition run_selections (ops : list selection) (w : World) : World :=
  fold_left (fun w op => run_selection op w) ops w.

End Selections.

(* ================================================================== *)
(** * The plan-generation command ([auto_create_actions_deliverables.py]) *)
(* ================================================================== *)

(** What else lies outside the program for this command: two more
    environment variables, the parser behind [float(str)], the clock (as a
    time stamp and in the two formats the command prints it), and the
    database's side of the two insertions: whether an [Incident] row is
    accepted, the text or the integer a column of [ActionPlan] stores for
    the value it is given (nothing when the value is refused), whether the
    row is accepted, and the time [auto_now_add] stamps on it. *)
Class Settings : Type := {
  MAX_TOKENS : option pystr;
  TEMPERATURE : option pystr;
  float_of_str : pystr -> option spec_float;
  timezone_now : Z;
  now_suffix : pystr;
  now_stamp : pystr;
  accepts_incident : Incident -> bool;
  stored_text : value -> option pystr;
  stored_integer : value -> option Z;
  accepts_action_plan : ActionPlan -> bool;
  auto_now_add : Z -> Z;
}.

(** The three tables of [get_enhanced_fallback_plans]. *)
Definition SECURITY_PLANS : value :=
  VList [
    VDict [
      (lit "plan_name",
       VStr (lit "Rapid Security Containment"));
      (lit "strategy",
       VStr (lit "Immediate threat isolation and damage control approach. This strategy prioritizes speed over analysis when dealing with active security threats. We implement emergency response protocols to quickly identify and contain the security threat, preventing further system compromise or data exfiltration. This approach is ideal when the threat is actively spreading or when business-critical systems are at immediate risk. The focus is on stopping the bleeding first, then conducting detailed analysis."));
      (lit "timeline",
       VStr (lit "1-2 hours"));
      (lit "risk_level",
       VStr (lit "HIGH"));
      (lit "confidence_score",
       VStr (lit "HIGH"));
      (lit "estimated_hours",
       VInt 2);
      (lit "resource_requirements",
       VStr (lit "SOC Analyst, Security Team Lead, Network Administrator, System Administrator"));
      (lit "success_criteria",
       VStr (lit "Threat contained within 2 hours, affected systems isolated, immediate risks mitigated, business operations stabilized"))];
    VDict [
      (lit "plan_name",
       VStr (lit "Comprehensive Security Investigation"));
      (lit "strategy",
       VStr (lit "Thorough forensic analysis and investigation approach that prioritizes understanding over speed. This methodology conducts detailed evidence collection, root cause analysis, and comprehensive threat assessment before taking major containment actions. We ensure complete understanding of attack vectors, impact scope, and threat actor methodologies. This approach is ideal when the immediate threat is contained and we need to build a solid case for legal action or when regulatory compliance requires detailed documentation."));
      (lit "timeline",
       VStr (lit "6-8 hours"));
      (lit "risk_level",
       VStr (lit "LOW"));
      (lit "confidence_score",
       VStr (lit "HIGH"));
      (lit "estimated_hours",
       VInt 7);
      (lit "resource_requirements",
       VStr (lit "Security Analyst, Digital Forensics Expert, Threat Intelligence Analyst, Compliance Officer, Legal Liaison"));
      (lit "success_criteria",
       VStr (lit "Complete threat analysis documented, forensic evidence preserved, root cause identified, comprehensive remediation plan developed"))];
    VDict [
      (lit "plan_name",
       VStr (lit "Compliance-Focused Response"));
      (lit "strategy",
       VStr (lit "Regulatory compliance and stakeholder communication approach that prioritizes meeting legal requirements and managing external relationships. This strategy ensures all incident response actions meet regulatory requirements while effectively managing reputation and stakeholder communication. We coordinate closely with legal, compliance, and communications teams to ensure proper documentation, timely notifications, and appropriate disclosure management. Perfect when regulatory exposure is high or when the incident may require public disclosure."));
      (lit "timeline",
       VStr (lit "3-4 hours"));
      (lit "risk_level",
       VStr (lit "MEDIUM"));
      (lit "confidence_score",
       VStr (lit "HIGH"));
      (lit "estimated_hours",
       VInt 4);
      (lit "resource_requirements",
       VStr (lit "Compliance Officer, Legal Counsel, Communications Manager, Security Lead, Executive Sponsor"));
      (lit "success_criteria",
       VStr (lit "Regulatory requirements met, stakeholders appropriately informed, compliance documentation complete, legal exposure minimized"))]].

Definition DATA_BREACH_PLANS : value :=
  VList [
    VDict [
      (lit "plan_name",
       VStr (lit "GDPR Rapid Response"));
      (lit "strategy",
       VStr (lit "Fast-track response specifically designed around GDPR compliance and 72-hour notification requirements. This approach prioritizes data subject protection and regulatory notification while conducting parallel containment activities. We focus on quickly assessing the scope of personal data exposure, determining notification requirements, and preparing required documentation for regulators and affected individuals. This strategy is essential when European personal data is involved and regulatory penalties could be severe."));
      (lit "timeline",
       VStr (lit "2-3 hours"));
      (lit "risk_level",
       VStr (lit "MEDIUM"));
      (lit "confidence_score",
       VStr (lit "HIGH"));
      (lit "estimated_hours",
       VInt 3);
      (lit "resource_requirements",
       VStr (lit "Data Protection Officer, Legal Counsel, Security Analyst, Communications Team, Executive Sponsor"));
      (lit "success_criteria",
       VStr (lit "GDPR compliance maintained, regulatory notifications prepared within deadlines, data subjects protected, legal exposure minimized"))];
    VDict [
      (lit "plan_name",
       VStr (lit "Comprehensive Data Assessment"));
      (lit "strategy",
       VStr (lit "Detailed analysis approach focused on complete data exposure scope and impact assessment. This methodology conducts thorough investigation to determine exact data types, volumes, affected individuals, and potential misuse before making notification decisions. We prioritize accuracy over speed to ensure we have complete information before communicating with regulators or affected parties. This approach reduces the risk of having to issue multiple notifications or corrections, which can damage credibility with regulators."));
      (lit "timeline",
       VStr (lit "4-6 hours"));
      (lit "risk_level",
       VStr (lit "LOW"));
      (lit "confidence_score",
       VStr (lit "HIGH"));
      (lit "estimated_hours",
       VInt 5);
      (lit "resource_requirements",
       VStr (lit "Data Protection Officer, Forensics Expert, Database Administrator, Legal Team, Risk Management"));
      (lit "success_criteria",
       VStr (lit "Complete data impact assessment documented, accurate breach scope determined, informed notification decisions made, evidence preserved"))];
    VDict [
      (lit "plan_name",
       VStr (lit "Multi-Jurisdiction Compliance"));
      (lit "strategy",
       VStr (lit "Complex compliance approach addressing multi-jurisdictional requirements including GDPR, CCPA, and other regional data protection laws. This strategy coordinates international notification and response requirements while managing the complexity of different regulatory frameworks. We work with legal teams across multiple jurisdictions to ensure compliance with varying notification timelines, content requirements, and enforcement approaches. Essential for global organizations with complex data flows."));
      (lit "timeline",
       VStr (lit "4-5 hours"));
      (lit "risk_level",
       VStr (lit "MEDIUM"));
      (lit "confidence_score",
       VStr (lit "MEDIUM"));
      (lit "estimated_hours",
       VInt 4);
      (lit "resource_requirements",
       VStr (lit "International Legal Team, Compliance Officers, Data Protection Officers, Regional Security Leads, Executive Coordination"));
      (lit "success_criteria",
       VStr (lit "All jurisdictional requirements met, coordinated international response executed, legal exposure minimized across all regions"))]].

Definition SYSTEM_FAILURE_PLANS : value :=
  VList [
    VDict [
      (lit "plan_name",
       VStr (lit "Emergency Service Restoration"));
      (lit "strategy",
       VStr (lit "Immediate service restoration and business continuity approach that prioritizes getting systems back online quickly. This strategy implements rapid recovery procedures with temporary solutions while parallel investigation identifies root causes. We focus on minimizing customer impact and revenue loss by restoring service first, then improving stability. This approach is ideal when customer-facing systems are down and every minute of outage costs significant revenue or customer satisfaction."));
      (lit "timeline",
       VStr (lit "2-3 hours"));
      (lit "risk_level",
       VStr (lit "HIGH"));
      (lit "confidence_score",
       VStr (lit "HIGH"));
      (lit "estimated_hours",
       VInt 3);
      (lit "resource_requirements",
       VStr (lit "System Administrator, Network Engineer, Database Administrator, Business Continuity Manager, Customer Service Lead"));
      (lit "success_criteria",
       VStr (lit "Service restored within 3 hours, business operations resumed, customer impact minimized, temporary solutions implemented"))];
    VDict [
      (lit "plan_name",
       VStr (lit "Root Cause Investigation"));
      (lit "strategy",
       VStr (lit "Comprehensive analysis approach to identify and address the fundamental cause of system failure. This methodology conducts detailed technical investigation before implementing permanent fixes to prevent recurrence. We prioritize understanding the complete failure chain and implementing robust solutions over quick fixes that might fail again. This approach is ideal when the immediate crisis is contained and we need to ensure this type of failure doesn't happen again."));
      (lit "timeline",
       VStr (lit "5-7 hours"));
      (lit "risk_level",
       VStr (lit "LOW"));
      (lit "confidence_score",
       VStr (lit "HIGH"));
      (lit "estimated_hours",
       VInt 6);
      (lit "resource_requirements",
       VStr (lit "Senior System Engineer, Database Specialist, Infrastructure Architect, Quality Assurance Lead, Vendor Liaisons"));
      (lit "success_criteria",
       VStr (lit "Root cause identified and documented, permanent fix implemented, system stability verified, prevention measures in place"))];
    VDict [
      (lit "plan_name",
       VStr (lit "Business Impact Minimization"));
      (lit "strategy",
       VStr (lit "Balanced approach that coordinates rapid service restoration with stakeholder communication and business impact management. This strategy balances technical response with business operations and customer communication to minimize overall business damage. We work closely with business stakeholders to prioritize restoration efforts based on business criticality while keeping customers and partners informed throughout the process. Perfect when multiple business units are affected and coordination is complex."));
      (lit "timeline",
       VStr (lit "3-4 hours"));
      (lit "risk_level",
       VStr (lit "MEDIUM"));
      (lit "confidence_score",
       VStr (lit "HIGH"));
      (lit "estimated_hours",
       VInt 4);
      (lit "resource_requirements",
       VStr (lit "Technical Lead, Business Operations Manager, Customer Service Manager, Communications Team, Account Managers"));
      (lit "success_criteria",
       VStr (lit "Business impact minimized, customers kept informed, service restored with minimal disruption, relationships preserved"))]].

Definition base_plans : list (pystr * value) :=
  [(lit "security", SECURITY_PLANS);
   (lit "data-breach", DATA_BREACH_PLANS);
   (lit "system-failure", SYSTEM_FAILURE_PLANS)].

(** [get_enhanced_fallback_plans(incident_type)] *)
Definition get_enhanced_fallback_plans (incident_type : pystr) : value :=
  dict_get base_plans incident_type SECURITY_PLANS.

(** An [ActionPlan] object as [objects.create] returns it: it holds the
    values it was constructed with, whatever the columns store for them. *)
Record PlanObject : Type := {
  po_id : Z;
  po_incident : Z;
  po_plan_name : value;
  po_strategy : value;
  po_timeline : value;
  po_risk_level : value;
  po_confidence_score : value;
  po_estimated_hours : value;
  po_resource_requirements : value;
  po_success_criteria : value;
}.

(** The entries of [incident_templates]: title, description, control
    objective and framework citations. *)
Record IncidentTemplate : Type := {
  tpl_title : pystr;
  tpl_description : pystr;
  tpl_control_objective : pystr;
  tpl_framework_citations : pystr;
}.

Fixpoint assoc_lookup {A} (k : pystr) (d : list (pystr * A)) : option A :=
  match d with
  | [] => None
  | (k', v) :: r => if str_eqb k' k then Some v else assoc_lookup k r
  end.

Definition HYPHEN : N := 45.

(** [v.split(sep)] for a one-character separator: only a string has the
    method. *)
Definition split_method (v : value) (sep : N) : result (list pystr) :=
  match v with
  | VStr s => Ok (split sep s)
  | _ => Raise AttributeError
  end.

(** [len([p for p in plans if test(p)])]: the tests run in order and the
    first that raises ends the comprehension. *)
Fixpoint count_where {A} (test : A -> result bool) (l : list A) : result nat :=
  match l with
  | [] => Ok 0%nat
  | x :: r =>
      let! b := test x in
      let! n := count_where test r in
      Ok (if b then S n else n)
  end.

(** [for x in l: body(x)] for a body that only writes to the output. *)
Fixpoint for_each {A} (body : A -> result unit) (l : list A) : result unit :=
  match l with
  | [] => Ok tt
  | x :: r => let! _ := body x in for_each body r
  end.

Section PlanCommand.
Context {rt : Runtime} {ext : External} {st : Settings}.

(** [float(s)] *)
Definition py_float (s : pystr) : result spec_float :=
  match float_of_str s with
  | Some f => Ok f
  | None => Raise ValueError
  end.

(** [safe_json_parse(response_text)] on the content of a reply, which may
    be [None]: [json.loads] then raises [TypeError], which the function
    does not catch. *)
Definition safe_json_parse_content (response_text : value) : result value :=
  match response_text with
  | VStr s => safe_json_parse s
  | _ => Raise TypeError
  end.

Definition security_template : IncidentTemplate :=
  {| tpl_title := lit "SECURITY BREACH - " ++ now_suffix;
     tpl_description :=
       lit "Potential security incident detected requiring immediate strategic response planning. Multiple attack vectors identified. Automated detection systems triggered at "
       ++ now_stamp ++ lit ". Investigation required to determine scope and impact.";
     tpl_control_objective :=
       lit "Maintain data confidentiality, system integrity, and service availability while minimizing business disruption";
     tpl_framework_citations :=
       lit "ISO 27001:2013, NIST Cybersecurity Framework, GDPR Article 33" |}.

Definition data_breach_template : IncidentTemplate :=
  {| tpl_title := lit "DATA BREACH INCIDENT - " ++ now_suffix;
     tpl_description :=
       lit "Suspected unauthorized access to sensitive data systems detected. Regulatory notification may be required under GDPR/CCPA. Initial detection at "
       ++ now_stamp ++ lit ". Scope assessment and impact analysis needed urgently.";
     tpl_control_objective :=
       lit "Protect personal data and maintain regulatory compliance while preserving customer trust";
     tpl_framework_citations :=
       lit "GDPR Article 33, CCPA Section 1798.82, ISO 27001:2013 A.16" |}.

Definition system_failure_template : IncidentTemplate :=
  {| tpl_title := lit "CRITICAL SYSTEM FAILURE - " ++ now_suffix;
     tpl_description :=
       lit "Major system outage affecting business operations. Service restoration and root cause analysis required. Outage detected at "
       ++ now_stamp ++ lit ". Customer impact assessment ongoing.";
     tpl_control_objective :=
       lit "Restore service availability and prevent recurrence while maintaining data integrity";
     tpl_framework_citations :=
       lit "ITIL v4, ISO 20000-1, NIST SP 800-61" |}.

Definition incident_templates : list (pystr * IncidentTemplate) :=
  [(lit "security", security_template);
   (lit "data-breach", data_breach_template);
   (lit "system-failure", system_failure_template)].

(** [Incident.objects.create(...)] *)
Definition create_incident (template : IncidentTemplate) (status : pystr) : M Incident :=
  fun w =>
    let row := {| inc_id := next_id inc_id (incidents w);
                  inc_title := tpl_title template;
                  inc_description := VStr (tpl_description template);
                  inc_timestamp := timezone_now;
                  inc_control_objective := VStr (tpl_control_objective template);
                  inc_framework_citations := VStr (tpl_framework_citations template);
                  inc_status := status |} in
    if accepts_incident row
    then (Ok row, {| incidents := incidents w ++ [row];
                     action_plans := action_plans w;
                     actions := actions w;
                     deliverables := deliverables w;
                     llm_calls := llm_calls w |})
    else (Raise DatabaseError, w).

(** [create_unique_incident(incident_type)]: [None] when the insertion
    fails. *)
Definition create_unique_incident (incident_type : pystr) : M (option Incident) :=
  try_except
    (let template :=
       default security_template (assoc_lookup incident_type incident_templates) in
     do! incident := create_incident template (lit "PLAN_GENERATION") in
     do! _ := lift (slice_to 100 (inc_description incident)) in
     ret (Some incident))
    (fun _ => ret None).

(** [initialize_ai_client()]: [None] without a key or when the constructor
    raises. *)
Definition initialize_ai_client : option Client :=
  match OPENROUTER_API_KEY with
  | None => None
  | Some api_key =>
      match api_key with
      | [] => None
      | _ => if client_constructs then Some OpenAIClient else None
      end
  end.

(** [generate_multiple_action_plans(client, incident, incident_type)]. The
    prompt interpolates attributes of the incident just created, the
    incident type and the text of [get_incident_context], a lookup with a
    default: none of them can raise, and the reply is indexed by the
    position of the request. *)
Definition generate_multiple_action_plans (client : option Client)
  (incident : Incident) (incident_type : pystr) : M value :=
  try_except
    (match client with
     | None => ret (get_enhanced_fallback_plans incident_type)
     | Some client =>
         do! max_tokens := lift (py_int (VStr (default (lit "1000") MAX_TOKENS))) in
         do! temperature := lift (py_float (default (lit "0.7") TEMPERATURE)) in
         do! response_content := chat_completion client in
         do! parsed_data := lift (safe_json_parse_content response_content) in
         do! has := lift (contains (lit "action_plans") parsed_data) in
         do! enough :=
           (if has : bool then
              do! all := lift (getitem parsed_data (lit "action_plans")) in
              do! n := lift (py_len all) in
              ret (2 <=? n)%nat
            else ret false) in
         if enough : bool then
           do! all := lift (getitem parsed_data (lit "action_plans")) in
           do! plans := lift (slice_to 4 all) in
           do! _ := lift (py_len plans) in
           do! entries := lift (py_iter plans) in
           do! validated_plans := lift (validate_and_enhance_plans entries incident_type) in
           ret (VList validated_plans)
         else ret (get_enhanced_fallback_plans incident_type)
     end)
    (fun _ => ret (get_enhanced_fallback_plans incident_type)).

(** [ActionPlan.objects.create(...)] with [status='GENERATED'] and
    [is_selected=False]. *)
Definition create_action_plan (incident : Incident) (plan_name strategy timeline
  risk_level confidence_score estimated_hours resource_requirements
  success_criteria : value) : M PlanObject :=
  fun w =>
    let id := next_id ap_id (action_plans w) in
    let columns :=
      n ← stored_text plan_name;
      s ← stored_text strategy;
      t ← stored_text timeline;
      r ← stored_text risk_level;
      c ← stored_text confidence_score;
      h ← stored_integer estimated_hours;
      q ← stored_text resource_requirements;
      u ← stored_text success_criteria;
      Some {| ap_id := id; ap_incident := inc_id incident;
              ap_plan_name := n; ap_strategy := s; ap_timeline := t;
              ap_risk_level := r; ap_confidence_score := c;
              ap_estimated_hours := h; ap_resource_requirements := q;
              ap_success_criteria := u;
              ap_status := lit "GENERATED"; ap_is_selected := false;
              ap_created_at := auto_now_add id |} in
    match columns with
    | Some row =>
        if accepts_action_plan row
        then (Ok {| po_id := id; po_incident := inc_id incident;
                    po_plan_name := plan_name; po_strategy := strategy;
                    po_timeline := timeline; po_risk_level := risk_level;
                    po_confidence_score := confidence_score;
                    po_estimated_hours := estimated_hours;
                    po_resource_requirements := resource_requirements;
                    po_success_criteria := success_criteria |},
              {| incidents := incidents w;
                 action_plans := action_plans w ++ [row];
                 actions := actions w;
                 deliverables := deliverables w;
                 llm_calls := llm_calls w |})
        else (Raise DatabaseError, w)
    | None => (Raise DatabaseError, w)
    end.

(** The loop of [create_action_plan_records]: [i] is the index [enumerate]
    pairs with the entry. The messages written after [append] are inside
    the same [try]: a failure there is swallowed after the object has been
    appended, so they are left out. *)
Fixpoint create_plan_loop (incident : Incident) (entries : list value) (i : Z)
  (created_plans : list PlanObject) : M (list PlanObject) :=
  match entries with
  | [] => ret created_plans
  | plan_data :: rest =>
      do! created_plans :=
        try_except
          (do! d := lift (get_method plan_data) in
           do! action_plan := create_action_plan incident
             (dict_get d (lit "plan_name") (VStr (lit "Strategic Plan " ++ decimal i)))
             (dict_get d (lit "strategy") (VStr (lit "Comprehensive incident response approach")))
             (dict_get d (lit "timeline") (VStr (lit "2-4 hours")))
             (dict_get d (lit "risk_level") (VStr (lit "MEDIUM")))
             (dict_get d (lit "confidence_score") (VStr (lit "MEDIUM")))
             (dict_get d (lit "estimated_hours") (VInt 3))
             (dict_get d (lit "resource_requirements") (VStr (lit "Security Team")))
             (dict_get d (lit "success_criteria") (VStr (lit "Incident resolved successfully"))) in
           ret (created_plans ++ [action_plan]))
          (fun _ => ret created_plans) in
      create_plan_loop incident rest (i + 1) created_plans
  end.

(** [create_action_plan_records(incident, plans_data)] *)
Definition create_action_plan_records (incident : Incident) (plans_data : value)
  : M (list PlanObject) :=
  do! _ := lift (py_len plans_data) in
  do! entries := lift (py_iter plans_data) in
  create_plan_loop incident entries 1 [].

(** The test ['hour' in p.timeline and cmp(int(p.timeline.split('-')[0]))]
    of the two statistics of [display_completion_summary]. *)
Definition hours_test (cmp : Z -> bool) (p : PlanObject) : result bool :=
  let! has := contains (lit "hour") (po_timeline p) in
  if has : bool then
    let! parts := split_method (po_timeline p) HYPHEN in
    match parts with
    | first :: _ => let! n := py_int (VStr first) in Ok (cmp n)
    | [] => Raise IndexError
    end
  else Ok false.

(** [display_completion_summary(incident, plans)]: it only writes to the
    output; what is kept is what can raise. *)
Definition display_completion_summary (incident : Incident) (plans : list PlanObject)
  : result unit :=
  let! speed_options := count_where (hours_test (fun n => n <=? 2)) plans in
  let! comprehensive_options := count_where (hours_test (fun n => 4 <=? n)) plans in
  Ok tt.

(** [display_plan_selection_instructions(plans)] *)
Definition display_plan_selection_instructions (plans : list PlanObject) : result unit :=
  let! _ := for_each (fun plan =>
                        let! _ := slice_to 120 (po_strategy plan) in
                        let! _ := slice_to 80 (po_success_criteria plan) in
                        Ok tt) plans in
  match plans with
  | first :: _ => Ok tt
  | [] => Raise IndexError
  end.

End PlanCommand.

Module AutoCreate.
Section Command.
Context {rt : Runtime} {ext : External} {st : Settings}.

(** [Command.handle(incident_type=incident_type)] of the plan-generation
    command. *)
Definition handle (incident_type : pystr) : M unit :=
  do! incident := create_unique_incident incident_type in
  match incident with
  | None => ret tt
  | Some incident =>
      let client := initialize_ai_client in
      do! action_plans_data :=
        generate_multiple_action_plans client incident incident_type in
      if negb (truthy action_plans_data) then ret tt
      else
        do! created_plans := create_action_plan_records incident action_plans_data in
        match created_plans with
        | [] => ret tt
        | _ :: _ =>
            let incident := with_status incident (lit "AWAITING_PLAN_SELECTION") in
            do! _ := save_incident incident in
            do! _ := lift (display_completion_summary incident created_plans) in
            do! _ := lift (display_plan_selection_instructions created_plans) in
            ret tt
        end
  end.

End Command.
End AutoCreate.

(* ================================================================== *)
(** * Predicates used by the properties *)
(* ================================================================== *)

(** The entries of a plan record on which no coercion of the validator
    fails: [risk_level] and [confidence_score], when present, are strings;
    [estimated_hours], when present, is accepted by [int()]; [strategy],
    when present, is a string, a list, or a mapping of at least fifty
    entries (a shorter mapping passes [len()] and fails [+=]). *)
Definition text_or_absent (o : option value) : bool :=
  match o with
  | None | Some (VStr _) => true
  | Some _ => false
  end.

Definition int_coercible {rt : Runtime} (v : value) : bool :=
  match v with
  | VInt _ | VBool _ => true
  | VFloat (S754_zero _) | VFloat (S754_finite _ _ _) => true
  | VStr s => match int_of_str s with Some _ => true | None => false end
  | _ => false
  end.

Definition strategy_usable (v : value) : bool :=
  match v with
  | VStr _ | VList _ => true
  | VDict d => (50 <=? length d)%nat
  | _ => false
  end.

Definition coercible_plan {rt : Runtime} (plan : value) : bool :=
  match plan with
  | VDict d =>
      text_or_absent (dict_lookup (lit "risk_level") d)
      && text_or_absent (dict_lookup (lit "confidence_score") d)
      && match dict_lookup (lit "estimated_hours") d with
         | None => true
         | Some v => int_coercible v
         end
      && match dict_lookup (lit "strategy") d with
         | None => true
         | Some v => strategy_usable v
         end
  | _ => false
  end.

(** A validated record: levels in the enumeration, hours in range. *)
Definition in_range (p : enhanced_plan) : Prop :=
  In (risk_level p) LEVELS /\ In (confidence_score p) LEVELS
  /\ 1 <= estimated_hours p <= 8.

(** The exceptions the first [except] clause of the parser names. *)
Definition decode_error (e : exn) : bool :=
  match e with
  | JSONDecodeError _ _ _ => true
  | _ => false
  end.

(** A reply cut off in the middle. *)
Definition TRUNCATED_REPLY : pystr := dq "{'action_plans': [{'plan_name': 'Rapid'".

(** A reply cut off inside a number: an opening bracket and 4301 times
    the digit 9. *)
Definition LONG_INTEGER : pystr := lit "[" ++ repeat 57%N 4301.

(** The scenario of the specification: a reply with one plan that has only
    a name. *)
Definition SCENARIO_REPLY : pystr := dq "{'action_plans': [{'plan_name': 'X'}]}".
Definition SCENARIO_PLAN : value := VDict [(lit "plan_name", VStr (lit "X"))].
Definition SCENARIO_DECODED : value :=
  VDict [(lit "action_plans", VList [SCENARIO_PLAN])].
Definition SCENARIO_RECORD : enhanced_plan :=
  {| plan_name := VStr (lit "X");
     strategy := VStr DEFAULT_STRATEGY;
     timeline := VStr (lit "2-4 hours");
     risk_level := lit "MEDIUM";
     confidence_score := lit "MEDIUM";
     estimated_hours := 3;
     resource_requirements := VStr DEFAULT_RESOURCES;
     success_criteria := VStr DEFAULT_CRITERIA |}.

(** The scenario as the specification describes its outcome: the strategy
    of the validated record ends with the generated sentence. *)
Definition scenario_as_described : Prop :=
  exists p base,
    @safe_json_parse Ref.runtime SCENARIO_REPLY = Ok SCENARIO_DECODED
    /\ @validate_and_enhance_plans Ref.runtime [SCENARIO_PLAN] (lit "security")
       = Ok [plan_dict p]
    /\ risk_level p = lit "MEDIUM"
    /\ confidence_score p = lit "MEDIUM"
    /\ strategy p = VStr (base ++ @risk_sentence Ref.runtime (risk_level p)).

(** The fields of an [Action] as the model declares them: the title is
    text, and the description is text or an object that counts as false. *)
Definition is_text (v : value) : bool :=
  match v with
  | VStr _ => true
  | _ => false
  end.
Definition text_or_falsy (v : value) : bool := is_text v || negb (truthy v).

(** What an expert record promises about its format and export options. *)
Definition consistent_record (r : value) : Prop :=
  getitem r (lit "format") = Ok (VStr (lit "HTML"))
  /\ (getitem r (lit "voice_eligible") = Ok (VBool true)
      <-> getitem r (lit "export_options") = Ok (VStr (lit "PDF,Email,Voice")))
  /\ (getitem r (lit "voice_eligible") = Ok (VBool false)
      <-> getitem r (lit "export_options") = Ok (VStr (lit "PDF,Email"))).

(** The plans of an incident that are flagged as selected. *)
Definition selected_plans (incident_id : Z) (w : World) : list ActionPlan :=
  List.filter (fun p => (ap_incident p =? incident_id) && ap_is_selected p)
              (action_plans w).

Definition at_most_one_selected (incident_id : Z) (w : World) : Prop :=
  (length (selected_plans incident_id w) <= 1)%nat.

(** Primary keys are unique. *)
Definition unique_plan_ids (w : World) : Prop :=
  List.NoDup (map ap_id (action_plans w)).

Definition find_plan (plan_id : Z) (w : World) : option ActionPlan :=
  find (fun p => ap_id p =? plan_id) (action_plans w).
Definition find_incident (incident_id : Z) (w : World) : option Incident :=
  find (fun i => inc_id i =? incident_id) (incidents w).

(** A computation keeps a relation between the state before and after. *)
Definition preserves {A} (R : World -> World -> Prop) (m : M A) : Prop :=
  forall w, R w (snd (m w)).

(** A computation never returns normally. *)
Definition never_returns {A} (m : M A) : Prop :=
  forall w, is_ok (fst (m w)) = false.

(** Only the request counter may differ. *)
Definition same_tables (w w' : World) : Prop :=
  incidents w' = incidents w /\ action_plans w' = action_plans w
  /\ actions w' = actions w /\ deliverables w' = deliverables w.

(** Only deliverables with empty content were added. *)
Definition added_empty_deliverables (w w' : World) : Prop :=
  incidents w' = incidents w /\ action_plans w' = action_plans w
  /\ actions w' = actions w
  /\ exists news, deliverables w' = deliverables w ++ news
                  /\ Forall (fun d => dl_content d = []) news.

(** A computation returns only values that satisfy [P]. *)
Definition returns_only {A} (P : A -> Prop) (m : M A) : Prop :=
  forall w a, fst (m w) = Ok a -> P a.

(** The plan table after the three selection statements for the plan [p]:
    the flag is cleared on the plans of its incident, then the row of [p]
    is overwritten with [p] flagged and marked SELECTED. *)
Definition select_rows (p : ActionPlan) (rows : list ActionPlan) : list ActionPlan :=
  save_row ap_id (mark_selected p)
    (map (fun q => if ap_incident q =? ap_incident p then unselect q else q) rows).

(** The row-by-row form of [select_rows] when the plan is in the table. *)
Definition select_row (p q : ActionPlan) : ActionPlan :=
  if ap_id q =? ap_id p then mark_selected p
  else if ap_incident q =? ap_incident p then unselect q else q.

Section CommandParts.
Context {rt : Runtime} {ext : External}.

(** The part of [handle] that follows the selection statements. *)
Definition after_selection (action_plan : ActionPlan) (incident : Incident) : M unit :=
  match initialize_adaptive_ai_agent with
  | None => ret tt
  | Some ai_agent =>
      do! actions_data := generate_actions_from_plan ai_agent action_plan in
      if negb (truthy actions_data) then ret tt
      else
        do! created_actions := create_action_records action_plan actions_data in
        do! deliverables_created :=
          process_smart_deliverables ai_agent created_actions action_plan incident 0 in
        do! _ := save_incident (with_status incident (lit "ACTIONS_GENERATED")) in
        ret tt
  end.

End CommandParts.

Definition is_dict (v : value) : bool :=
  match v with
  | VDict _ => true
  | _ => false
  end.

(** The plan a selection operation acts on, when it names one: the
    endpoint goes on with a value that counts as true, and looks up the
    integer [int] makes of it. *)
Definition chosen_plan {rt : Runtime} (op : selection) : option Z :=
  match op with
  | ByCommand plan_id => Some plan_id
  | ByEndpoint plan_id =>
      if truthy plan_id then
        match py_int plan_id with
        | Ok key => Some key
        | Raise _ => None
        end
      else None
  end.

(** The argument parser of the command takes every integer. *)
Definition integers_accepted (rt : Runtime) : Prop :=
  forall z, command_accepts (VInt z) = true.

(* ================================================================== *)
(** * A small database and the environments of the examples *)
(* ================================================================== *)

Definition DEMO_INCIDENT : Incident :=
  {| inc_id := 1;
     inc_title := lit "SECURITY BREACH - 20250101_000000";
     inc_description := VStr (lit "Potential security incident detected.");
     inc_timestamp := 1735689600;
     inc_control_objective := VStr (lit "Maintain data confidentiality");
     inc_framework_citations := VStr (lit "ISO 27001:2013");
     inc_status := lit "AWAITING_PLAN_SELECTION" |}.

Definition demo_plan (id : Z) (name : string) (selected : bool) : ActionPlan :=
  {| ap_id := id; ap_incident := 1;
     ap_plan_name := lit name;
     ap_strategy := lit "Immediate threat isolation and damage control approach.";
     ap_timeline := lit "1-2 hours";
     ap_risk_level := lit "HIGH";
     ap_confidence_score := lit "HIGH";
     ap_estimated_hours := 2;
     ap_resource_requirements := lit "SOC Analyst";
     ap_success_criteria := lit "Threat contained within 2 hours";
     ap_status := lit "GENERATED";
     ap_is_selected := selected;
     ap_created_at := 1735689600 |}.

(** One incident with two plans, the first of them selected. *)
Definition DEMO_WORLD : World :=
  {| incidents := [DEMO_INCIDENT];
     action_plans := [demo_plan 1 "Rapid Security Containment" true;
                      demo_plan 2 "Comprehensive Security Investigation" false];
     actions := [];
     deliverables := [];
     llm_calls := 0 |}.

(** No API key in the environment. *)
Definition NO_KEY : External :=
  {| OPENROUTER_API_KEY := None;
     client_constructs := true;
     llm_reply := fun _ => Raise APIError;
     accepts_action := fun _ => true;
     accepts_deliverable := fun _ => true;
     now_text := lit "2025-01-01 00:00:00" |}.

(** A key, and a model that answers the first request with one action and
    every later request with twelve characters of prose. *)
Definition ONE_ACTION : External :=
  {| OPENROUTER_API_KEY := Some (lit "sk-or-demo");
     client_constructs := true;
     llm_reply := fun n =>
       match n with
       | O => Ok (VStr (dq "{'actions': [{'title': 'Isolate host'}]}"))
       | _ => Ok (VStr (lit "Short prose."))
       end;
     accepts_action := fun _ => true;
     accepts_deliverable := fun _ => true;
     now_text := lit "2025-01-01 00:00:00" |}.

(** A key, and a model whose every request fails. *)
Definition UNREACHABLE : External :=
  {| OPENROUTER_API_KEY := Some (lit "sk-or-demo");
     client_constructs := true;
     llm_reply := fun _ => Raise APIError;
     accepts_action := fun _ => true;
     accepts_deliverable := fun _ => true;
     now_text := lit "2025-01-01 00:00:00" |}.

(** A key, and a model that numbers its one action instead of naming it
    and fails on every later request. *)
Definition NUMERIC_TITLE : External :=
  {| OPENROUTER_API_KEY := Some (lit "sk-or-demo");
     client_constructs := true;
     llm_reply := fun n =>
       match n with
       | O => Ok (VStr (dq "{'actions': [{'title': 5}]}"))
       | _ => Raise APIError
       end;
     accepts_action := fun _ => true;
     accepts_deliverable := fun _ => true;
     now_text := lit "2025-01-01 00:00:00" |}.

(** A reply with one plan whose risk level is a number. *)
Definition NUMERIC_RISK_REPLY : pystr := dq "{'action_plans': [{'risk_level': 5}]}".

(** Plans as a model may send them: lower-case levels, hours as text and
    out of range, a short strategy, a record with no field at all. *)
Definition LOOSE_PLANS : list value :=
  [VDict [(lit "plan_name", VStr (lit "X"));
          (lit "strategy", VStr (lit "short"));
          (lit "risk_level", VStr (lit "high"));
          (lit "confidence_score", VStr (lit "certain"));
          (lit "estimated_hours", VStr (lit " 12 "))];
   VDict []].

Definition DEMO_ACTION : Action :=
  {| act_id := 1; act_action_plan := Some 2; act_incident := 1; act_step := 1;
     act_title := VStr (lit "Notify Stakeholders");
     act_description := VStr (lit "Communicate incident status to relevant stakeholders");
     act_operator := VStr (lit "Communications Team");
     act_priority := VStr (lit "High");
     act_estimated_hours := VInt 1;
     act_ghostdraft := true |}.

(* ================================================================== *)
(** * Predicates and data of the further properties *)
(* ================================================================== *)

(** The fence marker of a Markdown code block. *)
Definition FENCE : pystr := [BACKTICK; BACKTICK; BACKTICK].

(** [s.count(c)] for a one-character needle. *)
Definition count_char (c : N) (s : pystr) : nat :=
  length (List.filter (fun x => (x =? c)%N) s).

(** A reply wrapped in a fenced code block with a language tag. *)
Definition fenced (tag body : pystr) : pystr :=
  FENCE ++ tag ++ [NL] ++ body ++ FENCE.

(** A reply cut off inside a string. *)
Definition UNTERMINATED_REPLY : pystr := dq "{'action_plans': [{'plan_name': 'Rapid".

(** A reply in a fenced block, as chat models send it. *)
Definition FENCED_REPLY : pystr := fenced (lit "json") (SCENARIO_REPLY ++ [NL]).

(** The float 2.0, as the JSON number [2.0] of a request is decoded. *)
Definition TWO_POINT_ZERO : value := VFloat (S754_finite false 4503599627370496 (-51)).

(** An [Action] row that belongs to the plan [p]: it points to the plan and
    to the plan's incident, and is flagged for drafting. *)
Definition owned_by (p : ActionPlan) (a : Action) : Prop :=
  act_action_plan a = Some (ap_id p) /\ act_incident a = ap_incident p
  /\ act_ghostdraft a = true.

(** Only [Action] rows that satisfy [P] were added, after the rows that
    were there. *)
Definition added_actions (P : Action -> Prop) (w w' : World) : Prop :=
  exists news, actions w' = actions w ++ news /\ Forall P news.

(** A key, a model whose every request fails, and a database that refuses
    every [Action] row. *)
Definition REFUSING : External :=
  {| OPENROUTER_API_KEY := Some (lit "sk-or-demo");
     client_constructs := true;
     llm_reply := fun _ => Raise APIError;
     accepts_action := fun _ => false;
     accepts_deliverable := fun _ => true;
     now_text := lit "2025-01-01 00:00:00" |}.

(** Only [Deliverable] rows were added, after the rows that were there, and
    the added rows satisfy [P]. *)
Definition added_deliverables (P : list Deliverable -> Prop) (w w' : World) : Prop :=
  incidents w' = incidents w /\ action_plans w' = action_plans w
  /\ actions w' = actions w
  /\ exists news, deliverables w' = deliverables w ++ news /\ P news.

(** At most one row, attached to the action [a], with empty content. *)
Definition for_action (a : Action) (news : list Deliverable) : Prop :=
  (length news <= 1)%nat
  /\ Forall (fun d => dl_action d = act_id a /\ dl_content d = []) news.

(** Rows attached to actions of the list, in its order and at most one
    for each, with empty content. *)
Definition for_actions (l : list Action) (news : list Deliverable) : Prop :=
  sublist (map dl_action news) (map act_id l)
  /\ Forall (fun d => dl_content d = []) news.

(** A row as the keyword table fills it. *)
Definition keyword_deliverable (d : Deliverable) : Prop :=
  dl_deliverable_format d = VStr (lit "HTML") /\ dl_content d = []
  /\ ((dl_export_options d = VStr (lit "PDF,Email,Voice")
       /\ dl_voice_eligible d = VBool true)
      \/ (dl_export_options d = VStr (lit "PDF,Email")
          /\ dl_voice_eligible d = VBool false)).

(** The state after one more request to the model. *)
Definition one_more_request (w : World) : World :=
  {| incidents := incidents w;
     action_plans := action_plans w;
     actions := actions w;
     deliverables := deliverables w;
     llm_calls := S (llm_calls w) |}.

(** At most [k] requests were made to the model. *)
Definition calls_within (k : nat) (w w' : World) : Prop :=
  (llm_calls w <= llm_calls w' <= llm_calls w + k)%nat.

(** The number of characters an f-string has before any field is filled. *)
Fixpoint static_length (ps : list piece) : nat :=
  match ps with
  | [] => 0
  | T t :: r => length t + static_length r
  | F _ :: r => static_length r
  end.

(** A plan record as the validator leaves it. *)
Definition valid_plan (v : value) : Prop :=
  exists p, v = plan_dict p /\ in_range p
    /\ exists len, py_len (strategy p) = Ok len /\ (50 <= len)%nat.

(** The plans of the payload [safe_json_parse] falls back to. *)
Definition GENERIC_PLANS : value :=
  match getitem FALLBACK_PAYLOAD (lit "action_plans") with
  | Ok plans => plans
  | Raise _ => VNone
  end.

(** Settings with nothing set in the environment, a parser for plain
    decimal fractions standing in for [float], and a database that stores
    text as it is and accepts every row. *)
Definition DEMO_SETTINGS : Settings :=
  {| MAX_TOKENS := None;
     TEMPERATURE := None;
     float_of_str := fun s => if str_eqb s (lit "0.7")
                              then Some (S754_finite false 6305039478318694 (-53))
                              else None;
     timezone_now := 1735689600;
     now_suffix := lit "20250101_000000";
     now_stamp := lit "2025-01-01 00:00:00";
     accepts_incident := fun _ => true;
     stored_text := fun v => match v with VStr s => Some s | _ => None end;
     stored_integer := fun v => match v with VInt z => Some z | _ => None end;
     accepts_action_plan := fun _ => true;
     auto_now_add := fun _ => 1735689600 |}.

(** A key, and a model that answers with a reply cut off in the middle. *)
Definition TRUNCATING : External :=
  {| OPENROUTER_API_KEY := Some (lit "sk-or-demo");
     client_constructs := true;
     llm_reply := fun _ => Ok (VStr TRUNCATED_REPLY);
     accepts_action := fun _ => true;
     accepts_deliverable := fun _ => true;
     now_text := lit "2025-01-01 00:00:00" |}.

(** A plan row as the plan-generation command inserts it for the incident
    with the given key. *)
Definition fresh_plan (incident_id : Z) (p : ActionPlan) : Prop :=
  ap_incident p = incident_id /\ ap_is_selected p = false
  /\ ap_status p = lit "GENERATED".

(** The state with more plan rows, or one more incident row. *)
Definition add_plans (w : World) (news : list ActionPlan) : World :=
  {| incidents := incidents w;
     action_plans := action_plans w ++ news;
     actions := actions w;
     deliverables := deliverables w;
     llm_calls := llm_calls w |}.

Definition add_incident (w : World) (i : Incident) : World :=
  {| incidents := incidents w ++ [i];
     action_plans := action_plans w;
     actions := actions w;
     deliverables := deliverables w;
     llm_calls := llm_calls w |}.

(** Every plan belongs to an incident of the table. *)
Definition plans_have_incidents (w : World) : Prop :=
  Forall (fun p => exists i, In i (incidents w) /\ inc_id i = ap_incident p)
         (action_plans w).

(** What one run of the plan-generation command leaves: nothing, or one
    more incident with at most four plans, none of them selected. *)
Definition plans_generated (w w' : World) : Prop :=
  actions w' = actions w /\ deliverables w' = deliverables w
  /\ ((incidents w' = incidents w /\ action_plans w' = action_plans w)
      \/ exists inc news,
           incidents w' = incidents w ++ [inc]
           /\ inc_id inc = next_id inc_id (incidents w)
           /\ action_plans w' = action_plans w ++ news
           /\ (length news <= 4)%nat
           /\ Forall (fresh_plan (inc_id inc)) news
           /\ inc_status inc = match news with
                               | [] => lit "PLAN_GENERATION"
                               | _ :: _ => lit "AWAITING_PLAN_SELECTION"
                               end).

(** One incident was appended, in AWAITING_PLAN_SELECTION, with at least
    one plan. *)
Definition stored_and_awaiting (w w' : World) : Prop :=
  exists inc p news,
    incidents w' = incidents w ++ [inc]
    /\ inc_status inc = lit "AWAITING_PLAN_SELECTION"
    /\ action_plans w' = action_plans w ++ p :: news
    /\ Forall (fresh_plan (inc_id inc)) (p :: news).

(** A key, and a model that answers with two plans whose timeline has no
    hyphen. *)
Definition HOURLY : External :=
  {| OPENROUTER_API_KEY := Some (lit "sk-or-demo");
     client_constructs := true;
     llm_reply := fun _ =>
       Ok (VStr (dq "{'action_plans': [{'plan_name': 'A', 'timeline': '2 hours'}, {'plan_name': 'B', 'timeline': '2 hours'}]}"));
     accepts_action := fun _ => true;
     accepts_deliverable := fun _ => true;
     now_text := lit "2025-01-01 00:00:00" |}.

(** The timelines on which the two statistics of the summary can be
    computed: text that does not mention [hour], or whose part before the
    first hyphen is a numeral; a list without the element ['hour']; a
    mapping without the key ['hour']. *)
Definition timeline_countable {rt : Runtime} (v : value) : bool :=
  match v with
  | VStr s =>
      if str_in (lit "hour") s then
        match split HYPHEN s with
        | first :: _ => match int_of_str first with Some _ => true | None => false end
        | [] => false
        end
      else true
  | VList l => negb (existsb (fun x => value_is_str x (lit "hour")) l)
  | VDict d => match dict_lookup (lit "hour") d with Some _ => false | None => true end
  | _ => false
  end.

(** The values a slice can be taken of. *)
Definition sliceable (v : value) : bool :=
  match v with
  | VStr _ | VList _ => true
  | _ => false
  end.

(* ================================================================== *)
(** * Properties of the parser *)
(* ================================================================== *)

Lemma str_eqb_eq (a b : pystr) : str_eqb a b = true <-> a = b.
Proof.
  revert b. induction a as [|x a IH]; intros [|y b]; simpl; split;
    try congruence; try reflexivity.
  - intros H. apply andb_true_iff in H as [H1 H2].
    apply N.eqb_eq in H1. apply IH in H2. congruence.
  - intros H. injection H as -> ->. rewrite N.eqb_refl. simpl. now apply IH.
Qed.

Lemma str_eqb_refl (a : pystr) : str_eqb a a = true.
Proof. now apply str_eqb_eq. Qed.

Section ParserFacts.
Context {rt : Runtime}.

(** The repair steps never raise: the line they index exists. *)
Lemma repair_returns (response_text msg : pystr) (pos : nat) :
  exists cleaned, repair response_text msg pos = Ok cleaned.
Proof.
  unfold repair.
  destruct (str_in _ _); [|eauto].
  destruct (_ <? _)%nat eqn:Hlt; [|eauto].
  apply Nat.ltb_lt in Hlt.
  destruct (_ !! _) as [line|] eqn:Hline.
  - destruct (_ && _); eauto.
  - apply lookup_ge_None in Hline. lia.
Qed.

(** A [JSONDecodeError] of the decoder carries the text it was given. *)
Lemma loads_decode_error (s msg doc : pystr) (pos : nat) :
  loads s = Raise (JSONDecodeError msg doc pos) -> doc = s.
Proof.
  unfold loads. destruct (json_loads s) as [v|e]; [discriminate|].
  destruct e; intros H; try discriminate H. now injection H as _ <- _.
Qed.

Lemma safe_json_parse_decoded (response_text : pystr) (v : value) :
  loads response_text = Ok v -> safe_json_parse response_text = Ok v.
Proof. intros H. unfold safe_json_parse. now rewrite H. Qed.

(** After a [JSONDecodeError] the result is that of the second attempt,
    which sits under a bare [except]. *)
Lemma safe_json_parse_second_attempt (response_text msg cleaned : pystr) (pos : nat) :
  loads response_text = Raise (JSONDecodeError msg response_text pos) ->
  repair response_text msg pos = Ok cleaned ->
  safe_json_parse response_text
  = match loads cleaned with
    | Ok v => Ok v
    | Raise _ => Ok FALLBACK_PAYLOAD
    end.
Proof. intros Hl Hr. unfold safe_json_parse. rewrite Hl, Hr. reflexivity. Qed.

(** Any other exception of the first attempt is not caught. *)
Lemma safe_json_parse_propagates (response_text : pystr) (e : exn) :
  loads response_text = Raise e -> decode_error e = false ->
  safe_json_parse response_text = Raise e.
Proof.
  intros Hl He. unfold safe_json_parse. rewrite Hl.
  destruct e; try reflexivity. discriminate He.
Qed.

End ParserFacts.

(** C1, as amended. When the first decoding attempt raises
    [JSONDecodeError], the repair steps yield a cleaned text and
    [safe_json_parse] returns: the value of the cleaned text when that can
    be decoded, and the fixed payload, a mapping whose only key
    [action_plans] holds four plans, whatever the second attempt raises.
    When the first attempt raises anything else, that exception reaches the
    caller; so the parser returns exactly when the first attempt returns
    or raises [JSONDecodeError]. *)
Theorem safe_json_parse_falls_back (rt : Runtime) (response_text : pystr) :
  (forall msg pos,
     loads response_text = Raise (JSONDecodeError msg response_text pos) ->
     exists cleaned, repair response_text msg pos = Ok cleaned /\
       (is_ok (loads cleaned) = false ->
        safe_json_parse response_text = Ok FALLBACK_PAYLOAD) /\
       (forall v, loads cleaned = Ok v -> safe_json_parse response_text = Ok v)) /\
  (forall e, loads response_text = Raise e ->
     is_ok (safe_json_parse response_text) = decode_error e
     /\ (decode_error e = false -> safe_json_parse response_text = Raise e)) /\
  (forall v, loads response_text = Ok v -> safe_json_parse response_text = Ok v) /\
  (exists plans, FALLBACK_PAYLOAD = VDict [(lit "action_plans", VList plans)]
                 /\ length plans = 4%nat).
Proof.
  split; [|split; [|split]].
  - intros msg pos Hfirst.
    destruct (repair_returns response_text msg pos) as [cleaned Hc].
    exists cleaned. split; [exact Hc|].
    rewrite (safe_json_parse_second_attempt response_text msg cleaned pos Hfirst Hc).
    split.
    + now destruct (loads cleaned).
    + now intros v ->.
  - intros e Hfirst. split.
    + destruct (decode_error e) eqn:He.
      * destruct e; try discriminate He.
        pose proof (loads_decode_error _ _ _ _ Hfirst) as ->.
        destruct (repair_returns response_text msg pos) as [cleaned Hc].
        rewrite (safe_json_parse_second_attempt response_text msg cleaned pos Hfirst Hc).
        now destruct (loads cleaned).
      * now rewrite (safe_json_parse_propagates response_text e Hfirst He).
    + now apply safe_json_parse_propagates.
  - apply safe_json_parse_decoded.
  - eexists. split; [reflexivity|reflexivity].
Qed.

(** The truncated reply of the specification's scenario ends in the fixed
    payload. *)
Lemma safe_json_parse_falls_back_witness :
  @safe_json_parse Ref.runtime TRUNCATED_REPLY = Ok FALLBACK_PAYLOAD.
Proof.
  destruct (safe_json_parse_falls_back Ref.runtime TRUNCATED_REPLY) as (H & _).
  destruct (H (lit "Expecting ',' delimiter") 39%nat) as (cleaned & Hc & Hf & _).
  { vm_compute. reflexivity. }
  assert (cleaned = TRUNCATED_REPLY) as ->.
  { vm_compute in Hc. injection Hc as <-. vm_compute. reflexivity. }
  apply Hf. vm_compute. reflexivity.
Defined.

(** C1, as stated, fails: the reply [LONG_INTEGER] is no JSON document and
    the repair steps leave it as it is, yet the parser does not return the
    fixed payload: the first decoding attempt raises [ValueError], which is
    not a [JSONDecodeError], and the parser lets it through. *)
Lemma long_integer_reaches_the_caller :
  @loads Ref.runtime LONG_INTEGER = Raise ValueError
  /\ sub_fence_tail (sub_fence_markers false (strip LONG_INTEGER)) = LONG_INTEGER
  /\ @safe_json_parse Ref.runtime LONG_INTEGER = Raise ValueError.
Proof. repeat split; vm_compute; reflexivity. Qed.

(* ================================================================== *)
(** * Properties of the validator *)
(* ================================================================== *)

Lemma existsb_levels (r : pystr) : existsb (str_eqb r) LEVELS = true <-> In r LEVELS.
Proof.
  rewrite existsb_exists. split.
  - intros (x & Hx & He). apply str_eqb_eq in He. now subst.
  - intros H. exists r. split; [assumption|apply str_eqb_refl].
Qed.

Lemma medium_level : In (lit "MEDIUM") LEVELS.
Proof. right. left. reflexivity. Qed.

Lemma checked_level (r : pystr) :
  In (if existsb (str_eqb r) LEVELS then r else lit "MEDIUM") LEVELS.
Proof.
  destruct (existsb _ _) eqn:E; [now apply existsb_levels|apply medium_level].
Qed.

Lemma plan_dict_entries (p : enhanced_plan) :
  exists d, plan_dict p = VDict d
    /\ dict_lookup (lit "plan_name") d = Some (plan_name p)
    /\ dict_lookup (lit "strategy") d = Some (strategy p)
    /\ dict_lookup (lit "timeline") d = Some (timeline p)
    /\ dict_lookup (lit "risk_level") d = Some (VStr (risk_level p))
    /\ dict_lookup (lit "confidence_score") d = Some (VStr (confidence_score p))
    /\ dict_lookup (lit "estimated_hours") d = Some (VInt (estimated_hours p))
    /\ dict_lookup (lit "resource_requirements") d = Some (resource_requirements p)
    /\ dict_lookup (lit "success_criteria") d = Some (success_criteria p).
Proof. eexists. split; [reflexivity|]. repeat split. Qed.

Section ValidatorFacts.
Context {rt : Runtime}.

Lemma risk_sentence_long (r : pystr) : (50 <= length (risk_sentence r))%nat.
Proof.
  unfold risk_sentence. rewrite !length_app.
  assert (length (lit "-risk approach focuses on balancing speed with thoroughness to achieve optimal incident resolution.") = 99%nat)
    as -> by (vm_compute; reflexivity).
  lia.
Qed.

Lemma iadd_str_len (v v' : value) (s : pystr) :
  iadd_str v s = Ok v' ->
  exists n, py_len v' = Ok n /\ (length s <= n)%nat.
Proof.
  destruct v; simpl; try discriminate; intros [= <-]; simpl;
    eexists; (split; [reflexivity|]); rewrite length_app, ?length_map; lia.
Qed.

(** What one turn of the loop returns. *)
Lemma enhance_plan_ok (n : nat) (plan v : value) :
  enhance_plan n plan = Ok v ->
  exists p, v = plan_dict p /\ in_range p
    /\ exists len, py_len (strategy p) = Ok len /\ (50 <= len)%nat.
Proof.
  unfold enhance_plan. intros H.
  destruct (get_method plan) as [d|] eqn:Hd; cbn [rbind] in H; [|discriminate].
  destruct (upper_method (dict_get d (lit "risk_level") _)) as [r|]; cbn [rbind] in H; [|discriminate].
  destruct (upper_method (dict_get d (lit "confidence_score") _)) as [c|]; cbn [rbind] in H; [|discriminate].
  destruct (py_int _) as [h|]; cbn [rbind] in H; [|discriminate].
  destruct (py_len _) as [len|] eqn:Hlen; cbn [rbind] in H; [|discriminate].
  destruct (len <? 50)%nat eqn:Hshort.
  - destruct (iadd_str _ _) as [s'|] eqn:Hs; cbn [rbind] in H; [|discriminate].
    injection H as <-. eexists. split; [reflexivity|]. simpl.
    split; [|].
    + unfold in_range; simpl. repeat split; try apply checked_level; lia.
    + apply iadd_str_len in Hs as (m & Hm & Hle). exists m. split; [exact Hm|].
      etransitivity; [apply risk_sentence_long|exact Hle].
  - cbn [rbind] in H. injection H as <-. eexists. split; [reflexivity|]. simpl. split.
    + unfold in_range; simpl. repeat split; try apply checked_level; lia.
    + exists len. split; [exact Hlen|]. apply Nat.ltb_ge in Hshort. lia.
Qed.

Lemma validate_loop_ok (plans acc out : list value) :
  validate_loop plans acc = Ok out ->
  exists news, out = acc ++ news /\ length news = length plans
    /\ Forall (fun v => exists p, v = plan_dict p /\ in_range p
                 /\ exists len, py_len (strategy p) = Ok len /\ (50 <= len)%nat) news.
Proof.
  revert acc. induction plans as [|plan rest IH]; intros acc H; simpl in H.
  - injection H as <-. exists []. rewrite app_nil_r. repeat split. constructor.
  - destruct (enhance_plan _ plan) as [e|] eqn:He; simpl in H; [|discriminate].
    apply IH in H as (news & -> & Hlen & Hall).
    exists (e :: news). rewrite <- app_assoc. simpl. repeat split.
    + now rewrite Hlen.
    + constructor; [|exact Hall]. now apply enhance_plan_ok in He.
Qed.

End ValidatorFacts.

Section Idempotence.
Context {rt : Runtime}.
Hypothesis ascii_case : ascii_case_mapping rt.

Lemma upper_level (r : pystr) : In r LEVELS -> str_upper r = r.
Proof.
  intros [<-|[<-|[<-|[]]]];
    (etransitivity; [apply ascii_case|]; vm_compute; reflexivity).
Qed.

(** A record that is already in range and whose strategy is long enough is
    returned as it is. *)
Lemma enhance_plan_fixed (n : nat) (p : enhanced_plan) (len : nat) :
  in_range p -> py_len (strategy p) = Ok len -> (50 <= len)%nat ->
  enhance_plan n (plan_dict p) = Ok (plan_dict p).
Proof.
  intros (Hr & Hc & Hh) Hlen Hlong.
  destruct (plan_dict_entries p) as (d & Hd & E1 & E2 & E3 & E4 & E5 & E6 & E7 & E8).
  unfold enhance_plan. rewrite Hd at 1. cbn [get_method rbind].
  unfold dict_get. rewrite E1, E2, E3, E4, E5, E6, E7, E8.
  cbn [default from_option id upper_method py_int rbind].
  rewrite (upper_level _ Hr), (upper_level _ Hc).
  rewrite (proj2 (existsb_levels _) Hr), (proj2 (existsb_levels _) Hc).
  rewrite Hlen. cbn [rbind].
  apply Nat.ltb_ge in Hlong. rewrite Hlong. cbn [rbind].
  replace (Z.min (Z.max (estimated_hours p) 1) 8) with (estimated_hours p) by lia.
  destruct p; reflexivity.
Qed.

Lemma validate_loop_fixed (l acc : list value) :
  Forall (fun v => exists p, v = plan_dict p /\ in_range p
            /\ exists len, py_len (strategy p) = Ok len /\ (50 <= len)%nat) l ->
  validate_loop l acc = Ok (acc ++ l).
Proof.
  revert acc. induction l as [|v l IH]; intros acc Hall; simpl.
  - now rewrite app_nil_r.
  - inversion Hall as [|? ? (p & -> & Hin & len & Hlen & Hlong) Hrest]; subst.
    rewrite (enhance_plan_fixed _ _ _ Hin Hlen Hlong). cbn [rbind].
    rewrite IH by assumption. now rewrite <- app_assoc.
Qed.

End Idempotence.

(** C4. The validator is idempotent: applied to a list it has returned, it
    returns that same list. *)
Theorem validate_and_enhance_plans_idempotent (rt : Runtime)
  (plans : list value) (incident_type : pystr) (out : list value) :
  ascii_case_mapping rt ->
  validate_and_enhance_plans plans incident_type = Ok out ->
  validate_and_enhance_plans out incident_type = Ok out.
Proof.
  unfold validate_and_enhance_plans. intros Hcase H.
  apply validate_loop_ok in H as (news & -> & _ & Hall). simpl.
  now apply (validate_loop_fixed Hcase news []).
Qed.

Section Coercions.
Context {rt : Runtime}.

Lemma default_strategy_length : length DEFAULT_STRATEGY = 94%nat.
Proof. vm_compute. reflexivity. Qed.

Lemma strategy_step (v : value) (s : pystr) :
  is_ok (let! len := py_len v in
         let! v' := (if (len <? 50)%nat then iadd_str v s else Ok v) in
         Ok v')
  = strategy_usable v.
Proof.
  destruct v as [| | | |t|l|d]; cbn [py_len rbind is_ok strategy_usable]; try reflexivity.
  - destruct (_ <? _)%nat; reflexivity.
  - destruct (_ <? _)%nat; reflexivity.
  - destruct (length d <? 50)%nat eqn:E; cbn [iadd_str rbind is_ok].
    + apply Nat.ltb_lt in E. symmetry. apply Nat.leb_gt. exact E.
    + apply Nat.ltb_ge in E. symmetry. apply Nat.leb_le. exact E.
Qed.

Lemma py_int_coercible (v : value) : is_ok (py_int v) = int_coercible v.
Proof.
  destruct v as [| | |f| | |]; cbn [py_int int_coercible is_ok]; try reflexivity.
  - destruct f; reflexivity.
  - destruct (int_of_str s); reflexivity.
Qed.

Lemma upper_text (o : option value) (dflt : pystr) :
  is_ok (upper_method (default (VStr dflt) o)) = text_or_absent o.
Proof. destruct o as [[]|]; reflexivity. Qed.

(** One turn of the loop returns exactly on the coercible records. *)
Lemma enhance_plan_returns (n : nat) (plan : value) :
  is_ok (enhance_plan n plan) = coercible_plan plan.
Proof.
  destruct plan as [| | | | | |d]; try reflexivity.
  unfold enhance_plan, coercible_plan, dict_get. cbn [get_method rbind].
  rewrite <- (upper_text (dict_lookup (lit "risk_level") d) (lit "MEDIUM")).
  destruct (upper_method _) as [r|]; cbn [rbind is_ok andb]; [|reflexivity].
  rewrite <- (upper_text (dict_lookup (lit "confidence_score") d) (lit "MEDIUM")).
  destruct (upper_method _) as [c|]; cbn [rbind is_ok andb]; [|reflexivity].
  assert (is_ok (py_int (default (VInt 3) (dict_lookup (lit "estimated_hours") d)))
          = match dict_lookup (lit "estimated_hours") d with
            | Some v => int_coercible v
            | None => true
            end) as <-.
  { destruct (dict_lookup (lit "estimated_hours") d); [apply py_int_coercible|reflexivity]. }
  destruct (py_int _) as [h|]; cbn [rbind is_ok andb]; [|reflexivity].
  assert (strategy_usable (default (VStr DEFAULT_STRATEGY) (dict_lookup (lit "strategy") d))
          = match dict_lookup (lit "strategy") d with
            | Some v => strategy_usable v
            | None => true
            end) as <-.
  { destruct (dict_lookup (lit "strategy") d); reflexivity. }
  rewrite <- (strategy_step _ (risk_sentence (if existsb (str_eqb r) LEVELS then r else lit "MEDIUM"))).
  destruct (py_len _) as [len|]; cbn [rbind is_ok]; [|reflexivity].
  destruct (if (len <? 50)%nat then _ else _); reflexivity.
Qed.

(** The loop returns exactly on the lists of coercible records. *)
Lemma validate_and_enhance_plans_is_ok (plans : list value) (incident_type : pystr) :
  is_ok (validate_and_enhance_plans plans incident_type)
  = forallb coercible_plan plans.
Proof.
  unfold validate_and_enhance_plans. generalize (@nil value) as acc.
  induction plans as [|plan rest IH]; intros acc; [reflexivity|].
  cbn [validate_loop forallb]. rewrite <- (enhance_plan_returns (length acc)).
  destruct (enhance_plan _ plan); cbn [rbind is_ok andb]; [apply IH|reflexivity].
Qed.

End Coercions.

(** C2, as amended. On the lists whose records are mappings on which no
    coercion fails, the validator returns; and every list it returns has
    one record for each plan it was given, with [risk_level] and
    [confidence_score] among LOW, MEDIUM, HIGH and an integer
    [estimated_hours] between 1 and 8. *)
Theorem validated_plans_in_range (rt : Runtime) (plans : list value)
  (incident_type : pystr) :
  (forallb coercible_plan plans = true ->
   exists out, validate_and_enhance_plans plans incident_type = Ok out) /\
  (forall out,
     validate_and_enhance_plans plans incident_type = Ok out ->
     length out = length plans /\
     Forall (fun v => exists p, v = plan_dict p
                        /\ In (risk_level p) LEVELS
                        /\ In (confidence_score p) LEVELS
                        /\ 1 <= estimated_hours p <= 8) out).
Proof.
  split.
  - intros Hc. rewrite <- (validate_and_enhance_plans_is_ok plans incident_type) in Hc.
    destruct (validate_and_enhance_plans plans incident_type) as [out|];
      [now exists out|discriminate Hc].
  - unfold validate_and_enhance_plans. intros out H.
    apply validate_loop_ok in H as (news & -> & Hlen & Hall). simpl.
    split; [exact Hlen|].
    eapply Forall_impl; [|exact Hall].
    intros v (p & -> & (Hr & Hc & Hh) & _). exists p. auto.
Qed.

(** C8, as amended. The validator returns normally exactly on the lists
    whose records are mappings on which no coercion fails: [risk_level] and
    [confidence_score], when present, are strings, [estimated_hours], when
    present, is accepted by [int()], and [strategy], when present, is a
    string, a list or a mapping of at least fifty entries. On any other
    record it raises. *)
Theorem validate_and_enhance_plans_returns (rt : Runtime) (plans : list value)
  (incident_type : pystr) :
  is_ok (validate_and_enhance_plans plans incident_type)
  = forallb coercible_plan plans.
Proof.
  unfold validate_and_enhance_plans. generalize (@nil value) as acc.
  induction plans as [|plan rest IH]; intros acc; [reflexivity|].
  cbn [validate_loop forallb]. rewrite <- (enhance_plan_returns (length acc)).
  destruct (enhance_plan _ plan); cbn [rbind is_ok andb]; [apply IH|reflexivity].
Qed.

(** C8, as stated, fails: a record whose [risk_level] is the number 5 makes
    the validator raise [AttributeError]. *)
Lemma validate_and_enhance_plans_raises :
  @validate_and_enhance_plans Ref.runtime
    [VDict [(lit "plan_name", VStr (lit "X")); (lit "risk_level", VInt 5)]]
    (lit "security")
  = Raise AttributeError.
Proof. vm_compute. reflexivity. Qed.

(** C6, as amended. On the reply [{"action_plans": [{"plan_name": "X"}]}]
    the parser returns the decoded mapping, and the validator fills the
    record with the default strategy, the timeline [2-4 hours], MEDIUM for
    [risk_level] and [confidence_score], 3 for [estimated_hours] and the
    default resources and criteria; the default strategy has 94 characters
    and nothing is appended to it. *)
Theorem scenario_validated (rt : Runtime) (incident_type : pystr) :
  ascii_case_mapping rt ->
  loads SCENARIO_REPLY = Ok SCENARIO_DECODED ->
  safe_json_parse SCENARIO_REPLY = Ok SCENARIO_DECODED
  /\ validate_and_enhance_plans [SCENARIO_PLAN] incident_type
     = Ok [plan_dict SCENARIO_RECORD]
  /\ strategy SCENARIO_RECORD = VStr DEFAULT_STRATEGY
  /\ length DEFAULT_STRATEGY = 94%nat.
Proof.
  intros Hcase Hloads. split; [|split; [|split]].
  - now apply safe_json_parse_decoded.
  - unfold validate_and_enhance_plans, validate_loop, enhance_plan, SCENARIO_PLAN.
    cbn [get_method rbind length].
    replace (dict_get _ (lit "plan_name") _) with (VStr (lit "X")) by reflexivity.
    replace (dict_get _ (lit "strategy") _) with (VStr DEFAULT_STRATEGY) by reflexivity.
    replace (dict_get _ (lit "timeline") _) with (VStr (lit "2-4 hours")) by reflexivity.
    replace (dict_get _ (lit "risk_level") _) with (VStr (lit "MEDIUM")) by reflexivity.
    replace (dict_get _ (lit "confidence_score") _) with (VStr (lit "MEDIUM")) by reflexivity.
    replace (dict_get _ (lit "estimated_hours") _) with (VInt 3) by reflexivity.
    replace (dict_get _ (lit "resource_requirements") _) with (VStr DEFAULT_RESOURCES) by reflexivity.
    replace (dict_get _ (lit "success_criteria") _) with (VStr DEFAULT_CRITERIA) by reflexivity.
    cbn [upper_method py_int rbind].
    rewrite (upper_level Hcase _ medium_level).
    rewrite (proj2 (existsb_levels _) medium_level).
    cbn [py_len rbind]. rewrite default_strategy_length.
    reflexivity.
  - reflexivity.
  - apply default_strategy_length.
Qed.

(** The scenario on the reference runtime. *)
Lemma scenario_validated_witness :
  @safe_json_parse Ref.runtime SCENARIO_REPLY = Ok SCENARIO_DECODED
  /\ @validate_and_enhance_plans Ref.runtime [SCENARIO_PLAN] (lit "security")
     = Ok [plan_dict SCENARIO_RECORD]
  /\ strategy SCENARIO_RECORD = VStr DEFAULT_STRATEGY
  /\ length DEFAULT_STRATEGY = 94%nat.
Proof.
  apply (scenario_validated Ref.runtime (lit "security")).
  - intros s _. split; reflexivity.
  - vm_compute. reflexivity.
Defined.

(** C6, as stated, fails: the strategy of the validated record is the
    default text, which does not end with the generated sentence. *)
Lemma scenario_as_described_fails : ~ scenario_as_described.
Proof.
  intros (p & base & _ & Hv & Hr & _ & Hs).
  assert (Hrun : @validate_and_enhance_plans Ref.runtime [SCENARIO_PLAN] (lit "security")
                 = Ok [plan_dict SCENARIO_RECORD]) by (vm_compute; reflexivity).
  rewrite Hrun in Hv. injection Hv as _ Hstrat _.
  rewrite Hr, <- Hstrat in Hs. injection Hs as Hs.
  apply (f_equal (@rev N)) in Hs. rewrite rev_app_distr in Hs.
  vm_compute in Hs. discriminate Hs.
Qed.

(* ================================================================== *)
(** * Properties of the persona fallback *)
(* ================================================================== *)

Lemma expert_records_consistent : Forall consistent_record EXPERT_RECORDS.
Proof.
  repeat constructor; vm_compute; try reflexivity;
    intros H; try discriminate H; reflexivity.
Qed.

(** C10, as amended. [determine_format_fallback] returns exactly on the
    actions whose title is text and whose description is text or counts as
    false; on any other action it raises. Whatever it returns is one of the
    six expert records; each of them has format HTML, is voice eligible
    exactly when its export options are [PDF,Email,Voice], and is not voice
    eligible exactly when they are [PDF,Email]. *)
Theorem determine_format_fallback_record (rt : Runtime) (action : Action) :
  is_ok (determine_format_fallback action)
  = is_text (act_title action) && text_or_falsy (act_description action)
  /\ (forall r, determine_format_fallback action = Ok r ->
                In r EXPERT_RECORDS /\ consistent_record r).
Proof.
  unfold determine_format_fallback.
  destruct (act_title action) as [| | | |t| |]; cbn [lower_method rbind is_ok is_text andb];
    try (split; [reflexivity|discriminate]).
  assert (Hdesc : is_ok (if truthy (act_description action)
                         then lower_method (act_description action) else Ok [])
                  = text_or_falsy (act_description action)).
  { unfold text_or_falsy. destruct (truthy (act_description action));
      [|now rewrite orb_true_r].
    rewrite orb_false_r. now destruct (act_description action). }
  destruct (if truthy (act_description action)
            then lower_method (act_description action) else Ok []) as [dl|e];
    cbn [rbind is_ok] in *; rewrite <- Hdesc;
    [|split; [reflexivity|discriminate]].
  pose proof expert_records_consistent as Hall.
  rewrite Forall_forall in Hall.
  repeat match goal with
         | |- context [if any_word_in ?ws ?txt then _ else _] =>
             destruct (any_word_in ws txt)
         end;
    (split; [reflexivity|]); intros r [= <-]; (split; [|apply Hall]);
    unfold EXPERT_RECORDS;
    repeat lazymatch goal with
           | |- In ?x (?x :: _) => left; exact eq_refl
           | |- In _ (_ :: _) => right
           end.
Qed.

(* ================================================================== *)
(** * Reasoning about computations on the tables *)
(* ================================================================== *)

Section Frames.
Context {A B : Type} (R : World -> World -> Prop).

Lemma preserves_ret `{!Reflexive R} (a : A) : preserves R (ret a).
Proof. intros w. simpl. reflexivity. Qed.

Lemma preserves_raise `{!Reflexive R} (e : exn) : preserves R (@raise A e).
Proof. intros w. simpl. reflexivity. Qed.

Lemma preserves_lift `{!Reflexive R} (r : result A) : preserves R (lift r).
Proof. intros w. simpl. reflexivity. Qed.

Lemma preserves_bind `{!Transitive R} (m : M A) (k : A -> M B) :
  preserves R m -> (forall a, preserves R (k a)) -> preserves R (bind m k).
Proof.
  intros Hm Hk w. unfold bind. specialize (Hm w).
  destruct (m w) as [[a|e] w1]; simpl in *; [|exact Hm].
  etransitivity; [exact Hm|apply Hk].
Qed.

Lemma preserves_bind_never `{!Transitive R} (m : M A) (k : A -> M B) :
  never_returns m -> preserves R m -> preserves R (bind m k).
Proof.
  intros Hnever Hm w. unfold bind. specialize (Hm w). specialize (Hnever w).
  destruct (m w) as [[a|e] w1]; simpl in *; [discriminate|exact Hm].
Qed.

Lemma preserves_try `{!Transitive R} (m : M A) (h : exn -> M A) :
  preserves R m -> (forall e, preserves R (h e)) -> preserves R (try_except m h).
Proof.
  intros Hm Hh w. unfold try_except. specialize (Hm w).
  destruct (m w) as [[a|e] w1]; simpl in *; [exact Hm|].
  etransitivity; [exact Hm|apply Hh].
Qed.

End Frames.

Lemma never_bind_l {A B} (m : M A) (k : A -> M B) :
  never_returns m -> never_returns (bind m k).
Proof.
  intros Hm w. unfold bind. specialize (Hm w).
  destruct (m w) as [[a|e] w1]; simpl in *; [discriminate|reflexivity].
Qed.

Lemma never_bind_r {A B} (m : M A) (k : A -> M B) :
  (forall a, never_returns (k a)) -> never_returns (bind m k).
Proof.
  intros Hk w. unfold bind.
  destruct (m w) as [[a|e] w1]; [apply Hk|reflexivity].
Qed.

Lemma never_lift {A} (r : result A) : is_ok r = false -> never_returns (lift r).
Proof. intros H w. exact H. Qed.

Lemma preserves_weaken {A} (R R' : World -> World -> Prop) (m : M A) :
  (forall w w', R w w' -> R' w w') -> preserves R m -> preserves R' m.
Proof. intros Hsub Hm w. apply Hsub, Hm. Qed.

#[local] Instance same_tables_refl : Reflexive same_tables.
Proof. intros w. repeat split. Qed.
#[local] Instance same_tables_trans : Transitive same_tables.
Proof.
  intros w1 w2 w3 (H1 & H2 & H3 & H4) (K1 & K2 & K3 & K4).
  repeat split; congruence.
Qed.

#[local] Instance added_empty_refl : Reflexive added_empty_deliverables.
Proof.
  intros w. repeat split. exists []. now rewrite app_nil_r.
Qed.
#[local] Instance added_empty_trans : Transitive added_empty_deliverables.
Proof.
  intros w1 w2 w3 (H1 & H2 & H3 & n1 & H4 & F1) (K1 & K2 & K3 & n2 & K4 & F2).
  repeat split; try congruence.
  exists (n1 ++ n2). split.
  - rewrite K4, H4. now rewrite app_assoc.
  - apply Forall_app. split; assumption.
Qed.

Lemma same_tables_added_empty (w w' : World) :
  same_tables w w' -> added_empty_deliverables w w'.
Proof.
  intros (H1 & H2 & H3 & H4). repeat split; try assumption.
  exists []. split; [now rewrite app_nil_r|constructor].
Qed.

(* ================================================================== *)
(** * Properties of the deliverable formatter *)
(* ================================================================== *)

Lemma fstring_raising_field (ps : list piece) (e : exn) :
  In (F (Raise e)) ps -> is_ok (fstring ps) = false.
Proof.
  induction ps as [|p ps IH]; intros Hin; [destruct Hin|].
  destruct Hin as [->|Hin]; [reflexivity|].
  specialize (IH Hin). destruct p as [t|[x|e']]; simpl.
  - destruct (fstring ps); [discriminate|reflexivity].
  - destruct (fstring ps); [discriminate|reflexivity].
  - reflexivity.
Qed.

Section FormatterFacts.
Context {rt : Runtime} {ext : External}.

(** The f-string of [formatted_content] cannot be evaluated while
    [formatted_content] is unbound. *)
Lemma formatted_content_unbound (action : Action) (incident : Incident)
  (specs expert_role : value) (guard_statement : pystr) (ai_content : value) :
  is_ok (fstring (formatted_content_pieces None action incident specs
                    expert_role guard_statement ai_content)) = false.
Proof.
  apply fstring_raising_field with (e := UnboundLocalError).
  unfold formatted_content_pieces.
  repeat (first [left; reflexivity | right]).
Qed.

Lemma chat_completion_same_tables (client : Client) :
  preserves same_tables (chat_completion client).
Proof. intros w. repeat split. Qed.

Lemma documentation_try_never_returns (client : Client) (action : Action)
  (action_plan : ActionPlan) (incident : Incident) (specs : value) :
  never_returns (documentation_try client action action_plan incident specs).
Proof.
  unfold documentation_try.
  do 2 (apply never_bind_r; intro). cbv zeta.
  do 4 (apply never_bind_r; intro).
  apply never_bind_l, never_lift, formatted_content_unbound.
Qed.

Lemma documentation_try_same_tables (client : Client) (action : Action)
  (action_plan : ActionPlan) (incident : Incident) (specs : value) :
  preserves same_tables (documentation_try client action action_plan incident specs).
Proof.
  unfold documentation_try.
  repeat first
    [ apply preserves_lift; typeclasses eauto
    | apply preserves_ret; typeclasses eauto
    | apply chat_completion_same_tables
    | apply preserves_bind; [typeclasses eauto| |intro]
    | match goal with |- preserves _ (if ?c then _ else _) => destruct c end ].
Qed.

End FormatterFacts.

Section Returns.
Context {A B : Type} (P : B -> Prop).

Lemma returns_ret (b : B) : P b -> returns_only P (ret b).
Proof. intros H w a [= <-]. exact H. Qed.

Lemma returns_bind (m : M A) (k : A -> M B) :
  (forall a, returns_only P (k a)) -> returns_only P (bind m k).
Proof.
  intros Hk w b. unfold bind.
  destruct (m w) as [[a|e] w1]; [apply Hk|discriminate].
Qed.

Lemma returns_bind_never (m : M A) (k : A -> M B) :
  never_returns m -> returns_only P (bind m k).
Proof.
  intros Hm w b. unfold bind. specialize (Hm w).
  destruct (m w) as [[a|e] w1]; simpl in *; [discriminate|discriminate].
Qed.

End Returns.

Lemma fallback_function_not_a_method {A} (impl : A) :
  self_attribute "generate_comprehensive_fallback_documentation" impl
  = Raise AttributeError.
Proof. vm_compute. reflexivity. Qed.

Section DeliverableFacts.
Context {rt : Runtime} {ext : External}.

(** The formatter raises [AttributeError] whatever it is given. *)
Lemma generate_documentation_raises (client : Client) (action : Action)
  (action_plan : ActionPlan) (incident : Incident) (specs : value) (w : World) :
  fst (generate_adaptive_documentation_enhanced client action action_plan
         incident specs w) = Raise AttributeError.
Proof.
  unfold generate_adaptive_documentation_enhanced, try_except.
  pose proof (documentation_try_never_returns client action action_plan incident specs w) as Hn.
  destruct (documentation_try _ _ _ _ _ w) as [[a|e] w1]; [discriminate Hn|].
  unfold bind, lift. now rewrite fallback_function_not_a_method.
Qed.

Lemma generate_documentation_never_returns (client : Client) (action : Action)
  (action_plan : ActionPlan) (incident : Incident) (specs : value) :
  never_returns (generate_adaptive_documentation_enhanced client action
                   action_plan incident specs).
Proof. intros w. now rewrite generate_documentation_raises. Qed.

Lemma generate_documentation_same_tables (client : Client) (action : Action)
  (action_plan : ActionPlan) (incident : Incident) (specs : value) :
  preserves same_tables (generate_adaptive_documentation_enhanced client action
                           action_plan incident specs).
Proof.
  unfold generate_adaptive_documentation_enhanced.
  apply preserves_try; [typeclasses eauto|apply documentation_try_same_tables|].
  intros e. apply preserves_bind; [typeclasses eauto|apply preserves_lift; typeclasses eauto|].
  intros f. apply preserves_lift; typeclasses eauto.
Qed.

Lemma ai_decide_same_tables (ai_agent : Client) (action : Action) (action_plan : ActionPlan) :
  preserves same_tables (ai_decide_documentation_need ai_agent action action_plan).
Proof.
  unfold ai_decide_documentation_need.
  apply preserves_try; [typeclasses eauto| |intro; apply preserves_ret; typeclasses eauto].
  apply preserves_bind; [typeclasses eauto|apply chat_completion_same_tables|].
  intro. apply preserves_lift; typeclasses eauto.
Qed.

Lemma ai_determine_same_tables (ai_agent : Client) (action : Action) (action_plan : ActionPlan) :
  preserves same_tables (ai_determine_deliverable_format ai_agent action action_plan).
Proof.
  unfold ai_determine_deliverable_format.
  apply preserves_try; [typeclasses eauto| |intro; apply preserves_lift; typeclasses eauto].
  apply preserves_bind; [typeclasses eauto|apply chat_completion_same_tables|].
  intro. apply preserves_lift; typeclasses eauto.
Qed.

Lemma create_deliverable_empty (action : Action) (f e v : value) :
  preserves added_empty_deliverables (create_deliverable action f e v).
Proof.
  intros w. unfold create_deliverable.
  destruct (accepts_deliverable _); simpl; [|reflexivity].
  repeat split. eexists. split; [reflexivity|]. repeat constructor.
Qed.

Ltac frame_empty :=
  repeat first
    [ apply preserves_lift; typeclasses eauto
    | apply preserves_ret; typeclasses eauto
    | apply create_deliverable_empty
    | apply (preserves_weaken _ _ _ same_tables_added_empty);
        first [apply ai_decide_same_tables | apply ai_determine_same_tables]
    | apply preserves_bind_never;
        [ typeclasses eauto
        | apply generate_documentation_never_returns
        | apply (preserves_weaken _ _ _ same_tables_added_empty),
                generate_documentation_same_tables ]
    | apply preserves_bind; [typeclasses eauto| |intro]
    | match goal with |- preserves _ (if ?c then _ else _) => destruct c end ].

Lemma process_one_adds_empty (ai_agent : Client) (action : Action)
  (action_plan : ActionPlan) (incident : Incident) :
  preserves added_empty_deliverables
    (process_one_deliverable ai_agent action action_plan incident).
Proof. unfold process_one_deliverable. frame_empty. Qed.

Lemma process_one_counts_nothing (ai_agent : Client) (action : Action)
  (action_plan : ActionPlan) (incident : Incident) :
  returns_only (fun n => n = 0%nat)
    (process_one_deliverable ai_agent action action_plan incident).
Proof.
  unfold process_one_deliverable.
  do 2 (apply returns_bind; intro).
  match goal with |- returns_only _ (if ?c then _ else _) => destruct c end.
  - do 6 (apply returns_bind; intro).
    apply returns_bind_never, generate_documentation_never_returns.
  - apply returns_bind; intro. now apply returns_ret.
Qed.

(** [process_smart_deliverables] returns the counter unchanged: no
    deliverable is ever counted, and each row it has inserted keeps the
    empty content it was created with. *)
Lemma process_smart_deliverables_spec (ai_agent : Client) (actions : list Action)
  (action_plan : ActionPlan) (incident : Incident) (n : nat) (w : World) :
  fst (process_smart_deliverables ai_agent actions action_plan incident n w) = Ok n
  /\ added_empty_deliverables w
       (snd (process_smart_deliverables ai_agent actions action_plan incident n w)).
Proof.
  revert n w. induction actions as [|action rest IH]; intros n w.
  - split; [reflexivity|reflexivity].
  - cbn [process_smart_deliverables]. unfold bind, try_except.
    pose proof (process_one_adds_empty ai_agent action action_plan incident w) as Hw.
    pose proof (process_one_counts_nothing ai_agent action action_plan incident w) as Hn.
    destruct (process_one_deliverable _ _ _ _ w) as [[made|e] w1]; simpl in Hw.
    + rewrite (Hn made eq_refl). cbn [ret]. rewrite Nat.add_0_r.
      destruct (IH n w1) as [Hr Hs]. split; [exact Hr|].
      etransitivity; [exact Hw|exact Hs].
    + cbn [ret]. rewrite Nat.add_0_r.
      destruct (IH n w1) as [Hr Hs]. split; [exact Hr|].
      etransitivity; [exact Hw|exact Hs].
Qed.

End DeliverableFacts.

(* ================================================================== *)
(** * Properties of plan selection *)
(* ================================================================== *)

Lemma find_plan_some (plan_id : Z) (w : World) (p : ActionPlan) :
  find_plan plan_id w = Some p -> In p (action_plans w) /\ ap_id p = plan_id.
Proof.
  intros H. apply find_some in H as [Hin Hid]. split; [exact Hin|].
  now apply Z.eqb_eq.
Qed.

Lemma find_incident_some (incident_id : Z) (w : World) (i : Incident) :
  find_incident incident_id w = Some i -> inc_id i = incident_id.
Proof. intros H. apply find_some in H as [_ Hid]. now apply Z.eqb_eq. Qed.

Lemma select_rows_map (p : ActionPlan) (rows : list ActionPlan) :
  In p rows -> select_rows p rows = map (select_row p) rows.
Proof.
  intros Hin. unfold select_rows, save_row.
  assert (existsb (fun r => ap_id r =? ap_id (mark_selected p))
            (map (fun q => if ap_incident q =? ap_incident p then unselect q else q) rows)
          = true) as ->.
  { apply existsb_exists.
    exists (if ap_incident p =? ap_incident p then unselect p else p). split.
    - apply in_map_iff. exists p. split; [reflexivity|exact Hin].
    - rewrite Z.eqb_refl. simpl. apply Z.eqb_refl. }
  rewrite map_map. apply map_ext. intros q. unfold select_row.
  destruct (ap_incident q =? ap_incident p); simpl; reflexivity.
Qed.

Lemma select_row_id (p q : ActionPlan) : ap_id (select_row p q) = ap_id q.
Proof.
  unfold select_row. destruct (ap_id q =? ap_id p) eqn:E.
  - apply Z.eqb_eq in E. simpl. congruence.
  - destruct (ap_incident q =? ap_incident p); reflexivity.
Qed.

Lemma select_rows_ids (p : ActionPlan) (rows : list ActionPlan) :
  In p rows -> map ap_id (select_rows p rows) = map ap_id rows.
Proof.
  intros Hin. rewrite select_rows_map by exact Hin. rewrite map_map.
  apply map_ext. apply select_row_id.
Qed.

Lemma filter_map_length {A B} (f : B -> bool) (g : A -> B) (l : list A) :
  length (List.filter f (map g l)) = length (List.filter (fun x => f (g x)) l).
Proof.
  induction l as [|x l IH]; [reflexivity|]. simpl.
  destruct (f (g x)); simpl; congruence.
Qed.

Lemma filter_length_le {A} (f g : A -> bool) (l : list A) :
  (forall x, f x = true -> g x = true) ->
  (length (List.filter f l) <= length (List.filter g l))%nat.
Proof.
  intros Himp. induction l as [|x l IH]; [reflexivity|]. simpl.
  destruct (f x) eqn:Ef.
  - rewrite (Himp x Ef). simpl. lia.
  - destruct (g x); simpl; lia.
Qed.

Lemma unique_key_filter {A} (pk : A -> Z) (k : Z) (l : list A) :
  List.NoDup (map pk l) -> (length (List.filter (fun x => (pk x =? k)%Z) l) <= 1)%nat.
Proof.
  induction l as [|x l IH]; intros Hnd; [simpl; lia|].
  simpl in Hnd. apply List.NoDup_cons_iff in Hnd as [Hnotin Hnd]. simpl.
  destruct (pk x =? k) eqn:E; [|now apply IH].
  apply Z.eqb_eq in E. simpl.
  assert (List.filter (fun y => pk y =? k) l = []) as ->; [|simpl; lia].
  clear IH Hnd. induction l as [|y l IH]; [reflexivity|].
  simpl. destruct (pk y =? k) eqn:Ey.
  - apply Z.eqb_eq in Ey. exfalso. apply Hnotin. simpl. left. congruence.
  - apply IH. intros Hc. apply Hnotin. simpl. now right.
Qed.

(** Selecting a plan leaves exactly the rows with its key selected in its
    own incident, whatever was selected before. *)
Lemma select_rows_own_incident (p : ActionPlan) (w w' : World) :
  In p (action_plans w) -> unique_plan_ids w ->
  action_plans w' = select_rows p (action_plans w) ->
  at_most_one_selected (ap_incident p) w'.
Proof.
  intros Hin Hnd Hw'. unfold at_most_one_selected, selected_plans.
  rewrite Hw', select_rows_map by exact Hin. rewrite filter_map_length.
  etransitivity; [|apply (unique_key_filter ap_id (ap_id p) _ Hnd)].
  apply filter_length_le. intros q. unfold select_row.
  destruct (ap_id q =? ap_id p); [reflexivity|].
  destruct (ap_incident q =? ap_incident p) eqn:Eq; simpl.
  - rewrite andb_false_r. discriminate.
  - rewrite Eq. discriminate.
Qed.

(** It leaves at most one selected plan in every incident that had at most
    one. *)
Lemma select_rows_at_most_one (p : ActionPlan) (w w' : World) (incident_id : Z) :
  In p (action_plans w) -> unique_plan_ids w ->
  action_plans w' = select_rows p (action_plans w) ->
  at_most_one_selected incident_id w -> at_most_one_selected incident_id w'.
Proof.
  intros Hin Hnd Hw' Hone.
  destruct (ap_incident p =? incident_id) eqn:Ei.
  - apply Z.eqb_eq in Ei. subst incident_id.
    now apply (select_rows_own_incident p w).
  - unfold at_most_one_selected, selected_plans in *.
    rewrite Hw', select_rows_map by exact Hin. rewrite filter_map_length.
    etransitivity; [|exact Hone].
    apply filter_length_le. intros q. unfold select_row.
    destruct (ap_id q =? ap_id p); simpl.
    + rewrite Ei. discriminate.
    + destruct (ap_incident q =? ap_incident p); simpl; [|tauto].
      rewrite andb_false_r. discriminate.
Qed.

Lemma select_rows_siblings (p : ActionPlan) (rows : list ActionPlan) (q : ActionPlan) :
  In p rows -> In q (select_rows p rows) -> ap_incident q = ap_incident p ->
  ap_is_selected q = (ap_id q =? ap_id p).
Proof.
  intros Hin Hq Hinc. rewrite select_rows_map in Hq by exact Hin.
  apply in_map_iff in Hq as (q0 & <- & _). revert Hinc. unfold select_row.
  destruct (ap_id q0 =? ap_id p) eqn:E; simpl.
  - intros _. symmetry. apply Z.eqb_refl.
  - destruct (ap_incident q0 =? ap_incident p) eqn:Ei; simpl.
    + intros _. symmetry. exact E.
    + intros Hinc. apply Z.eqb_neq in Ei. contradiction.
Qed.

Lemma find_select_rows (p : ActionPlan) (rows : list ActionPlan) :
  In p rows ->
  find (fun r => ap_id r =? ap_id p) (select_rows p rows) = Some (mark_selected p).
Proof.
  intros Hin. rewrite select_rows_map by exact Hin.
  induction rows as [|q rows IH]; [destruct Hin|].
  simpl. rewrite select_row_id. unfold select_row at 1.
  destruct (ap_id q =? ap_id p) eqn:E; [reflexivity|].
  destruct Hin as [->|Hin]; [rewrite Z.eqb_refl in E; discriminate|].
  now apply IH.
Qed.

(* ================================================================== *)
(** * Properties of the command *)
(* ================================================================== *)

Section HandleFacts.
Context {rt : Runtime} {ext : External}.

Lemma handle_no_plan (plan_id : Z) (w : World) :
  find_plan plan_id w = None -> handle plan_id w = (Ok tt, w).
Proof.
  intros H. unfold handle, bind, try_except, get_action_plan.
  unfold find_plan in H. rewrite H. reflexivity.
Qed.

Lemma handle_no_incident (plan_id : Z) (w : World) (p : ActionPlan) :
  find_plan plan_id w = Some p -> find_incident (ap_incident p) w = None ->
  handle plan_id w = (Raise DoesNotExist, w).
Proof.
  intros Hp Hi. unfold handle, bind, try_except, get_action_plan.
  unfold find_plan in Hp. rewrite Hp. cbn [ret].
  unfold get_incident. unfold find_incident in Hi. rewrite Hi. reflexivity.
Qed.

Lemma handle_found (plan_id : Z) (w : World) (p : ActionPlan) (inc : Incident) :
  find_plan plan_id w = Some p -> find_incident (ap_incident p) w = Some inc ->
  handle plan_id w
  = after_selection (mark_selected p) inc (snd (set_action_plans (select_rows p) w)).
Proof.
  intros Hp Hi. pose proof (find_incident_some _ _ _ Hi) as Hid.
  unfold handle, bind, try_except, get_action_plan.
  unfold find_plan in Hp. rewrite Hp. cbn [ret].
  unfold get_incident. unfold find_incident in Hi. rewrite Hi.
  unfold clear_selection, save_action_plan, set_action_plans. rewrite Hid.
  reflexivity.
Qed.

(** The data [generate_actions_from_plan] returns can be iterated and has
    at most six entries; the tables are untouched. *)
Lemma fallback_actions_entries :
  exists entries, py_iter get_fallback_actions = Ok entries
    /\ length entries = 4%nat /\ Forall (fun v => is_dict v = true) entries
    /\ truthy get_fallback_actions = true.
Proof.
  eexists. split; [reflexivity|]. split; [reflexivity|]. split; [|reflexivity].
  repeat constructor.
Qed.

Lemma slice_entries (v data : value) :
  slice_to 6 v = Ok data ->
  exists entries, py_iter data = Ok entries /\ (length entries <= 6)%nat
    /\ (truthy data = false -> entries = []).
Proof.
  destruct v as [| | | |s|l|]; simpl; try discriminate; intros [= <-]; simpl.
  - eexists. split; [reflexivity|]. rewrite length_map, length_take. split; [lia|].
    destruct (take 6 s); [reflexivity|discriminate].
  - eexists. split; [reflexivity|]. rewrite length_take. split; [lia|].
    destruct (take 6 l); [reflexivity|discriminate].
Qed.

Lemma generate_actions_spec (client : Client) (action_plan : ActionPlan) (w : World) :
  exists data entries,
    fst (generate_actions_from_plan client action_plan w) = Ok data
    /\ same_tables w (snd (generate_actions_from_plan client action_plan w))
    /\ py_iter data = Ok entries /\ (length entries <= 6)%nat
    /\ (truthy data = false -> entries = [])
    /\ (is_ok (llm_reply (llm_calls w)) = false ->
        data = get_fallback_actions).
Proof.
  destruct fallback_actions_entries as (fb & Hfb & Hlen & _ & Htruth).
  assert (Hfallback : forall w',
    same_tables w w' ->
    exists data entries,
      Ok get_fallback_actions = Ok data /\ same_tables w w'
      /\ py_iter data = Ok entries /\ (length entries <= 6)%nat
      /\ (truthy data = false -> entries = [])
      /\ (is_ok (llm_reply (llm_calls w)) = false -> data = get_fallback_actions)).
  { intros w' Hw'. exists get_fallback_actions, fb.
    repeat split; try assumption; try apply Hw'; try lia.
    rewrite Htruth. discriminate. }
  unfold generate_actions_from_plan, try_except, bind, chat_completion, lift, ret.
  destruct (llm_reply (llm_calls w)) as [content|e]; cbn [fst snd];
    [|apply Hfallback; repeat split].
  destruct (loads_value content) as [parsed|]; [|apply Hfallback; repeat split].
  destruct (contains _ parsed) as [[|]|]; [|apply Hfallback; repeat split..].
  destruct (getitem parsed _) as [acts|]; [|apply Hfallback; repeat split].
  destruct (slice_to 6 acts) as [data|] eqn:Hs; [|apply Hfallback; repeat split].
  apply slice_entries in Hs as (entries & Hiter & Hle & Hempty).
  exists data, entries. repeat split; try assumption. discriminate.
Qed.

End HandleFacts.

Section ActionRecords.
Context {rt : Runtime} {ext : External}.

(** One turn of the loop of [create_action_records]: nothing, or one row
    with the step [i]. *)
Lemma create_action_turn (action_plan : ActionPlan) (action_data : value)
  (i : Z) (created : list Action) (w : World) (m : M (list Action)) :
  m = try_except
        (do! d := lift (get_method action_data) in
         do! action := create_action
           {| act_id := 0;
              act_action_plan := Some (ap_id action_plan);
              act_incident := ap_incident action_plan;
              act_step := i;
              act_title := dict_get d (lit "title") (VStr (lit "Action " ++ decimal i));
              act_description := dict_get d (lit "description") (VStr (lit "Action description"));
              act_operator := dict_get d (lit "operator") (VStr (lit "Security Team"));
              act_priority := dict_get d (lit "priority") (VStr (lit "Medium"));
              act_estimated_hours := dict_get d (lit "estimated_hours") (VInt 2);
              act_ghostdraft := true |} in
         ret (created ++ [action]))
        (fun _ => ret created) ->
  exists news,
    fst (m w) = Ok (created ++ news)
    /\ actions (snd (m w)) = actions w ++ news
    /\ incidents (snd (m w)) = incidents w
    /\ action_plans (snd (m w)) = action_plans w
    /\ deliverables (snd (m w)) = deliverables w
    /\ llm_calls (snd (m w)) = llm_calls w
    /\ (news = [] \/ exists a, news = [a] /\ act_step a = i)
    /\ ((forall a, accepts_action a = true) -> is_dict action_data = true ->
        exists a, news = [a]).
Proof.
  intros ->. unfold try_except, bind, lift, ret, create_action.
  destruct (get_method action_data) as [d|] eqn:Hd.
  - destruct (accepts_action _) eqn:Hacc; cbn [fst snd actions incidents action_plans deliverables llm_calls].
    + eexists [_]. repeat split; [right; eexists; split; reflexivity | eauto].
    + exists []. rewrite !app_nil_r. repeat split; [now left|].
      intros Hall _. rewrite Hall in Hacc. discriminate.
  - exists []. cbn [fst snd]. rewrite !app_nil_r. repeat split; [now left|].
    intros _ Hdict. destruct action_data; discriminate.
Qed.

Lemma create_action_loop_spec (action_plan : ActionPlan) (entries : list value) :
  forall (i : Z) (created : list Action) (w : World),
  exists news,
    fst (create_action_loop action_plan entries i created w) = Ok (created ++ news)
    /\ actions (snd (create_action_loop action_plan entries i created w))
       = actions w ++ news
    /\ incidents (snd (create_action_loop action_plan entries i created w)) = incidents w
    /\ action_plans (snd (create_action_loop action_plan entries i created w))
       = action_plans w
    /\ deliverables (snd (create_action_loop action_plan entries i created w))
       = deliverables w
    /\ llm_calls (snd (create_action_loop action_plan entries i created w)) = llm_calls w
    /\ (length news <= length entries)%nat
    /\ StronglySorted Z.lt (map act_step news)
    /\ Forall (fun a => i <= act_step a < i + Z.of_nat (length entries)) news
    /\ ((forall a, accepts_action a = true) ->
        Forall (fun v => is_dict v = true) entries ->
        map act_step news = map (fun k => i + Z.of_nat k) (seq 0 (length entries))).
Proof.
  induction entries as [|action_data rest IH]; intros i created w.
  - exists []. cbn [create_action_loop ret fst snd length]. rewrite !app_nil_r.
    repeat split; try constructor; try lia.
  - cbn [create_action_loop].
    set (m := try_except _ _). unfold bind.
    destruct (create_action_turn action_plan action_data i created w m eq_refl)
      as (n1 & Hr & Ha & Hi & Hp & Hd & Hl & Hshape & Hfull).
    destruct (m w) as [[c1|e1] w1]; cbn [fst snd] in *; [|discriminate Hr].
    injection Hr as ->.
    destruct (IH (i + 1) (created ++ n1) w1)
      as (n2 & Hr2 & Ha2 & Hi2 & Hp2 & Hd2 & Hl2 & Hlen2 & Hsort2 & Hrange2 & Hfull2).
    exists (n1 ++ n2). rewrite app_assoc, Hr2, Ha2, Hi2, Hp2, Hd2, Hl2, Ha, Hi, Hp, Hd, Hl.
    rewrite <- !app_assoc.
    assert (Hrange2' : Forall (fun a => i < act_step a
                        /\ i <= act_step a < i + Z.of_nat (length (action_data :: rest))) n2).
    { eapply Forall_impl; [|exact Hrange2]. cbn [length]. intros a Ha'. lia. }
    repeat split; try reflexivity.
    + destruct Hshape as [->|(a & -> & _)]; cbn [length app]; lia.
    + destruct Hshape as [->|(a & -> & Hstep)]; cbn [app map]; [exact Hsort2|].
      constructor; [exact Hsort2|].
      rewrite Forall_map. eapply Forall_impl; [|exact Hrange2'].
      intros b [Hb _]. now rewrite Hstep.
    + destruct Hshape as [->|(a & -> & Hstep)]; cbn [app].
      * eapply Forall_impl; [|exact Hrange2']. intros b [_ Hb]. exact Hb.
      * constructor.
        -- rewrite Hstep. cbn [length]. lia.
        -- eapply Forall_impl; [|exact Hrange2']. intros b [_ Hb]. exact Hb.
    + intros Hall Hdicts. inversion Hdicts as [|? ? Hd1 Hdrest]; subst.
      destruct (Hfull Hall Hd1) as (a & ->).
      destruct Hshape as [Hnil|(a' & [= <-] & Hstep)]; [discriminate Hnil|].
      cbn [app map length seq]. rewrite Hstep, (Hfull2 Hall Hdrest).
      f_equal; [lia|]. rewrite <- seq_shift, map_map.
      apply map_ext. intros k. lia.
Qed.

End ActionRecords.

Lemma find_save_row {A} (pk : A -> Z) (obj : A) (rows : list A) :
  find (fun r => pk r =? pk obj) (save_row pk obj rows) = Some obj.
Proof.
  unfold save_row. destruct (existsb _ rows) eqn:Hex.
  - induction rows as [|r rows IH]; [discriminate Hex|].
    simpl in *. destruct (pk r =? pk obj) eqn:E.
    + now rewrite Z.eqb_refl.
    + rewrite E. apply IH. exact Hex.
  - induction rows as [|r rows IH]; simpl in *.
    + now rewrite Z.eqb_refl.
    + apply orb_false_iff in Hex as [-> Hex]. now apply IH.
Qed.

Section AfterSelection.
Context {rt : Runtime} {ext : External}.

Lemma create_action_records_spec (action_plan : ActionPlan) (data : value)
  (entries : list value) (w : World) :
  py_iter data = Ok entries ->
  exists created,
    fst (create_action_records action_plan data w) = Ok created
    /\ actions (snd (create_action_records action_plan data w)) = actions w ++ created
    /\ incidents (snd (create_action_records action_plan data w)) = incidents w
    /\ action_plans (snd (create_action_records action_plan data w)) = action_plans w
    /\ deliverables (snd (create_action_records action_plan data w)) = deliverables w
    /\ llm_calls (snd (create_action_records action_plan data w)) = llm_calls w
    /\ (length created <= length entries)%nat
    /\ StronglySorted Z.lt (map act_step created)
    /\ Forall (fun a => 1 <= act_step a <= Z.of_nat (length entries)) created
    /\ ((forall a, accepts_action a = true) ->
        Forall (fun v => is_dict v = true) entries ->
        map act_step created = map Z.of_nat (seq 1 (length entries))).
Proof.
  intros Hiter. unfold create_action_records, bind, lift. rewrite Hiter.
  destruct (create_action_loop_spec action_plan entries 1 [] w)
    as (news & Hr & Ha & Hi & Hp & Hd & Hl & Hlen & Hsort & Hrange & Hfull).
  exists news. repeat split; try assumption.
  - eapply Forall_impl; [|exact Hrange]. intros a Ha'. simpl in Ha'. lia.
  - intros Hall Hdicts. rewrite (Hfull Hall Hdicts).
    rewrite <- seq_shift, map_map. apply map_ext. intros k. lia.
Qed.

(** What follows the selection statements when a client is available. *)
Lemma after_selection_spec (action_plan : ActionPlan) (incident : Incident)
  (client : Client) (w : World) :
  initialize_adaptive_ai_agent = Some client ->
  fst (after_selection action_plan incident w) = Ok tt
  /\ action_plans (snd (after_selection action_plan incident w)) = action_plans w
  /\ exists created,
       actions (snd (after_selection action_plan incident w)) = actions w ++ created
       /\ (length created <= 6)%nat
       /\ StronglySorted Z.lt (map act_step created)
       /\ Forall (fun a => 1 <= act_step a <= 6) created
       /\ (created <> [] ->
           find_incident (inc_id incident) (snd (after_selection action_plan incident w))
           = Some (with_status incident (lit "ACTIONS_GENERATED")))
       /\ ((forall a, accepts_action a = true) ->
           is_ok (llm_reply (llm_calls w)) = false ->
           map act_step created = [1; 2; 3; 4]).
Proof.
  intros Hinit. unfold after_selection. rewrite Hinit. unfold bind.
  destruct (generate_actions_spec client action_plan w)
    as (data & entries & Hr & (Si & Sp & Sa & Sd) & Hiter & Hlen & Hempty & Hfb).
  destruct (generate_actions_from_plan client action_plan w) as [[d|e] w1];
    cbn [fst snd] in *; [|discriminate Hr].
  injection Hr as ->.
  destruct (truthy data) eqn:Htruth; cbn [negb].
  - destruct (create_action_records_spec action_plan data entries w1 Hiter)
      as (created & Cr & Ca & Ci & Cp & Cd & Cl & Clen & Csort & Crange & Cfull).
    destruct (create_action_records action_plan data w1) as [[c|e] w2];
      cbn [fst snd] in *; [|discriminate Cr].
    injection Cr as ->.
    destruct (process_smart_deliverables_spec client created action_plan incident 0%nat w2)
      as (Pr & Pi & Pp & Pa & _).
    destruct (process_smart_deliverables client created action_plan incident 0 w2)
      as [[n|e] w3]; cbn [fst snd] in *; [|discriminate Pr].
    unfold save_incident, set_incidents, ret.
    cbn [fst snd actions action_plans incidents].
    split; [reflexivity|]. split; [congruence|].
    exists created. repeat split; try assumption.
    + congruence.
    + lia.
    + eapply Forall_impl; [|exact Crange]. intros a Ha. simpl in Ha. lia.
    + intros _. unfold find_incident. cbn [incidents].
      apply (find_save_row inc_id (with_status incident (lit "ACTIONS_GENERATED"))).
    + intros Hall Hfail. specialize (Hfb Hfail). subst data.
      destruct fallback_actions_entries as (fb & Hfbiter & Hfblen & Hfbdict & _).
      rewrite Hiter in Hfbiter. injection Hfbiter as <-.
      rewrite (Cfull Hall Hfbdict), Hfblen. reflexivity.
  - cbn [ret fst snd]. split; [reflexivity|]. split; [exact Sp|].
    exists []. rewrite app_nil_r. repeat split; try assumption; try constructor.
    + simpl. lia.
    + intros Hc. now contradiction Hc.
    + intros _ Hfail. specialize (Hfb Hfail). subst data.
      destruct fallback_actions_entries as (_ & _ & _ & _ & Ht).
      rewrite Ht in Htruth. discriminate.
Qed.

Lemma after_selection_no_client (action_plan : ActionPlan) (incident : Incident)
  (w : World) :
  initialize_adaptive_ai_agent = None ->
  after_selection action_plan incident w = (Ok tt, w).
Proof. intros H. unfold after_selection. now rewrite H. Qed.

Lemma after_selection_plans (action_plan : ActionPlan) (incident : Incident)
  (w : World) :
  action_plans (snd (after_selection action_plan incident w)) = action_plans w.
Proof.
  destruct initialize_adaptive_ai_agent as [client|] eqn:Hinit.
  - now destruct (after_selection_spec action_plan incident client w Hinit) as (_ & H & _).
  - now rewrite after_selection_no_client.
Qed.

End AfterSelection.

Section SelectionFacts.
Context {rt : Runtime} {ext : External}.

Lemma try_except_ret_world {A} (m : M A) (x : A) (w : World) :
  snd (try_except m (fun _ => ret x) w) = snd (m w).
Proof. unfold try_except, ret. now destruct (m w) as [[a|e] w1]. Qed.

Lemma bind_ret_world {A B} (m : M A) (x : B) (w : World) :
  snd (bind m (fun _ => ret x) w) = snd (m w).
Proof. unfold bind, ret. now destruct (m w) as [[a|e] w1]. Qed.

Lemma select_rows_twice_in (p : ActionPlan) (rows : list ActionPlan) :
  In p rows -> In (mark_selected p) (select_rows p rows).
Proof.
  intros Hin. pose proof (find_select_rows p rows Hin) as Hf.
  now apply find_some in Hf as [Hf _].
Qed.

Lemma mark_selected_twice (p : ActionPlan) :
  mark_selected (mark_selected p) = mark_selected p.
Proof. reflexivity. Qed.

Lemma select_row_twice (p q : ActionPlan) :
  select_row (mark_selected p) (select_row p q) = select_row p q.
Proof.
  unfold select_row. cbn [mark_selected ap_id ap_incident].
  destruct (ap_id q =? ap_id p) eqn:Hq.
  - cbn [mark_selected ap_id]. now rewrite Z.eqb_refl.
  - destruct (ap_incident q =? ap_incident p) eqn:Hi.
    + cbn [unselect ap_id ap_incident]. now rewrite Hq, Hi.
    + now rewrite Hq, Hi.
Qed.

(** Running the selection statements a second time changes nothing. *)
Lemma select_rows_twice (p : ActionPlan) (rows : list ActionPlan) :
  In p rows ->
  select_rows (mark_selected p) (select_rows p rows) = select_rows p rows.
Proof.
  intros Hin.
  rewrite (select_rows_map (mark_selected p)) by now apply select_rows_twice_in.
  rewrite select_rows_map by exact Hin. rewrite map_map.
  apply map_ext. intros q. apply select_row_twice.
Qed.

(** The lookup of the endpoint, once [int] has made a key of the value. *)
Lemma get_action_plan_by_key (v : value) (plan_id : Z) (w : World) :
  py_int v = Ok plan_id -> get_action_plan_by v w = get_action_plan plan_id w.
Proof. intros H. unfold get_action_plan_by, bind, lift. now rewrite H. Qed.

Lemma get_action_plan_by_raises (v : value) (e : exn) (w : World) :
  py_int v = Raise e -> get_action_plan_by v w = (Raise e, w).
Proof. intros H. unfold get_action_plan_by, bind, lift. now rewrite H. Qed.

(** The command as the endpoint calls it. *)
Lemma call_command_run (v : value) (plan_id : Z) (w : World) :
  py_int v = Ok plan_id ->
  call_command v w
  = if command_accepts v then handle plan_id w else (Raise CommandError, w).
Proof.
  intros H. unfold call_command. destruct (command_accepts v); [|reflexivity].
  unfold bind, lift. now rewrite H.
Qed.

(** The statements of the endpoint up to the call of the command. *)
Lemma select_action_plan_body (v : value) (plan_id : Z) (w : World)
  (p : ActionPlan) (inc : Incident) :
  py_int v = Ok plan_id ->
  find_plan plan_id w = Some p -> find_incident (ap_incident p) w = Some inc ->
  (do! action_plan := get_action_plan_by v in
   do! incident := get_incident (ap_incident action_plan) in
   do! _ := clear_selection (inc_id incident) in
   do! _ := save_action_plan (mark_selected action_plan) in
   do! _ := call_command v in
   ret (JsonResponse 200 true)) w
  = bind (call_command v) (fun _ => ret (JsonResponse 200 true))
      (snd (set_action_plans (select_rows p) w)).
Proof.
  intros Hkey Hp Hi. pose proof (find_incident_some _ _ _ Hi) as Hid.
  unfold bind at 1. rewrite (get_action_plan_by_key v plan_id w Hkey).
  unfold get_action_plan. unfold find_plan in Hp. rewrite Hp.
  unfold bind at 1, get_incident. unfold find_incident in Hi. rewrite Hi.
  unfold bind at 1 2, clear_selection, save_action_plan, set_action_plans.
  rewrite Hid. reflexivity.
Qed.

(** The command run on a table in which the plan was just selected goes
    through the selection statements to the same table. *)
Lemma handle_after_select_rows (plan_id : Z) (w : World) (p : ActionPlan)
  (inc : Incident) :
  find_plan plan_id w = Some p -> find_incident (ap_incident p) w = Some inc ->
  handle plan_id (snd (set_action_plans (select_rows p) w))
  = after_selection (mark_selected p) inc (snd (set_action_plans (select_rows p) w)).
Proof.
  intros Hp Hi. destruct (find_plan_some _ _ _ Hp) as [Hin Hid].
  rewrite (handle_found plan_id _ (mark_selected p) inc).
  - rewrite mark_selected_twice. f_equal.
    unfold set_action_plans.
    cbn [snd incidents action_plans actions deliverables llm_calls].
    now rewrite (select_rows_twice p (action_plans w) Hin).
  - unfold find_plan, set_action_plans. cbn [snd action_plans].
    rewrite <- Hid. now apply find_select_rows.
  - exact Hi.
Qed.

(** The endpoint runs the selection statements and then the command, when
    the parser of the command accepts the value. *)
Lemma select_action_plan_world (v : value) (plan_id : Z) (w : World) :
  truthy v = true -> py_int v = Ok plan_id ->
  snd (select_action_plan v w)
  = match find_plan plan_id w with
    | None => w
    | Some p =>
        match find_incident (ap_incident p) w with
        | None => w
        | Some inc =>
            if command_accepts v
            then snd (handle plan_id (snd (set_action_plans (select_rows p) w)))
            else snd (set_action_plans (select_rows p) w)
        end
    end.
Proof.
  intros Ht Hkey.
  unfold select_action_plan. rewrite try_except_ret_world, Ht. cbn [negb].
  destruct (find_plan plan_id w) as [p|] eqn:Hp.
  - destruct (find_incident (ap_incident p) w) as [inc|] eqn:Hi.
    + rewrite (select_action_plan_body v plan_id w p inc Hkey Hp Hi).
      rewrite bind_ret_world, (call_command_run v plan_id _ Hkey).
      now destruct (command_accepts v).
    + unfold bind at 1. rewrite (get_action_plan_by_key v plan_id w Hkey).
      unfold get_action_plan. unfold find_plan in Hp. rewrite Hp.
      unfold bind at 1, get_incident. unfold find_incident in Hi. now rewrite Hi.
  - unfold bind at 1. rewrite (get_action_plan_by_key v plan_id w Hkey).
    unfold get_action_plan. unfold find_plan in Hp. now rewrite Hp.
Qed.

(** A value that counts as false, or of which [int] makes no key, leaves
    the database as it is. *)
Lemma select_action_plan_unchosen (v : value) (w : World) :
  chosen_plan (ByEndpoint v) = None -> snd (select_action_plan v w) = w.
Proof.
  unfold chosen_plan, select_action_plan. rewrite try_except_ret_world.
  destruct (truthy v); [|reflexivity]. cbn [negb].
  destruct (py_int v) as [key|e] eqn:Hkey; [discriminate|]. intros _.
  unfold bind at 1. now rewrite (get_action_plan_by_raises v e w Hkey).
Qed.

Lemma chosen_by_endpoint (v : value) (plan_id : Z) :
  chosen_plan (ByEndpoint v) = Some plan_id ->
  truthy v = true /\ py_int v = Ok plan_id.
Proof.
  unfold chosen_plan. destruct (truthy v); [|discriminate].
  destruct (py_int v); [|discriminate]. now intros [= ->].
Qed.

(** The plan table after one selection operation. *)
Lemma run_selection_plans (op : selection) (w : World) :
  action_plans (run_selection op w)
  = match chosen_plan op with
    | None => action_plans w
    | Some plan_id =>
        match find_plan plan_id w with
        | None => action_plans w
        | Some p =>
            match find_incident (ap_incident p) w with
            | None => action_plans w
            | Some _ => select_rows p (action_plans w)
            end
        end
    end.
Proof.
  destruct op as [v|plan_id]; cbn [run_selection].
  - destruct (chosen_plan (ByEndpoint v)) as [plan_id|] eqn:Hop;
      [|now rewrite select_action_plan_unchosen].
    apply chosen_by_endpoint in Hop as [Ht Hkey].
    rewrite (select_action_plan_world v plan_id w Ht Hkey).
    destruct (find_plan plan_id w) as [p|] eqn:Hp; [|reflexivity].
    destruct (find_incident (ap_incident p) w) as [inc|] eqn:Hi; [|reflexivity].
    destruct (command_accepts v); [|reflexivity].
    rewrite (handle_after_select_rows plan_id w p inc Hp Hi), after_selection_plans.
    reflexivity.
  - cbn [chosen_plan].
    destruct (find_plan plan_id w) as [p|] eqn:Hp;
      [|now rewrite handle_no_plan].
    destruct (find_incident (ap_incident p) w) as [inc|] eqn:Hi;
      [|now rewrite (handle_no_incident plan_id w p)].
    rewrite (handle_found plan_id w p inc Hp Hi), after_selection_plans.
    reflexivity.
Qed.

Lemma run_selection_unique (op : selection) (w : World) :
  unique_plan_ids w -> unique_plan_ids (run_selection op w).
Proof.
  intros Hnd. pose proof (run_selection_plans op w) as Hplans.
  unfold unique_plan_ids in *.
  destruct (chosen_plan op) as [plan_id|]; [|now rewrite Hplans].
  destruct (find_plan plan_id w) as [p|] eqn:Hp; [|now rewrite Hplans].
  destruct (find_incident (ap_incident p) w) as [inc|]; [|now rewrite Hplans].
  apply find_plan_some in Hp as [Hin _]. rewrite Hplans.
  now rewrite select_rows_ids.
Qed.

Lemma run_selection_invariant (op : selection) (w : World) (incident_id : Z) :
  unique_plan_ids w -> at_most_one_selected incident_id w ->
  at_most_one_selected incident_id (run_selection op w).
Proof.
  intros Hnd Hone.
  pose proof (run_selection_plans op w) as Hplans.
  assert (Hsame : action_plans (run_selection op w) = action_plans w ->
                  at_most_one_selected incident_id (run_selection op w)).
  { intros Hs. unfold at_most_one_selected, selected_plans in *. now rewrite Hs. }
  destruct (chosen_plan op) as [plan_id|]; [|now apply Hsame].
  destruct (find_plan plan_id w) as [p|] eqn:Hp; [|now apply Hsame].
  destruct (find_incident (ap_incident p) w) as [inc|]; [|now apply Hsame].
  apply find_plan_some in Hp as [Hin _].
  now apply (select_rows_at_most_one p w).
Qed.

(** An operation that finds its plan leaves at most one selected plan in
    that plan's incident, whatever the flags were before. *)
Lemma run_selection_establishes (op : selection) (w : World) (plan_id : Z)
  (p : ActionPlan) (inc : Incident) :
  unique_plan_ids w ->
  chosen_plan op = Some plan_id ->
  find_plan plan_id w = Some p ->
  find_incident (ap_incident p) w = Some inc ->
  at_most_one_selected (ap_incident p) (run_selection op w).
Proof.
  intros Hnd Hop Hp Hi.
  pose proof (run_selection_plans op w) as Hplans.
  rewrite Hop, Hp, Hi in Hplans.
  apply find_plan_some in Hp as [Hin _].
  now apply (select_rows_own_incident p w).
Qed.

Lemma run_selections_invariant (ops : list selection) (w : World) (incident_id : Z) :
  unique_plan_ids w -> at_most_one_selected incident_id w ->
  at_most_one_selected incident_id (run_selections ops w).
Proof.
  revert w. induction ops as [|op ops IH]; intros w Hnd Hone; [exact Hone|].
  cbn [run_selections fold_left].
  apply IH; [now apply run_selection_unique|now apply run_selection_invariant].
Qed.

Lemma run_selection_siblings (op : selection) (w : World) (plan_id : Z)
  (p : ActionPlan) (inc : Incident) (q : ActionPlan) :
  chosen_plan op = Some plan_id ->
  find_plan plan_id w = Some p ->
  find_incident (ap_incident p) w = Some inc ->
  In q (action_plans (run_selection op w)) ->
  ap_incident q = ap_incident p ->
  ap_is_selected q = (ap_id q =? plan_id).
Proof.
  intros Hop Hp Hi Hq Hinc.
  rewrite run_selection_plans, Hop, Hp, Hi in Hq.
  apply find_plan_some in Hp as [Hin <-].
  apply (select_rows_siblings p _ q Hin Hq Hinc).
Qed.

End SelectionFacts.

(** C3. On a database whose plan keys are unique, selection operations
    (the endpoint and the command) run one after the other keep at most one
    selected plan in every incident that had at most one; a sequence that
    starts with an operation that finds its plan leaves at most one
    selected plan in that plan's incident whatever the flags were before;
    and after an operation that finds its plan, the plans of its incident
    are flagged exactly when they are the chosen plan: the siblings are
    cleared. *)
Theorem selections_keep_one_selected (rt : Runtime) (ext : External)
  (ops : list selection) (w : World) (incident_id : Z) :
  unique_plan_ids w ->
  (at_most_one_selected incident_id w ->
   at_most_one_selected incident_id (run_selections ops w))
  /\ (forall op plan_id p inc,
        chosen_plan op = Some plan_id ->
        find_plan plan_id w = Some p ->
        find_incident (ap_incident p) w = Some inc ->
        at_most_one_selected (ap_incident p) (run_selections (op :: ops) w)
        /\ forall q,
             In q (action_plans (run_selection op w)) ->
             ap_incident q = ap_incident p ->
             ap_is_selected q = (ap_id q =? plan_id)).
Proof.
  intros Hnd. split.
  - now apply run_selections_invariant.
  - intros op plan_id p inc Hop Hp Hi. split.
    + cbn [run_selections fold_left].
      apply run_selections_invariant; [now apply run_selection_unique|].
      now apply (run_selection_establishes op w plan_id p inc).
    + intros q. now apply (run_selection_siblings op w plan_id p inc q).
Qed.

Lemma demo_world_unique : unique_plan_ids DEMO_WORLD.
Proof.
  unfold unique_plan_ids. simpl. repeat constructor; simpl; intuition lia.
Qed.

(** Three selections in a row on the small database. *)
Lemma selections_keep_one_selected_witness :
  at_most_one_selected 1
    (@run_selections Ref.runtime ONE_ACTION
       [ByCommand 2; ByEndpoint (VInt 1); ByEndpoint (VInt 2)] DEMO_WORLD).
Proof.
  destruct (selections_keep_one_selected Ref.runtime ONE_ACTION
              [ByCommand 2; ByEndpoint (VInt 1); ByEndpoint (VInt 2)]
              DEMO_WORLD 1 demo_world_unique) as [H _].
  apply H. unfold at_most_one_selected. vm_compute. lia.
Defined.

Lemma ref_ascii_case : ascii_case_mapping Ref.runtime.
Proof. intros s _. split; reflexivity. Qed.

(** Loosely typed plans come out in range. *)
Lemma validated_plans_in_range_witness :
  exists out,
    @validate_and_enhance_plans Ref.runtime LOOSE_PLANS (lit "security") = Ok out
    /\ length out = length LOOSE_PLANS
    /\ Forall (fun v => exists p, v = plan_dict p
                          /\ In (risk_level p) LEVELS
                          /\ In (confidence_score p) LEVELS
                          /\ 1 <= estimated_hours p <= 8) out.
Proof.
  destruct (validated_plans_in_range Ref.runtime LOOSE_PLANS (lit "security"))
    as [Hreturns Hrange].
  destruct Hreturns as [out Hout]; [vm_compute; reflexivity|].
  exists out. split; [exact Hout|]. now apply Hrange.
Defined.

(** C2, as stated, fails: the parser accepts the reply
    [{"action_plans": [{"risk_level": 5}]}], and for its plan record the
    validator produces no record at all: [upper] is called on the number,
    which raises [AttributeError]. *)
Lemma numeric_risk_level_gets_no_record :
  exists plans,
    @safe_json_parse Ref.runtime NUMERIC_RISK_REPLY
    = Ok (VDict [(lit "action_plans", VList plans)])
    /\ plans = [VDict [(lit "risk_level", VInt 5)]]
    /\ @validate_and_enhance_plans Ref.runtime plans (lit "security")
       = Raise AttributeError.
Proof. eexists. repeat split; vm_compute; reflexivity. Qed.

(** The validated loose plans are validated to themselves. *)
Lemma validate_and_enhance_plans_idempotent_witness :
  exists out,
    @validate_and_enhance_plans Ref.runtime LOOSE_PLANS (lit "security") = Ok out
    /\ @validate_and_enhance_plans Ref.runtime out (lit "security") = Ok out.
Proof.
  eexists. split; [vm_compute; reflexivity|].
  apply (validate_and_enhance_plans_idempotent Ref.runtime LOOSE_PLANS (lit "security")).
  - exact ref_ascii_case.
  - vm_compute. reflexivity.
Defined.

(** The action that notifies stakeholders gets an expert record. *)
Lemma determine_format_fallback_record_witness :
  exists r, @determine_format_fallback Ref.runtime DEMO_ACTION = Ok r
            /\ In r EXPERT_RECORDS /\ consistent_record r.
Proof.
  destruct (determine_format_fallback_record Ref.runtime DEMO_ACTION) as [_ Hrecord].
  eexists. split; [vm_compute; reflexivity|].
  apply Hrecord. vm_compute. reflexivity.
Defined.

(** C10, as stated, fails: when the model numbers an action instead of
    naming it, the command stores the action and keeps the number as its
    title; on that action [determine_format_fallback] returns no record:
    [lower] is called on the number, which raises [AttributeError]. *)
Lemma numeric_title_has_no_record :
  exists action,
    actions (snd (@handle Ref.runtime NUMERIC_TITLE 2 DEMO_WORLD)) = [action]
    /\ act_title action = VInt 5
    /\ @determine_format_fallback Ref.runtime action = Raise AttributeError.
Proof. eexists. repeat split; vm_compute; reflexivity. Qed.

(** C5, as amended. When the plan and its incident exist and the API key
    is missing, the command flags the plan as selected and returns
    normally: no Action row is created and the Incident keeps its status.
    The static actions are used when a client exists and the request to the
    model fails: then, on a database that accepts them, the four static
    actions are stored with steps 1 to 4 and the Incident becomes
    ACTIONS_GENERATED. *)
Theorem handle_without_key (rt : Runtime) (ext : External) (plan_id : Z)
  (w : World) (p : ActionPlan) (inc : Incident) :
  find_plan plan_id w = Some p ->
  find_incident (ap_incident p) w = Some inc ->
  (OPENROUTER_API_KEY = None ->
   handle plan_id w = (Ok tt, snd (set_action_plans (select_rows p) w)))
  /\ (forall client,
        initialize_adaptive_ai_agent = Some client ->
        is_ok (llm_reply (llm_calls w)) = false ->
        (forall a, accepts_action a = true) ->
        fst (handle plan_id w) = Ok tt
        /\ exists created,
             actions (snd (handle plan_id w)) = actions w ++ created
             /\ map act_step created = [1; 2; 3; 4]
             /\ find_incident (ap_incident p) (snd (handle plan_id w))
                = Some (with_status inc (lit "ACTIONS_GENERATED"))).
Proof.
  intros Hp Hi. rewrite (handle_found plan_id w p inc Hp Hi). split.
  - intros Hkey. apply after_selection_no_client.
    unfold initialize_adaptive_ai_agent. now rewrite Hkey.
  - intros client Hclient Hfail Hall.
    destruct (after_selection_spec (mark_selected p) inc client
                (snd (set_action_plans (select_rows p) w)) Hclient)
      as (Hr & _ & created & Ha & _ & _ & _ & Hstatus & Hsteps).
    split; [exact Hr|]. exists created.
    specialize (Hsteps Hall Hfail). split; [exact Ha|]. split; [exact Hsteps|].
    rewrite <- (find_incident_some _ _ _ Hi). apply Hstatus.
    intros ->. discriminate Hsteps.
Qed.

Lemma demo_plan_found :
  find_plan 2 DEMO_WORLD
  = Some (demo_plan 2 "Comprehensive Security Investigation" false).
Proof. reflexivity. Qed.

Lemma demo_incident_found : find_incident 1 DEMO_WORLD = Some DEMO_INCIDENT.
Proof. reflexivity. Qed.

(** Without a key, the command run on plan 2 only selects it. *)
Lemma handle_without_key_witness :
  @handle Ref.runtime NO_KEY 2 DEMO_WORLD
  = (Ok tt,
     snd (set_action_plans
            (select_rows (demo_plan 2 "Comprehensive Security Investigation" false))
            DEMO_WORLD)).
Proof.
  destruct (handle_without_key Ref.runtime NO_KEY 2 DEMO_WORLD _ DEMO_INCIDENT
              demo_plan_found demo_incident_found) as [H _].
  apply H. reflexivity.
Defined.

(** C5, as stated, fails: without a key the command creates no Action row
    for the selected plan and leaves the Incident in
    AWAITING_PLAN_SELECTION. *)
Lemma missing_key_stops_the_pipeline :
  ~ (actions (snd (@handle Ref.runtime NO_KEY 2 DEMO_WORLD)) <> []
     /\ find_incident 1 (snd (@handle Ref.runtime NO_KEY 2 DEMO_WORLD))
        = Some (with_status DEMO_INCIDENT (lit "ACTIONS_GENERATED"))).
Proof.
  intros [Hrows _]. apply Hrows. vm_compute. reflexivity.
Qed.




(** C9 on the code. The formatter never returns: whatever the model
    answers, evaluating the f-string assigned to [formatted_content] reads
    that variable before it is bound, and the handler then asks the command
    object for a function defined outside the class, so the call raises
    [AttributeError]. [process_smart_deliverables] absorbs it: it counts no
    deliverable, and every row it inserts keeps the empty content it was
    created with. With a reply of twelve characters of prose, the stored
    content has length 0. *)
Theorem formatter_stores_no_content (rt : Runtime) (ext : External) :
  (forall client action action_plan incident specs w,
     fst (generate_adaptive_documentation_enhanced client action action_plan
            incident specs w) = Raise AttributeError)
  /\ (forall client actions action_plan incident w,
        fst (process_smart_deliverables client actions action_plan incident 0 w)
        = Ok 0%nat
        /\ added_empty_deliverables w
             (snd (process_smart_deliverables client actions action_plan incident 0 w)))
  /\ map (fun d => length (dl_content d))
         (deliverables (snd (@handle Ref.runtime ONE_ACTION 2 DEMO_WORLD)))
     = [0%nat].
Proof.
  split; [|split].
  - intros. apply generate_documentation_raises.
  - intros. apply process_smart_deliverables_spec.
  - vm_compute. reflexivity.
Qed.

(* ================================================================== *)
(** * Further properties of the parser *)
(* ================================================================== *)

Section FenceFacts.
Local Open Scope N_scope.


Lemma startswith_fence (c c2 c3 : N) (r : pystr) :
  startswith FENCE (c :: c2 :: c3 :: r)
  = (c =? BACKTICK) && (c2 =? BACKTICK) && (c3 =? BACKTICK).
Proof.
  unfold FENCE. cbn [startswith].
  rewrite (N.eqb_sym BACKTICK c), (N.eqb_sym BACKTICK c2), (N.eqb_sym BACKTICK c3).
  now rewrite andb_true_r, andb_assoc.
Qed.

Lemma startswith_fence_head (c : N) (r : pystr) :
  (c =? BACKTICK) = false -> startswith FENCE (c :: r) = false.
Proof.
  intros H. unfold FENCE. cbn [startswith]. now rewrite (N.eqb_sym BACKTICK c), H.
Qed.

Lemma short_no_fence (s : pystr) :
  (length s < 3)%nat -> startswith FENCE s = false.
Proof.
  destruct s as [|c [|c2 [|c3 r]]]; cbn [length]; intros H; try lia;
    unfold FENCE; cbn [startswith]; now rewrite ?andb_false_r.
Qed.

(** Outside a match, a character that does not open a fence is copied. *)
Lemma sub_fence_markers_copy (c : N) (r : pystr) :
  startswith FENCE (c :: r) = false ->
  sub_fence_markers false (c :: r) = c :: sub_fence_markers false r.
Proof.
  destruct r as [|c2 [|c3 r3]]; intros H; cbn [sub_fence_markers andb]; trivial.
  rewrite startswith_fence in H. now rewrite H.
Qed.

Lemma startswith_fence_copied (c : N) (r : pystr) :
  startswith FENCE (c :: r) = false ->
  startswith FENCE (c :: sub_fence_markers false r) = false.
Proof.
  intros H.
  destruct (c =? BACKTICK) eqn:Hc; [|now apply startswith_fence_head].
  destruct r as [|c2 r2]; [apply short_no_fence; cbn [length sub_fence_markers andb]; lia|].
  destruct (c2 =? BACKTICK) eqn:Hc2.
  2:{ rewrite sub_fence_markers_copy by now apply startswith_fence_head.
      unfold FENCE. cbn [startswith]. rewrite (N.eqb_sym BACKTICK c2), Hc2.
      now rewrite andb_false_r. }
  destruct r2 as [|c3 r3]; [apply short_no_fence; cbn [length sub_fence_markers andb]; lia|].
  rewrite startswith_fence, Hc, Hc2 in H. cbn [andb] in H.
  rewrite sub_fence_markers_copy.
  2:{ destruct r3 as [|c4 r4]; [apply short_no_fence; cbn [length sub_fence_markers andb]; lia|].
      rewrite startswith_fence, Hc2, H. reflexivity. }
  rewrite sub_fence_markers_copy by now apply startswith_fence_head.
  rewrite startswith_fence, H. now rewrite andb_false_r.
Qed.

Lemma sub_fence_markers_no_fence (n : nat) :
  forall (s : pystr) (tag : bool), (length s <= n)%nat ->
  str_in FENCE (sub_fence_markers tag s) = false.
Proof.
  induction n as [|n IH]; intros [|c r] tag Hn; try reflexivity;
    cbn [length] in Hn; [lia|].
  cbn [sub_fence_markers].
  destruct (tag && is_ascii_letter c); [apply IH; lia|].
  destruct (tag && (c =? NL)); [apply IH; lia|].
  assert (Hcopy : startswith FENCE (c :: r) = false ->
                  str_in FENCE (c :: sub_fence_markers false r) = false).
  { intros H. cbn [str_in]. rewrite startswith_fence_copied by exact H.
    apply IH. lia. }
  destruct r as [|c2 [|c3 r3]];
    try (apply Hcopy; apply short_no_fence; cbn [length sub_fence_markers andb]; lia).
  destruct ((c =? BACKTICK) && (c2 =? BACKTICK) && (c3 =? BACKTICK)) eqn:Hf.
  - apply IH. cbn [length] in Hn. lia.
  - apply Hcopy. now rewrite startswith_fence.
Qed.

Lemma sub_fence_tail_id (t : pystr) :
  str_in FENCE t = false -> sub_fence_tail t = t.
Proof.
  induction t as [|c r IH]; [reflexivity|].
  cbn [str_in]. intros H. apply orb_false_iff in H as [H1 H2].
  cbn [sub_fence_tail]. fold FENCE. rewrite H1. cbn [andb]. now rewrite IH.
Qed.

Lemma sub_fence_tail_idle (tag : bool) (s : pystr) :
  sub_fence_tail (sub_fence_markers tag s) = sub_fence_markers tag s.
Proof.
  apply sub_fence_tail_id. now apply (sub_fence_markers_no_fence (length s)).
Qed.

(** X1. The first substitution of [safe_json_parse] leaves no fence
    marker behind: whatever the text, the result contains no three
    consecutive backticks, so the second substitution, which removes a
    trailing marker, never changes it. *)
Theorem second_substitution_is_idle (tag : bool) (s : pystr) :
  str_in FENCE (sub_fence_markers tag s) = false
  /\ sub_fence_tail (sub_fence_markers tag s) = sub_fence_markers tag s.
Proof.
  assert (H : str_in FENCE (sub_fence_markers tag s) = false)
    by now apply (sub_fence_markers_no_fence (length s)).
  split; [exact H|]. now apply sub_fence_tail_id.
Qed.

Lemma count_app (c : N) (a b : pystr) :
  count_char c (a ++ b) = (count_char c a + count_char c b)%nat.
Proof. unfold count_char. now rewrite List.filter_app, length_app. Qed.

Lemma count_rev (c : N) (s : pystr) : count_char c (rev s) = count_char c s.
Proof.
  induction s as [|x s IH]; [reflexivity|].
  cbn [rev]. rewrite count_app, IH. unfold count_char. cbn [List.filter].
  destruct (x =? c); cbn [length app]; lia.
Qed.

Lemma count_lstrip (c : N) (s : pystr) : (count_char c (lstrip s) <= count_char c s)%nat.
Proof.
  induction s as [|x s IH]; [reflexivity|].
  cbn [lstrip]. destruct (isspace x); [|reflexivity].
  etransitivity; [exact IH|]. unfold count_char. cbn [List.filter].
  destruct (x =? c); cbn [length]; lia.
Qed.

Lemma count_strip (c : N) (s : pystr) : (count_char c (strip s) <= count_char c s)%nat.
Proof.
  unfold strip, rstrip. rewrite count_rev.
  etransitivity; [apply count_lstrip|]. rewrite count_rev. apply count_lstrip.
Qed.

Lemma count_cons_le (c x : N) (s t : pystr) :
  (count_char c s <= count_char c t)%nat -> (count_char c (x :: s) <= count_char c (x :: t))%nat.
Proof. unfold count_char. cbn [List.filter]. destruct (x =? c); cbn [length]; lia. Qed.

Lemma count_skip_le (c x : N) (s t : pystr) :
  (count_char c s <= count_char c t)%nat -> (count_char c s <= count_char c (x :: t))%nat.
Proof. unfold count_char. cbn [List.filter]. destruct (x =? c); cbn [length]; lia. Qed.

Lemma count_sub_fence_markers (c : N) (n : nat) :
  forall (s : pystr) (tag : bool), (length s <= n)%nat ->
  (count_char c (sub_fence_markers tag s) <= count_char c s)%nat.
Proof.
  induction n as [|n IH]; intros [|x r] tag Hn; try reflexivity;
    cbn [length] in Hn; [lia|].
  cbn [sub_fence_markers].
  destruct (tag && is_ascii_letter x); [apply count_skip_le, IH; lia|].
  destruct (tag && (x =? NL)); [apply count_skip_le, IH; lia|].
  destruct r as [|c2 [|c3 r3]]; try (apply count_cons_le, IH; lia).
  destruct ((x =? BACKTICK) && (c2 =? BACKTICK) && (c3 =? BACKTICK)).
  - do 3 apply count_skip_le. apply IH. cbn [length] in Hn. lia.
  - apply count_cons_le, IH. lia.
Qed.

Lemma length_split (sep : N) (s : pystr) :
  length (split sep s) = S (count_char sep s).
Proof.
  induction s as [|x s IH]; [reflexivity|].
  cbn [split]. unfold count_char in *. cbn [List.filter].
  destruct (x =? sep); cbn [length]; [now rewrite IH|].
  destruct (split sep s); cbn [length] in *; [discriminate|exact IH].
Qed.

Lemma count_none (c : N) (s : pystr) :
  forallb (fun x => negb (x =? c)) s = true -> count_char c s = 0%nat.
Proof.
  induction s as [|x s IH]; [reflexivity|].
  cbn [forallb]. intros H. apply andb_true_iff in H as [H1 H2].
  unfold count_char in *. cbn [List.filter].
  destruct (x =? c); [discriminate|]. now apply IH.
Qed.

Lemma count_upto_all (c : N) (pos : nat) (s : pystr) :
  forallb (fun x => negb (x =? c)) (drop pos s) = true ->
  count_upto c pos s = count_char c s.
Proof.
  intros H. unfold count_upto. fold (count_char c (take pos s)).
  rewrite <- (take_drop pos s) at 2. rewrite count_app, (count_none _ _ H). lia.
Qed.

Section RepairFacts.
Context {rt : Runtime}.

(** When the message does not speak of an unterminated string, the
    repaired text is the reply without surrounding white space and without
    fence markers. *)
Lemma repair_other_message (response_text msg : pystr) (pos : nat) :
  str_in (lit "Unterminated string") (err_str msg response_text pos) = false ->
  repair response_text msg pos = Ok (sub_fence_markers false (strip response_text)).
Proof.
  intros H. unfold repair. rewrite H.
  now rewrite (sub_fence_tail_idle false (strip response_text)).
Qed.

Lemma repair_last_line (response_text msg : pystr) (pos : nat) :
  forallb (fun c => negb (c =? NL)) (drop pos response_text) = true ->
  repair response_text msg pos = Ok (sub_fence_markers false (strip response_text)).
Proof.
  intros H. unfold repair.
  rewrite (sub_fence_tail_idle false (strip response_text)).
  destruct (str_in _ _); [|reflexivity].
  replace (_ <? _)%nat with false; [reflexivity|].
  symmetry. apply Nat.ltb_ge. rewrite length_split. unfold err_lineno.
  rewrite (count_upto_all _ _ _ H).
  pose proof (count_sub_fence_markers NL _ (strip response_text) false (Nat.le_refl _)).
  pose proof (count_strip NL response_text). lia.
Qed.

End RepairFacts.

(** X2. The repair that appends a double quote needs a later line: when
    no line break follows the position of the decoding error (the error is
    on the last line of the reply, as it is when a reply is cut off), the
    repaired text is the reply without surrounding white space and fence
    markers, whatever the message, and the second decoding attempt is made
    on exactly that text. *)
Theorem quote_fix_needs_a_later_line (rt : Runtime) (response_text msg : pystr)
  (pos : nat) :
  forallb (fun c => negb (c =? NL)) (drop pos response_text) = true ->
  repair response_text msg pos = Ok (sub_fence_markers false (strip response_text))
  /\ (loads response_text = Raise (JSONDecodeError msg response_text pos) ->
      safe_json_parse response_text
      = match loads (sub_fence_markers false (strip response_text)) with
        | Ok v => Ok v
        | Raise _ => Ok FALLBACK_PAYLOAD
        end).
Proof.
  intros H. pose proof (repair_last_line response_text msg pos H) as Hr.
  split; [exact Hr|]. intros Hl.
  now apply (safe_json_parse_second_attempt response_text msg _ pos).
Qed.

Lemma quote_fix_needs_a_later_line_witness :
  repair UNTERMINATED_REPLY (lit "Unterminated string starting at") 32
  = Ok UNTERMINATED_REPLY
  /\ @safe_json_parse Ref.runtime UNTERMINATED_REPLY = Ok FALLBACK_PAYLOAD.
Proof.
  destruct (quote_fix_needs_a_later_line Ref.runtime UNTERMINATED_REPLY
              (lit "Unterminated string starting at") 32) as [H1 H2].
  - vm_compute. reflexivity.
  - split.
    + rewrite H1. vm_compute. reflexivity.
    + rewrite H2; vm_compute; reflexivity.
Defined.

(* ---- X2 ---- *)

Lemma sub_fence_markers_tag (tag rest : pystr) :
  forallb is_ascii_letter tag = true ->
  sub_fence_markers true (tag ++ NL :: rest) = sub_fence_markers false rest.
Proof.
  induction tag as [|c tag IH]; [reflexivity|].
  cbn [forallb]. intros H. apply andb_true_iff in H as [H1 H2].
  cbn [app sub_fence_markers andb]. rewrite H1. now apply IH.
Qed.

Lemma sub_fence_markers_plain (body : pystr) :
  forallb (fun c => negb (c =? BACKTICK)) body = true ->
  sub_fence_markers false (body ++ FENCE) = body.
Proof.
  induction body as [|c body IH]; [reflexivity|].
  cbn [forallb]. intros H. apply andb_true_iff in H as [H1 H2].
  apply negb_true_iff in H1. cbn [app].
  rewrite sub_fence_markers_copy by now apply startswith_fence_head.
  now rewrite IH.
Qed.

Lemma strip_fenced (tag body : pystr) : strip (fenced tag body) = fenced tag body.
Proof.
  unfold strip, rstrip, fenced.
  replace (lstrip (FENCE ++ tag ++ [NL] ++ body ++ FENCE))
    with (FENCE ++ tag ++ [NL] ++ body ++ FENCE) by reflexivity.
  rewrite !app_assoc. rewrite (rev_app_distr _ FENCE).
  replace (lstrip (rev FENCE ++ rev (((FENCE ++ tag) ++ [NL]) ++ body)))
    with (rev FENCE ++ rev (((FENCE ++ tag) ++ [NL]) ++ body)) by reflexivity.
  rewrite <- rev_app_distr. apply rev_involutive.
Qed.

Lemma sub_fence_markers_fenced (tag body : pystr) :
  forallb is_ascii_letter tag = true ->
  forallb (fun c => negb (c =? BACKTICK)) body = true ->
  sub_fence_markers false (fenced tag body) = body.
Proof.
  intros Ht Hb. unfold fenced.
  change (sub_fence_markers false (FENCE ++ tag ++ [NL] ++ body ++ FENCE))
    with (sub_fence_markers true (tag ++ NL :: body ++ FENCE)).
  rewrite sub_fence_markers_tag by exact Ht. now apply sub_fence_markers_plain.
Qed.

(** X3. A reply wrapped in a fenced code block is decoded as its body:
    for a tag made of letters and a body without backticks, if the decoder
    rejects the fenced text with a message that does not speak of an
    unterminated string and accepts the body, [safe_json_parse] returns
    the value of the body. *)
Theorem safe_json_parse_unfences (rt : Runtime) (tag body msg : pystr) (pos : nat)
  (v : value) :
  forallb is_ascii_letter tag = true ->
  forallb (fun c => negb (c =? BACKTICK)) body = true ->
  loads (fenced tag body) = Raise (JSONDecodeError msg (fenced tag body) pos) ->
  str_in (lit "Unterminated string") (err_str msg (fenced tag body) pos) = false ->
  loads body = Ok v ->
  repair (fenced tag body) msg pos = Ok body
  /\ safe_json_parse (fenced tag body) = Ok v.
Proof.
  intros Ht Hb Hl Hm Hv.
  assert (Hr : repair (fenced tag body) msg pos = Ok body).
  { rewrite repair_other_message by exact Hm.
    now rewrite strip_fenced, sub_fence_markers_fenced. }
  split; [exact Hr|].
  rewrite (safe_json_parse_second_attempt _ msg body pos Hl Hr).
  now rewrite Hv.
Qed.

Lemma safe_json_parse_unfences_witness :
  @safe_json_parse Ref.runtime FENCED_REPLY = Ok SCENARIO_DECODED.
Proof.
  refine (proj2 (safe_json_parse_unfences Ref.runtime (lit "json")
                   (SCENARIO_REPLY ++ [NL]) (lit "Expecting value") 0
                   SCENARIO_DECODED _ _ _ _ _));
    vm_compute; reflexivity.
Defined.

End FenceFacts.

(* ================================================================== *)
(** * Further properties of the selection endpoint and the command *)
(* ================================================================== *)

Section EndpointFacts.
Context {rt : Runtime} {ext : External}.

(** After the selection statements the command returns normally, with or
    without a client. *)
Lemma after_selection_returns (action_plan : ActionPlan) (incident : Incident)
  (w : World) :
  fst (after_selection action_plan incident w) = Ok tt.
Proof.
  destruct initialize_adaptive_ai_agent as [client|] eqn:Hc.
  - now destruct (after_selection_spec action_plan incident client w Hc).
  - now rewrite after_selection_no_client.
Qed.

Lemma select_action_plan_found (v : value) (plan_id : Z) (w : World)
  (p : ActionPlan) (inc : Incident) :
  truthy v = true -> py_int v = Ok plan_id ->
  find_plan plan_id w = Some p -> find_incident (ap_incident p) w = Some inc ->
  if command_accepts v
  then fst (select_action_plan v w) = Ok (JsonResponse 200 true)
  else select_action_plan v w
       = (Ok (JsonResponse 500 false), snd (set_action_plans (select_rows p) w)).
Proof.
  intros Ht Hkey Hp Hi.
  pose proof (after_selection_returns (mark_selected p) inc
                (snd (set_action_plans (select_rows p) w))) as Hr.
  rewrite <- (handle_after_select_rows plan_id w p inc Hp Hi) in Hr.
  unfold select_action_plan. rewrite Ht. cbn [negb].
  unfold try_except. rewrite (select_action_plan_body v plan_id w p inc Hkey Hp Hi).
  unfold bind. rewrite (call_command_run v plan_id _ Hkey).
  destruct (command_accepts v); [|reflexivity].
  destruct (handle plan_id (snd (set_action_plans (select_rows p) w))) as [[[]|e] w1];
    [reflexivity|discriminate Hr].
Qed.

Lemma select_action_plan_missing (v : value) (plan_id : Z) (w : World) :
  truthy v = true -> py_int v = Ok plan_id ->
  match find_plan plan_id w with
  | None => True
  | Some p => find_incident (ap_incident p) w = None
  end ->
  select_action_plan v w = (Ok (JsonResponse 500 false), w).
Proof.
  intros Ht Hkey Hmiss. unfold select_action_plan. rewrite Ht. cbn [negb].
  unfold try_except. unfold bind at 1.
  rewrite (get_action_plan_by_key v plan_id w Hkey).
  unfold get_action_plan. unfold find_plan in Hmiss.
  destruct (find _ (action_plans w)) as [p|]; [|reflexivity].
  unfold bind at 1, get_incident. unfold find_incident in Hmiss.
  now rewrite Hmiss.
Qed.

End EndpointFacts.

(** X4. The answers of the selection endpoint to any value of [plan_id].
    A value that counts as false, or a missing one, is answered with 400,
    and a value of which [int] makes no key with 500; so is a key for which
    the plan, or its incident, does not exist; in all these cases the
    database is untouched. When both exist, the answer is 200, even when no
    action could be generated, if the argument parser of the command
    accepts the value; if it refuses, the answer is 500 and the selection
    has been saved all the same. The endpoint never raises. *)
Theorem select_action_plan_responses (rt : Runtime) (ext : External)
  (plan_id : value) (w : World) :
  match chosen_plan (ByEndpoint plan_id) with
  | None =>
      select_action_plan plan_id w
      = (Ok (JsonResponse (if truthy plan_id then 500 else 400) false), w)
  | Some key =>
      match find_plan key w with
      | None => select_action_plan plan_id w = (Ok (JsonResponse 500 false), w)
      | Some p =>
          match find_incident (ap_incident p) w with
          | None => select_action_plan plan_id w = (Ok (JsonResponse 500 false), w)
          | Some _ =>
              if command_accepts plan_id
              then fst (select_action_plan plan_id w) = Ok (JsonResponse 200 true)
              else select_action_plan plan_id w
                   = (Ok (JsonResponse 500 false),
                      snd (set_action_plans (select_rows p) w))
          end
      end
  end.
Proof.
  destruct (chosen_plan (ByEndpoint plan_id)) as [key|] eqn:Hop.
  - apply chosen_by_endpoint in Hop as [Ht Hkey].
    destruct (find_plan key w) as [p|] eqn:Hp.
    + destruct (find_incident (ap_incident p) w) as [inc|] eqn:Hi.
      * now apply (select_action_plan_found plan_id key w p inc).
      * apply (select_action_plan_missing plan_id key w Ht Hkey).
        now rewrite Hp.
    + apply (select_action_plan_missing plan_id key w Ht Hkey).
      now rewrite Hp.
  - unfold chosen_plan in Hop. unfold select_action_plan.
    destruct (truthy plan_id); [|reflexivity]. cbn [negb].
    destruct (py_int plan_id) as [key|e] eqn:Hkey; [discriminate Hop|].
    unfold try_except. unfold bind at 1.
    now rewrite (get_action_plan_by_raises plan_id e w Hkey).
Qed.

(** The number 2.0 in the request: plan 2 is found and selected, the
    parser of the command refuses the text, and the answer is 500. *)
Lemma select_action_plan_responses_witness :
  @select_action_plan Ref.runtime ONE_ACTION TWO_POINT_ZERO DEMO_WORLD
  = (Ok (JsonResponse 500 false),
     snd (set_action_plans
            (select_rows (demo_plan 2 "Comprehensive Security Investigation" false))
            DEMO_WORLD))
  /\ map ap_is_selected
       (action_plans (snd (@select_action_plan Ref.runtime ONE_ACTION TWO_POINT_ZERO
                             DEMO_WORLD)))
     = [false; true].
Proof.
  pose proof (select_action_plan_responses Ref.runtime ONE_ACTION TWO_POINT_ZERO
                DEMO_WORLD) as H.
  split; [exact H|]. vm_compute. reflexivity.
Defined.

(** X20. The endpoint and the command do the same to the database: for a
    value of the request that counts as true, of which [int] makes the key
    and which the argument parser of the command accepts, a request to the
    selection endpoint leaves the tables and the number of requests to the
    model exactly as a run of the command for that key does. The selection
    statements of the endpoint are repeated by the command it calls, and
    the repetition changes nothing. *)
Theorem endpoint_and_command_agree (rt : Runtime) (ext : External)
  (v : value) (plan_id : Z) (w : World) :
  truthy v = true -> py_int v = Ok plan_id -> command_accepts v = true ->
  run_selection (ByEndpoint v) w = run_selection (ByCommand plan_id) w.
Proof.
  intros Ht Hkey Hacc. cbn [run_selection].
  rewrite (select_action_plan_world v plan_id w Ht Hkey), Hacc.
  destruct (find_plan plan_id w) as [p|] eqn:Hp; [|now rewrite handle_no_plan].
  destruct (find_incident (ap_incident p) w) as [inc|] eqn:Hi;
    [|now rewrite (handle_no_incident plan_id w p)].
  rewrite (handle_after_select_rows plan_id w p inc Hp Hi).
  now rewrite (handle_found plan_id w p inc Hp Hi).
Qed.

Lemma endpoint_and_command_agree_witness :
  @run_selection Ref.runtime ONE_ACTION (ByEndpoint (VInt 2)) DEMO_WORLD
  = @run_selection Ref.runtime ONE_ACTION (ByCommand 2) DEMO_WORLD.
Proof.
  apply (endpoint_and_command_agree Ref.runtime ONE_ACTION (VInt 2) 2 DEMO_WORLD);
    reflexivity.
Defined.

#[local] Instance added_actions_refl (P : Action -> Prop) : Reflexive (added_actions P).
Proof. intros w. exists []. split; [now rewrite app_nil_r|constructor]. Qed.

#[local] Instance added_actions_trans (P : Action -> Prop) : Transitive (added_actions P).
Proof.
  intros w1 w2 w3 (n1 & H1 & F1) (n2 & H2 & F2). exists (n1 ++ n2). split.
  - rewrite H2, H1. now rewrite app_assoc.
  - apply Forall_app. split; assumption.
Qed.

Lemma same_actions_added (P : Action -> Prop) (w w' : World) :
  actions w' = actions w -> added_actions P w w'.
Proof. intros H. exists []. split; [now rewrite app_nil_r|constructor]. Qed.

Section Ownership.
Context {rt : Runtime} {ext : External}.

Lemma create_action_added (P : Action -> Prop) (p : ActionPlan) (fields : Action) :
  (forall a, accepts_action a = true -> owned_by p a -> P a) ->
  owned_by p fields -> preserves (added_actions P) (create_action fields).
Proof.
  intros HP Hown w. unfold create_action.
  destruct (accepts_action _) eqn:Hacc; cbn [snd]; [|reflexivity].
  eexists [_]. split; [reflexivity|]. constructor; [|constructor].
  apply HP; [exact Hacc|exact Hown].
Qed.

Lemma create_action_loop_added (P : Action -> Prop) (action_plan : ActionPlan)
  (entries : list value) :
  (forall a, accepts_action a = true -> owned_by action_plan a -> P a) ->
  forall (i : Z) (created : list Action),
  preserves (added_actions P) (create_action_loop action_plan entries i created).
Proof.
  intros HP. induction entries as [|action_data rest IH]; intros i created;
    cbn [create_action_loop].
  - apply preserves_ret; typeclasses eauto.
  - apply preserves_bind; [typeclasses eauto| |intro; apply IH].
    apply preserves_try; [typeclasses eauto| |intro; apply preserves_ret; typeclasses eauto].
    apply preserves_bind; [typeclasses eauto|apply preserves_lift; typeclasses eauto|].
    intros d. apply preserves_bind; [typeclasses eauto| |intro; apply preserves_ret; typeclasses eauto].
    apply (create_action_added P action_plan); [exact HP|]. repeat split.
Qed.

Lemma after_selection_added (P : Action -> Prop) (action_plan : ActionPlan)
  (incident : Incident) :
  (forall a, accepts_action a = true -> owned_by action_plan a -> P a) ->
  preserves (added_actions P) (after_selection action_plan incident).
Proof.
  intros HP.
  unfold after_selection. destruct initialize_adaptive_ai_agent as [ai_agent|];
    [|apply preserves_ret; typeclasses eauto].
  apply preserves_bind; [typeclasses eauto| |intros actions_data].
  { intros w. apply same_actions_added.
    destruct (generate_actions_spec ai_agent action_plan w)
      as (_ & _ & _ & (_ & _ & H & _) & _). exact H. }
  destruct (negb (truthy actions_data)); [apply preserves_ret; typeclasses eauto|].
  apply preserves_bind; [typeclasses eauto| |intros created_actions].
  { unfold create_action_records.
    apply preserves_bind; [typeclasses eauto|apply preserves_lift; typeclasses eauto|].
    intros entries. now apply create_action_loop_added. }
  apply preserves_bind; [typeclasses eauto| |intros n].
  { intros w. apply same_actions_added.
    destruct (process_smart_deliverables_spec ai_agent created_actions action_plan
                incident 0%nat w) as (_ & _ & _ & H & _). exact H. }
  apply preserves_bind; [typeclasses eauto| |intro; apply preserves_ret; typeclasses eauto].
  intros w. now apply same_actions_added.
Qed.

(** With a client and data that counts as true, the incident is marked. *)
Lemma after_selection_marks (action_plan : ActionPlan) (incident : Incident)
  (client : Client) (w : World) :
  initialize_adaptive_ai_agent = Some client ->
  is_ok (llm_reply (llm_calls w)) = false ->
  find_incident (inc_id incident) (snd (after_selection action_plan incident w))
  = Some (with_status incident (lit "ACTIONS_GENERATED")).
Proof.
  intros Hinit Hfail. unfold after_selection. rewrite Hinit. unfold bind.
  destruct (generate_actions_spec client action_plan w)
    as (data & entries & Hr & _ & Hiter & _ & _ & Hfb).
  destruct (generate_actions_from_plan client action_plan w) as [[d|e] w1];
    cbn [fst snd] in *; [|discriminate Hr].
  injection Hr as ->. rewrite (Hfb Hfail) in *.
  destruct fallback_actions_entries as (_ & _ & _ & _ & ->). cbn [negb].
  destruct (create_action_records_spec action_plan get_fallback_actions entries w1 Hiter)
    as (created & Cr & _).
  destruct (create_action_records action_plan get_fallback_actions w1) as [[c|e] w2];
    cbn [fst snd] in *; [|discriminate Cr].
  destruct (process_smart_deliverables_spec client c action_plan incident 0%nat w2)
    as (Pr & _).
  destruct (process_smart_deliverables client c action_plan incident 0 w2)
    as [[n|e] w3]; cbn [fst snd] in *; [|discriminate Pr].
  unfold save_incident, set_incidents, ret, find_incident. cbn [snd incidents].
  apply (find_save_row inc_id (with_status incident (lit "ACTIONS_GENERATED"))).
Qed.

Lemma handle_owned (plan_id : Z) (w : World) (p : ActionPlan) (inc : Incident) :
  find_plan plan_id w = Some p -> find_incident (ap_incident p) w = Some inc ->
  added_actions (owned_by p) w (snd (handle plan_id w)).
Proof.
  intros Hp Hi. rewrite (handle_found plan_id w p inc Hp Hi).
  exact (after_selection_added (owned_by p) (mark_selected p) inc
           (fun a _ H => H) (snd (set_action_plans (select_rows p) w))).
Qed.

(** One run with an unreachable model and a database that accepts the
    rows: the four static actions are added, the plan stays in its table
    and the incident is found again. *)
Lemma handle_unreachable (plan_id : Z) (w : World) (p : ActionPlan) (inc : Incident)
  (client : Client) :
  find_plan plan_id w = Some p -> find_incident (ap_incident p) w = Some inc ->
  initialize_adaptive_ai_agent = Some client ->
  is_ok (llm_reply (llm_calls w)) = false ->
  (forall a, accepts_action a = true) ->
  exists created,
    actions (snd (handle plan_id w)) = actions w ++ created
    /\ map act_step created = [1; 2; 3; 4]
    /\ Forall (owned_by p) created
    /\ find_plan plan_id (snd (handle plan_id w)) = Some (mark_selected p)
    /\ find_incident (ap_incident p) (snd (handle plan_id w))
       = Some (with_status inc (lit "ACTIONS_GENERATED")).
Proof.
  intros Hp Hi Hclient Hfail Hall.
  destruct (handle_owned plan_id w p inc Hp Hi) as (news & Hnews & Hown).
  destruct (find_plan_some _ _ _ Hp) as [Hin Hid].
  rewrite (handle_found plan_id w p inc Hp Hi) in *.
  destruct (after_selection_spec (mark_selected p) inc client
              (snd (set_action_plans (select_rows p) w)) Hclient)
    as (_ & Hplans & created & Ha & _ & _ & _ & Hstatus & Hsteps).
  specialize (Hsteps Hall Hfail).
  assert (news = created) as ->.
  { cbn [snd set_action_plans actions] in Ha, Hnews. rewrite Ha in Hnews.
    now apply app_inv_head in Hnews. }
  exists created. repeat split; try assumption; try apply Hown.
  - unfold find_plan. rewrite Hplans. cbn [snd set_action_plans action_plans].
    rewrite <- Hid. now apply find_select_rows.
  - rewrite <- (find_incident_some _ _ _ Hi). apply Hstatus.
    intros ->. discriminate Hsteps.
Qed.

End Ownership.

(** X5. Every [Action] row the command adds is appended after the rows
    that were there, points to the selected plan and to that plan's
    incident, and is flagged for drafting; when the plan does not exist no
    row is added. *)
Theorem handle_actions_belong_to_plan (rt : Runtime) (ext : External)
  (plan_id : Z) (w : World) :
  exists news,
    actions (snd (handle plan_id w)) = actions w ++ news
    /\ Forall (fun a => exists p, find_plan plan_id w = Some p /\ ap_id p = plan_id
                                  /\ owned_by p a) news.
Proof.
  destruct (find_plan plan_id w) as [p|] eqn:Hp.
  - destruct (find_incident (ap_incident p) w) as [inc|] eqn:Hi.
    + destruct (handle_owned plan_id w p inc Hp Hi) as (news & Hnews & Hown).
      exists news. split; [exact Hnews|].
      eapply Forall_impl; [|exact Hown]. intros a Ha. exists p.
      repeat split; try apply Ha. now destruct (find_plan_some _ _ _ Hp).
    + rewrite (handle_no_incident plan_id w p Hp Hi). exists [].
      split; [now rewrite app_nil_r|constructor].
  - rewrite (handle_no_plan plan_id w Hp). exists [].
    split; [now rewrite app_nil_r|constructor].
Qed.

(** X6. The command does not check whether a plan already has actions:
    run twice on the same plan with an unreachable model and a database
    that accepts the rows, it stores the four static actions twice, with
    the steps 1 to 4 repeated, all of them attached to that plan. *)
Theorem handle_twice_stores_actions_twice (rt : Runtime) (ext : External)
  (plan_id : Z) (w : World) (p : ActionPlan) (inc : Incident) (client : Client) :
  find_plan plan_id w = Some p ->
  find_incident (ap_incident p) w = Some inc ->
  initialize_adaptive_ai_agent = Some client ->
  (forall n, is_ok (llm_reply n) = false) ->
  (forall a, accepts_action a = true) ->
  exists first second,
    actions (snd (handle plan_id (snd (handle plan_id w))))
    = actions w ++ first ++ second
    /\ map act_step first = [1; 2; 3; 4]
    /\ map act_step second = [1; 2; 3; 4]
    /\ Forall (owned_by p) (first ++ second).
Proof.
  intros Hp Hi Hclient Hfail Hall.
  destruct (handle_unreachable plan_id w p inc client Hp Hi Hclient (Hfail _) Hall)
    as (c1 & Ha1 & Hs1 & Ho1 & Hp1 & Hi1).
  destruct (handle_unreachable plan_id (snd (handle plan_id w)) (mark_selected p)
              (with_status inc (lit "ACTIONS_GENERATED")) client
              Hp1 Hi1 Hclient (Hfail _) Hall)
    as (c2 & Ha2 & Hs2 & Ho2 & _ & _).
  exists c1, c2. rewrite Ha2, Ha1, <- app_assoc. repeat split; try assumption.
  apply Forall_app. split; assumption.
Qed.

Lemma handle_twice_stores_actions_twice_witness :
  map act_step
    (actions (snd (@handle Ref.runtime UNREACHABLE 2
                     (snd (@handle Ref.runtime UNREACHABLE 2 DEMO_WORLD)))))
  = [1; 2; 3; 4; 1; 2; 3; 4].
Proof.
  destruct (handle_twice_stores_actions_twice Ref.runtime UNREACHABLE 2 DEMO_WORLD
              _ DEMO_INCIDENT OpenAIClient demo_plan_found demo_incident_found
              eq_refl (fun _ => eq_refl) (fun _ => eq_refl))
    as (c1 & c2 & Ha & H1 & H2 & _).
  rewrite Ha. cbn [DEMO_WORLD actions app]. now rewrite map_app, H1, H2.
Defined.

(** X7. The status of the incident follows the data, not the stored
    rows: with an unreachable model (so that the static actions are used)
    and a database that refuses every [Action] row, the command stores no
    action and still marks the incident ACTIONS_GENERATED. *)
Theorem status_does_not_wait_for_rows (rt : Runtime) (ext : External)
  (plan_id : Z) (w : World) (p : ActionPlan) (inc : Incident) (client : Client) :
  find_plan plan_id w = Some p ->
  find_incident (ap_incident p) w = Some inc ->
  initialize_adaptive_ai_agent = Some client ->
  is_ok (llm_reply (llm_calls w)) = false ->
  (forall a, accepts_action a = false) ->
  actions (snd (handle plan_id w)) = actions w
  /\ find_incident (ap_incident p) (snd (handle plan_id w))
     = Some (with_status inc (lit "ACTIONS_GENERATED")).
Proof.
  intros Hp Hi Hclient Hfail Hnone.
  rewrite (handle_found plan_id w p inc Hp Hi). split.
  - destruct (after_selection_added (fun _ => False) (mark_selected p) inc)
      with (w := snd (set_action_plans (select_rows p) w))
      as (news & Hnews & Hall).
    + intros a Ha. rewrite Hnone in Ha. discriminate Ha.
    + destruct news as [|a news]; [|now inversion Hall].
      now rewrite Hnews, app_nil_r.
  - rewrite <- (find_incident_some _ _ _ Hi).
    now apply (after_selection_marks (mark_selected p) inc client).
Qed.

Lemma status_does_not_wait_for_rows_witness :
  actions (snd (@handle Ref.runtime REFUSING 2 DEMO_WORLD)) = []
  /\ find_incident 1 (snd (@handle Ref.runtime REFUSING 2 DEMO_WORLD))
     = Some (with_status DEMO_INCIDENT (lit "ACTIONS_GENERATED")).
Proof.
  apply (status_does_not_wait_for_rows Ref.runtime REFUSING 2 DEMO_WORLD _
           DEMO_INCIDENT OpenAIClient demo_plan_found demo_incident_found eq_refl
           eq_refl (fun _ => eq_refl)).
Defined.

(* ================================================================== *)
(** * Further properties of the deliverables *)
(* ================================================================== *)

Lemma preserves_seq {A B} (R1 R2 R3 : World -> World -> Prop) (m : M A)
  (k : A -> M B) :
  (forall w w1, R1 w w1 -> R3 w w1) ->
  (forall w w1 w2, R1 w w1 -> R2 w1 w2 -> R3 w w2) ->
  preserves R1 m -> (forall a, preserves R2 (k a)) -> preserves R3 (bind m k).
Proof.
  intros Hsub Hcomp Hm Hk w. unfold bind. specialize (Hm w).
  destruct (m w) as [[a|e] w1]; cbn [snd] in *; [|now apply Hsub].
  eapply Hcomp; [exact Hm|apply Hk].
Qed.

Lemma same_tables_added_deliverables (P : list Deliverable -> Prop) (w w' : World) :
  P [] -> same_tables w w' -> added_deliverables P w w'.
Proof.
  intros HP (H1 & H2 & H3 & H4). repeat split; try assumption.
  exists []. split; [now rewrite app_nil_r|exact HP].
Qed.

Lemma same_then_added (P : list Deliverable -> Prop) (w w1 w2 : World) :
  same_tables w w1 -> added_deliverables P w1 w2 -> added_deliverables P w w2.
Proof.
  intros (H1 & H2 & H3 & H4) (K1 & K2 & K3 & news & K4 & HP).
  repeat split; try congruence. exists news. split; [congruence|exact HP].
Qed.

Lemma added_then_same (P : list Deliverable -> Prop) (w w1 w2 : World) :
  added_deliverables P w w1 -> same_tables w1 w2 -> added_deliverables P w w2.
Proof.
  intros (K1 & K2 & K3 & news & K4 & HP) (H1 & H2 & H3 & H4).
  repeat split; try congruence. exists news. split; [congruence|exact HP].
Qed.

Lemma for_action_nil (a : Action) : for_action a [].
Proof. split; [cbn [length]; lia|constructor]. Qed.

Lemma for_actions_step (a : Action) (rest : list Action) (n1 n2 : list Deliverable) :
  for_action a n1 -> for_actions rest n2 -> for_actions (a :: rest) (n1 ++ n2).
Proof.
  intros [Hlen Hall] [Hsub Hempty]. split.
  - destruct n1 as [|d [|d' n1]]; cbn [length] in Hlen; try lia; cbn [app map].
    + now apply sublist_cons.
    + inversion Hall as [|? ? [Hd _] _]; subst. rewrite Hd. now apply sublist_skip.
  - apply Forall_app. split; [|exact Hempty].
    eapply Forall_impl; [|exact Hall]. intros d [_ Hd]. exact Hd.
Qed.

Lemma expert_records_fields :
  Forall (fun r => exists role,
            getitem r (lit "expert_role") = Ok role
            /\ getitem r (lit "format") = Ok (VStr (lit "HTML"))
            /\ ((getitem r (lit "export_options") = Ok (VStr (lit "PDF,Email,Voice"))
                 /\ getitem r (lit "voice_eligible") = Ok (VBool true))
                \/ (getitem r (lit "export_options") = Ok (VStr (lit "PDF,Email"))
                    /\ getitem r (lit "voice_eligible") = Ok (VBool false))))
         EXPERT_RECORDS.
Proof.
  repeat constructor; eexists; (split; [vm_compute; reflexivity|]);
    (split; [vm_compute; reflexivity|]);
    first [ left; split; vm_compute; reflexivity
          | right; split; vm_compute; reflexivity ].
Qed.

Lemma bind_ok {A B} (m : M A) (k : A -> M B) (w : World) (a : A) (w1 : World) :
  m w = (Ok a, w1) -> bind m k w = k a w1.
Proof. intros H. unfold bind. now rewrite H. Qed.

Lemma bind_lift_ok {A B} (r : result A) (k : A -> M B) (w : World) (a : A) :
  r = Ok a -> bind (lift r) k w = k a w.
Proof. now intros ->. Qed.

Lemma bind_never_world {A B} (m : M A) (k : A -> M B) (w : World) :
  never_returns m -> snd (bind m k w) = snd (m w).
Proof.
  intros H. unfold bind. specialize (H w).
  destruct (m w) as [[a|e] w1]; [discriminate H|reflexivity].
Qed.

Section DeliverablesPerAction.
Context {rt : Runtime} {ext : External}.

Lemma determine_format_fallback_member (action : Action) :
  is_text (act_title action) = true ->
  text_or_falsy (act_description action) = true ->
  exists r, determine_format_fallback action = Ok r /\ In r EXPERT_RECORDS.
Proof.
  intros Htitle Hdesc. unfold determine_format_fallback.
  destruct (act_title action) as [| | | |t| |]; try discriminate Htitle.
  cbn [lower_method rbind].
  assert (exists dl, (if truthy (act_description action)
                      then lower_method (act_description action) else Ok [])
                     = Ok dl) as [dl ->].
  { destruct (truthy (act_description action)) eqn:Htruth; [|eauto].
    unfold text_or_falsy in Hdesc. rewrite Htruth, orb_false_r in Hdesc.
    destruct (act_description action); try discriminate Hdesc. simpl. eauto. }
  cbn [rbind].
  repeat match goal with
         | |- context [if any_word_in ?ws ?txt then _ else _] =>
             destruct (any_word_in ws txt)
         end;
    eexists; (split; [reflexivity|]);
    unfold EXPERT_RECORDS;
    repeat lazymatch goal with
           | |- In ?x (?x :: _) => left; exact eq_refl
           | |- In _ (_ :: _) => right
           end.
Qed.

Lemma create_deliverable_for_action (action : Action) (f e v : value) :
  preserves (added_deliverables (for_action action)) (create_deliverable action f e v).
Proof.
  intros w. unfold create_deliverable.
  destruct (accepts_deliverable _); cbn [snd].
  - repeat split. eexists [_]. split; [reflexivity|]. split; [cbn [length]; lia|].
    repeat constructor.
  - apply same_tables_added_deliverables; [apply for_action_nil|reflexivity].
Qed.

Ltac same_then_step a :=
  apply (preserves_seq same_tables (added_deliverables (for_action a))
           (added_deliverables (for_action a)));
  [ intros ? ?; apply same_tables_added_deliverables, for_action_nil
  | intros ? ? ?; apply same_then_added
  | try (apply preserves_lift; typeclasses eauto)
  | intro ].

Lemma process_one_for_action (ai_agent : Client) (action : Action)
  (action_plan : ActionPlan) (incident : Incident) :
  preserves (added_deliverables (for_action action))
    (process_one_deliverable ai_agent action action_plan incident).
Proof.
  assert (Hsame : forall A (m : M A), preserves same_tables m ->
                    preserves (added_deliverables (for_action action)) m).
  { intros A m. apply preserves_weaken. intros w w'.
    apply same_tables_added_deliverables, for_action_nil. }
  unfold process_one_deliverable.
  same_then_step action; [apply ai_decide_same_tables|].
  same_then_step action.
  destruct (truthy _).
  - same_then_step action; [apply ai_determine_same_tables|].
    do 4 same_then_step action.
    apply (preserves_seq (added_deliverables (for_action action)) same_tables
             (added_deliverables (for_action action)));
      [ now intros ? ? | intros ? ? ?; apply added_then_same
      | apply create_deliverable_for_action | intros deliverable ].
    apply preserves_bind_never;
      [ typeclasses eauto | apply generate_documentation_never_returns
      | apply generate_documentation_same_tables ].
  - apply Hsame. apply preserves_bind; [typeclasses eauto| |intro].
    + apply preserves_lift; typeclasses eauto.
    + apply preserves_ret; typeclasses eauto.
Qed.

Lemma process_smart_deliverables_for_actions (ai_agent : Client)
  (actions : list Action) (action_plan : ActionPlan) (incident : Incident) :
  forall n, preserves (added_deliverables (for_actions actions))
              (process_smart_deliverables ai_agent actions action_plan incident n).
Proof.
  induction actions as [|action rest IH]; intros n; cbn [process_smart_deliverables].
  - intros w. apply same_tables_added_deliverables; [|reflexivity].
    split; [constructor|constructor].
  - apply (preserves_seq (added_deliverables (for_action action))
             (added_deliverables (for_actions rest))
             (added_deliverables (for_actions (action :: rest)))).
    + intros w w1 (H1 & H2 & H3 & news & H4 & HP). repeat split; try assumption.
      exists news. split; [exact H4|]. rewrite <- (app_nil_r news).
      apply for_actions_step; [exact HP|]. split; [apply sublist_nil_l|constructor].
    + intros w w1 w2 (H1 & H2 & H3 & n1 & H4 & HP) (K1 & K2 & K3 & n2 & K4 & KP).
      repeat split; try congruence. exists (n1 ++ n2). split.
      * rewrite K4, H4. now rewrite app_assoc.
      * now apply for_actions_step.
    + intros w. unfold try_except.
      pose proof (process_one_for_action ai_agent action action_plan incident w) as H.
      destruct (process_one_deliverable _ _ _ _ w) as [[made|e] w1]; exact H.
    + intros made. apply IH.
Qed.

(** With an unreachable model the two decisions fall back. *)
Lemma ai_decide_unreachable (ai_agent : Client) (action : Action)
  (action_plan : ActionPlan) (w : World) :
  is_ok (llm_reply (llm_calls w)) = false ->
  ai_decide_documentation_need ai_agent action action_plan w
  = (Ok (VDict [(lit "create_deliverable", VBool true);
                (lit "reason", VStr (lit "Fallback - ensuring coverage"));
                (lit "importance_score", VInt 7)]),
     one_more_request w).
Proof.
  intros H. unfold ai_decide_documentation_need, try_except, bind, chat_completion.
  destruct (llm_reply (llm_calls w)); [discriminate H|reflexivity].
Qed.

Lemma ai_determine_unreachable (ai_agent : Client) (action : Action)
  (action_plan : ActionPlan) (w : World) :
  is_ok (llm_reply (llm_calls w)) = false ->
  ai_determine_deliverable_format ai_agent action action_plan w
  = (determine_format_fallback action, one_more_request w).
Proof.
  intros H. unfold ai_determine_deliverable_format, try_except, bind, chat_completion.
  destruct (llm_reply (llm_calls w)); [discriminate H|reflexivity].
Qed.

Lemma process_one_unreachable (ai_agent : Client) (action : Action)
  (action_plan : ActionPlan) (incident : Incident) (w : World) :
  (forall n, is_ok (llm_reply n) = false) ->
  (forall d, accepts_deliverable d = true) ->
  is_text (act_title action) = true ->
  text_or_falsy (act_description action) = true ->
  exists d,
    deliverables (snd (process_one_deliverable ai_agent action action_plan incident w))
    = deliverables w ++ [d]
    /\ dl_action d = act_id action /\ keyword_deliverable d.
Proof.
  intros Hfail Hall Htitle Hdesc.
  destruct (determine_format_fallback_member action Htitle Hdesc) as (r & Hr & Hin).
  pose proof expert_records_fields as Hfields. rewrite Forall_forall in Hfields.
  destruct (Hfields r Hin) as (role & Hrole & Hformat & Hexport).
  assert (exists exp voice,
            getitem r (lit "export_options") = Ok exp
            /\ getitem r (lit "voice_eligible") = Ok voice
            /\ ((exp = VStr (lit "PDF,Email,Voice") /\ voice = VBool true)
                \/ (exp = VStr (lit "PDF,Email") /\ voice = VBool false)))
    as (exp & voice & Hexp & Hvoice & Hpair).
  { destruct Hexport as [[H1 H2]|[H1 H2]]; eauto 10. }
  unfold process_one_deliverable.
  rewrite (bind_ok _ _ _ _ _ (ai_decide_unreachable ai_agent action action_plan w
                                (Hfail _))).
  rewrite (bind_lift_ok _ _ _ (VBool true) eq_refl). cbn [truthy].
  rewrite (bind_ok _ _ _ r _
             (eq_trans (ai_determine_unreachable ai_agent action action_plan _ (Hfail _))
                       (f_equal (fun x => (x, _)) Hr))).
  rewrite (bind_lift_ok _ _ _ _ Hrole), (bind_lift_ok _ _ _ _ Hformat),
    (bind_lift_ok _ _ _ _ Hexp), (bind_lift_ok _ _ _ _ Hvoice).
  unfold bind at 1. unfold create_deliverable at 1. rewrite Hall.
  rewrite bind_never_world by apply generate_documentation_never_returns.
  destruct (generate_documentation_same_tables ai_agent action action_plan incident r
              {| incidents := incidents (one_more_request (one_more_request w));
                 action_plans := action_plans (one_more_request (one_more_request w));
                 actions := actions (one_more_request (one_more_request w));
                 deliverables :=
                   deliverables (one_more_request (one_more_request w))
                   ++ [{| dl_id := next_id dl_id
                                     (deliverables (one_more_request (one_more_request w)));
                          dl_action := act_id action;
                          dl_deliverable_format := VStr (lit "HTML");
                          dl_content := [];
                          dl_export_options := exp;
                          dl_voice_eligible := voice |}];
                 llm_calls := llm_calls (one_more_request (one_more_request w)) |})
    as (_ & _ & _ & Hd).
  eexists. rewrite Hd. cbn [deliverables one_more_request].
  split; [reflexivity|]. repeat split. exact Hpair.
Qed.

Lemma process_smart_deliverables_unreachable (ai_agent : Client)
  (action_plan : ActionPlan) (incident : Incident) (actions : list Action) :
  (forall n, is_ok (llm_reply n) = false) ->
  (forall d, accepts_deliverable d = true) ->
  Forall (fun a => is_text (act_title a) = true
                   /\ text_or_falsy (act_description a) = true) actions ->
  forall (n : nat) (w : World),
  exists news,
    deliverables (snd (process_smart_deliverables ai_agent actions action_plan
                         incident n w))
    = deliverables w ++ news
    /\ map dl_action news = map act_id actions
    /\ Forall keyword_deliverable news.
Proof.
  intros Hfail Hall Htext. induction Htext as [|action rest [Ht Hd] _ IH]; intros n w.
  - exists []. split; [now rewrite app_nil_r|]. split; [reflexivity|constructor].
  - cbn [process_smart_deliverables]. unfold bind, try_except.
    destruct (process_one_unreachable ai_agent action action_plan incident w
                Hfail Hall Ht Hd) as (d & Hadd & Hact & Hkw).
    destruct (process_one_deliverable _ _ _ _ w) as [[made|e] w1]; cbn [snd ret] in *.
    + destruct (IH (n + made)%nat w1) as (news & Hn & Hm & Hk).
      exists (d :: news). rewrite Hn, Hadd, <- app_assoc. cbn [app map].
      split; [reflexivity|]. split; [congruence|]. now constructor.
    + destruct (IH (n + 0)%nat w1) as (news & Hn & Hm & Hk).
      exists (d :: news). rewrite Hn, Hadd, <- app_assoc. cbn [app map].
      split; [reflexivity|]. split; [congruence|]. now constructor.
Qed.

End DeliverablesPerAction.

(** X8. [process_smart_deliverables] only appends [Deliverable] rows: at
    most one for each action of its list, in the order of the list, each
    attached to its action and with empty content; incidents, plans and
    actions are untouched. *)
Theorem deliverables_follow_the_actions (rt : Runtime) (ext : External)
  (ai_agent : Client) (actions : list Action) (action_plan : ActionPlan)
  (incident : Incident) (n : nat) (w : World) :
  added_deliverables (for_actions actions) w
    (snd (process_smart_deliverables ai_agent actions action_plan incident n w)).
Proof. apply process_smart_deliverables_for_actions. Qed.

(** X9. With an unreachable model and a database that accepts the rows,
    every action whose title is text (and whose description is text or
    empty) gets exactly one deliverable, filled from the keyword table:
    format HTML, and either the export options [PDF,Email,Voice] with
    voice eligibility, or [PDF,Email] without. *)
Theorem unreachable_model_one_deliverable_each (rt : Runtime) (ext : External)
  (ai_agent : Client) (actions : list Action) (action_plan : ActionPlan)
  (incident : Incident) (w : World) :
  (forall n, is_ok (llm_reply n) = false) ->
  (forall d, accepts_deliverable d = true) ->
  Forall (fun a => is_text (act_title a) = true
                   /\ text_or_falsy (act_description a) = true) actions ->
  exists news,
    deliverables (snd (process_smart_deliverables ai_agent actions action_plan
                         incident 0 w))
    = deliverables w ++ news
    /\ map dl_action news = map act_id actions
    /\ Forall keyword_deliverable news.
Proof.
  intros Hfail Hall Htext.
  now apply process_smart_deliverables_unreachable.
Qed.

Lemma unreachable_model_one_deliverable_each_witness :
  exists news,
    deliverables (snd (@process_smart_deliverables Ref.runtime UNREACHABLE
                         OpenAIClient [DEMO_ACTION]
                         (demo_plan 2 "Comprehensive Security Investigation" true)
                         DEMO_INCIDENT 0 DEMO_WORLD))
    = deliverables DEMO_WORLD ++ news
    /\ map dl_action news = [1]
    /\ Forall keyword_deliverable news.
Proof.
  apply (unreachable_model_one_deliverable_each Ref.runtime UNREACHABLE OpenAIClient
           [DEMO_ACTION] _ DEMO_INCIDENT DEMO_WORLD).
  - intros n. reflexivity.
  - intros d. reflexivity.
  - repeat constructor.
Defined.

(* ================================================================== *)
(** * Requests to the model *)
(* ================================================================== *)

Section RequestCount.
Context {rt : Runtime} {ext : External}.

Lemma within_bind {A B} (a b : nat) (m : M A) (k : A -> M B) :
  preserves (calls_within a) m -> (forall x, preserves (calls_within b) (k x)) ->
  preserves (calls_within (a + b)) (bind m k).
Proof.
  apply preserves_seq; unfold calls_within; intros; lia.
Qed.

Lemma within_try {A} (a b : nat) (m : M A) (h : exn -> M A) :
  preserves (calls_within a) m -> (forall e, preserves (calls_within b) (h e)) ->
  preserves (calls_within (a + b)) (try_except m h).
Proof.
  intros Hm Hh w. unfold try_except. specialize (Hm w).
  destruct (m w) as [[x|e] w1]; cbn [snd] in *.
  - unfold calls_within in *. lia.
  - specialize (Hh e w1). unfold calls_within in *. lia.
Qed.

Lemma within_le {A} (a b : nat) (m : M A) :
  (a <= b)%nat -> preserves (calls_within a) m -> preserves (calls_within b) m.
Proof. intros Hle. apply preserves_weaken. unfold calls_within. intros; lia. Qed.

Lemma within_ret {A} (x : A) : preserves (calls_within 0) (ret x).
Proof. intros w. unfold calls_within. cbn. lia. Qed.

Lemma within_lift {A} (r : result A) : preserves (calls_within 0) (lift r).
Proof. intros w. unfold calls_within. cbn. lia. Qed.

Lemma within_same {A} (m : M A) :
  (forall w, llm_calls (snd (m w)) = llm_calls w) -> preserves (calls_within 0) m.
Proof. intros H w. unfold calls_within. rewrite H. lia. Qed.

Lemma within_chat (client : Client) : preserves (calls_within 1) (chat_completion client).
Proof. intros w. unfold calls_within. cbn. lia. Qed.

Ltac within_pure :=
  repeat first
    [ apply within_ret | apply within_lift
    | apply (within_bind 0 0); [|intro]
    | match goal with |- preserves _ (if ?c then _ else _) => destruct c end
    | match goal with |- preserves _ (match ?c with Some _ => _ | None => _ end) =>
        destruct c end ].

Lemma generate_actions_within (client : Client) (action_plan : ActionPlan) :
  preserves (calls_within 1) (generate_actions_from_plan client action_plan).
Proof.
  unfold generate_actions_from_plan.
  apply (within_try 1 0); [|intro; apply within_ret].
  apply (within_bind 1 0); [apply within_chat|intros content].
  apply (within_bind 0 0); [|intros found; within_pure].
  apply (within_try 0 0); [|intro; apply within_ret].
  within_pure.
Qed.

Lemma ai_decide_within (ai_agent : Client) (action : Action) (action_plan : ActionPlan) :
  preserves (calls_within 1) (ai_decide_documentation_need ai_agent action action_plan).
Proof.
  unfold ai_decide_documentation_need.
  apply (within_try 1 0); [|intro; apply within_ret].
  apply (within_bind 1 0); [apply within_chat|intro; apply within_lift].
Qed.

Lemma ai_determine_within (ai_agent : Client) (action : Action) (action_plan : ActionPlan) :
  preserves (calls_within 1) (ai_determine_deliverable_format ai_agent action action_plan).
Proof.
  unfold ai_determine_deliverable_format.
  apply (within_try 1 0); [|intro; apply within_lift].
  apply (within_bind 1 0); [apply within_chat|intro; apply within_lift].
Qed.

Lemma generate_documentation_within (client : Client) (action : Action)
  (action_plan : ActionPlan) (incident : Incident) (specs : value) :
  preserves (calls_within 1)
    (generate_adaptive_documentation_enhanced client action action_plan incident specs).
Proof.
  unfold generate_adaptive_documentation_enhanced.
  apply (within_try 1 0); [|intro; within_pure].
  unfold documentation_try.
  do 3 (apply (within_bind 0 1); [apply within_lift|intro]).
  apply (within_bind 1 0); [apply within_chat|intro].
  within_pure.
Qed.

Lemma create_deliverable_within (action : Action) (f e v : value) :
  preserves (calls_within 0) (create_deliverable action f e v).
Proof.
  apply within_same. intros w. unfold create_deliverable.
  now destruct (accepts_deliverable _).
Qed.

Lemma process_one_within (ai_agent : Client) (action : Action)
  (action_plan : ActionPlan) (incident : Incident) :
  preserves (calls_within 3)
    (process_one_deliverable ai_agent action action_plan incident).
Proof.
  unfold process_one_deliverable.
  apply (within_bind 1 2); [apply ai_decide_within|intro].
  apply (within_bind 0 2); [apply within_lift|intro].
  destruct (truthy _).
  - apply (within_bind 1 1); [apply ai_determine_within|intro].
    do 4 (apply (within_bind 0 1); [apply within_lift|intro]).
    apply (within_bind 0 1); [apply create_deliverable_within|intro].
    apply (within_bind 1 0); [apply generate_documentation_within|intro].
    apply (within_bind 0 0); [|intro; apply within_ret].
    now apply within_same.
  - apply (within_le 0 2); [lia|]. within_pure.
Qed.

Lemma process_smart_deliverables_within (ai_agent : Client) (actions : list Action)
  (action_plan : ActionPlan) (incident : Incident) :
  forall n, preserves (calls_within (length actions * 3))
              (process_smart_deliverables ai_agent actions action_plan incident n).
Proof.
  induction actions as [|action rest IH]; intros n; cbn [process_smart_deliverables].
  - apply within_ret.
  - apply (within_bind 3 (length rest * 3)); [|intro; apply IH].
    apply (within_try 3 0); [apply process_one_within|intro; apply within_ret].
Qed.

Lemma after_selection_within (action_plan : ActionPlan) (incident : Incident) :
  preserves (calls_within 19) (after_selection action_plan incident).
Proof.
  intros w. unfold after_selection.
  destruct initialize_adaptive_ai_agent as [client|];
    [|unfold calls_within; cbn; lia].
  unfold bind.
  pose proof (generate_actions_within client action_plan w) as Hcalls.
  destruct (generate_actions_spec client action_plan w)
    as (data & entries & Hr & _ & Hiter & Hlen & _).
  destruct (generate_actions_from_plan client action_plan w) as [[d|e] w1];
    cbn [fst snd] in *; [|discriminate Hr].
  injection Hr as ->.
  destruct (negb (truthy data)); [cbn; unfold calls_within in *; lia|].
  destruct (create_action_records_spec action_plan data entries w1 Hiter)
    as (created & Cr & _ & _ & _ & _ & Cl & Clen & _).
  destruct (create_action_records action_plan data w1) as [[c|e] w2];
    cbn [fst snd] in *; [|discriminate Cr].
  injection Cr as ->.
  pose proof (process_smart_deliverables_within client created action_plan incident
                0%nat w2) as Hp.
  destruct (process_smart_deliverables client created action_plan incident 0 w2)
    as [[n|e] w3]; cbn [fst snd] in *;
    unfold calls_within in *; cbn [save_incident set_incidents ret snd llm_calls]; lia.
Qed.

Lemma handle_within (plan_id : Z) (w : World) :
  calls_within 19 w (snd (handle plan_id w)).
Proof.
  destruct (find_plan plan_id w) as [p|] eqn:Hp.
  - destruct (find_incident (ap_incident p) w) as [inc|] eqn:Hi.
    + rewrite (handle_found plan_id w p inc Hp Hi).
      exact (after_selection_within (mark_selected p) inc
               (snd (set_action_plans (select_rows p) w))).
    + rewrite (handle_no_incident plan_id w p Hp Hi). unfold calls_within. cbn. lia.
  - rewrite (handle_no_plan plan_id w Hp). unfold calls_within. cbn. lia.
Qed.

End RequestCount.

(** X10. One selection operation, by the endpoint or by the command,
    makes at most 19 requests to the model: one for the actions and at most
    three for each of at most six actions. *)
Theorem selection_makes_at_most_19_requests (rt : Runtime) (ext : External)
  (op : selection) (w : World) :
  (llm_calls w <= llm_calls (run_selection op w) <= llm_calls w + 19)%nat.
Proof.
  change (calls_within 19 w (run_selection op w)).
  destruct op as [v|plan_id]; cbn [run_selection].
  - destruct (chosen_plan (ByEndpoint v)) as [plan_id|] eqn:Hop.
    + apply chosen_by_endpoint in Hop as [Ht Hkey].
      rewrite (select_action_plan_world v plan_id w Ht Hkey).
      destruct (find_plan plan_id w) as [p|]; [|unfold calls_within; lia].
      destruct (find_incident (ap_incident p) w) as [inc|]; [|unfold calls_within; lia].
      destruct (command_accepts v); [|unfold calls_within; cbn; lia].
      exact (handle_within plan_id (snd (set_action_plans (select_rows p) w))).
    + rewrite (select_action_plan_unchosen v w Hop). unfold calls_within. lia.
  - apply handle_within.
Qed.

(* ================================================================== *)
(** * Lengths of the generated texts *)
(* ================================================================== *)

Lemma fstring_static_length (ps : list piece) (s : pystr) :
  fstring ps = Ok s -> (static_length ps <= length s)%nat.
Proof.
  revert s. induction ps as [|[t|f] ps IH]; intros s; cbn [fstring static_length].
  - intros [= <-]. reflexivity.
  - destruct (fstring ps) as [rest|]; cbn [rbind]; [|discriminate].
    intros [= <-]. rewrite length_app. specialize (IH rest eq_refl). lia.
  - destruct f as [x|]; cbn [rbind]; [|discriminate].
    destruct (fstring ps) as [rest|]; cbn [rbind]; [|discriminate].
    intros [= <-]. rewrite length_app. specialize (IH rest eq_refl). lia.
Qed.

Ltac static_bound H n :=
  apply fstring_static_length in H;
  match type of H with
  | (static_length ?ps <= _)%nat =>
      let Hb := fresh "Hb" in
      assert (Hb : (n <=? Z.of_nat (static_length ps)) = true)
        by (vm_compute; reflexivity);
      apply Z.leb_le in Hb
  end.

(** X11. Whenever [enhance_documentation_content] returns, its text has
    at least 3000 characters, so a content it is appended to has at least
    the 2000 characters the caller asks for. *)
Theorem enhancement_reaches_the_threshold (rt : Runtime) (action : Action)
  (action_plan : ActionPlan) (specs expert_role : value) (extra : pystr) :
  enhance_documentation_content action action_plan specs expert_role = Ok extra ->
  (3000 <= length extra)%nat
  /\ forall ai_content enhanced,
       iadd_str ai_content extra = Ok enhanced ->
       exists n, py_len enhanced = Ok n /\ (2000 <= n)%nat.
Proof.
  intros H. unfold enhance_documentation_content in H. static_bound H 3000.
  split; [lia|]. intros ai_content enhanced Hadd.
  destruct (iadd_str_len _ _ _ Hadd) as (n & Hn & Hle). exists n.
  split; [exact Hn|lia].
Qed.

Lemma enhancement_reaches_the_threshold_witness :
  exists extra,
    @enhance_documentation_content Ref.runtime DEMO_ACTION
      (demo_plan 2 "Comprehensive Security Investigation" true)
      COMMUNICATIONS_EXPERT (VStr (lit "Communications Expert")) = Ok extra
    /\ (3000 <= length extra)%nat.
Proof.
  destruct (@enhance_documentation_content Ref.runtime DEMO_ACTION
              (demo_plan 2 "Comprehensive Security Investigation" true)
              COMMUNICATIONS_EXPERT (VStr (lit "Communications Expert")))
    as [extra|e] eqn:H; [|vm_compute in H; discriminate H].
  exists extra. split; [reflexivity|].
  exact (proj1 (enhancement_reaches_the_threshold Ref.runtime _ _ _ _ _ H)).
Defined.

(** X12. Whenever the module-level
    [generate_comprehensive_fallback_documentation] returns, its result
    has at least 7224 characters: the fixed text alone exceeds the minimum
    of 2500, and the branch that pads a shorter text is never taken. *)
Theorem fallback_documentation_is_long (rt : Runtime) (ext : External)
  (action : Action) (action_plan : ActionPlan) (incident : Incident)
  (specs : value) (content : pystr) :
  generate_comprehensive_fallback_documentation action action_plan incident specs
  = Ok content ->
  7224 <= Z.of_nat (length content).
Proof.
  unfold generate_comprehensive_fallback_documentation.
  match goal with
  | |- rbind (fstring ?ps) _ = _ -> _ => destruct (fstring ps) as [base|] eqn:Hbase
  end; cbn [rbind]; [|discriminate].
  static_bound Hbase 6979.
  match goal with
  | |- rbind (fstring (F (Ok base) :: ?rest)) _ = _ -> _ =>
      change (fstring (F (Ok base) :: rest))
        with (let! r := fstring rest in Ok (base ++ r));
      destruct (fstring rest) as [r|] eqn:Hrest
  end; cbn [rbind]; [|discriminate].
  static_bound Hrest 245.
  replace (length (base ++ r) <? 2500)%nat with false
    by (symmetry; apply Nat.ltb_ge; rewrite length_app; lia).
  cbn [rbind]. intros [= <-]. rewrite length_app. lia.
Qed.

Lemma fallback_documentation_is_long_witness :
  exists content,
    @generate_comprehensive_fallback_documentation Ref.runtime UNREACHABLE
      DEMO_ACTION (demo_plan 2 "Comprehensive Security Investigation" true)
      DEMO_INCIDENT COMMUNICATIONS_EXPERT = Ok content
    /\ 7224 <= Z.of_nat (length content).
Proof.
  destruct (@generate_comprehensive_fallback_documentation Ref.runtime UNREACHABLE
              DEMO_ACTION (demo_plan 2 "Comprehensive Security Investigation" true)
              DEMO_INCIDENT COMMUNICATIONS_EXPERT)
    as [content|e] eqn:H; [|vm_compute in H; discriminate H].
  exists content. split; [reflexivity|].
  exact (fallback_documentation_is_long Ref.runtime UNREACHABLE _ _ _ _ _ H).
Defined.

(* ================================================================== *)
(** * Properties of the plan-generation command *)
(* ================================================================== *)

Ltac valid_plan_tac :=
  eexists (Build_enhanced_plan _ _ _ _ _ _ _ _);
  split; [reflexivity|];
  split;
  [ split; [apply existsb_levels; vm_compute; reflexivity|];
    split; [apply existsb_levels; vm_compute; reflexivity|];
    cbn [estimated_hours]; lia
  | eexists; split; [reflexivity|]; apply Nat.leb_le; vm_compute; reflexivity ].

Lemma security_plans_valid :
  exists plans, SECURITY_PLANS = VList plans /\ length plans = 3%nat
                /\ Forall valid_plan plans.
Proof.
  eexists. split; [reflexivity|]. split; [reflexivity|].
  repeat constructor; valid_plan_tac.
Qed.

Lemma data_breach_plans_valid :
  exists plans, DATA_BREACH_PLANS = VList plans /\ length plans = 3%nat
                /\ Forall valid_plan plans.
Proof.
  eexists. split; [reflexivity|]. split; [reflexivity|].
  repeat constructor; valid_plan_tac.
Qed.

Lemma system_failure_plans_valid :
  exists plans, SYSTEM_FAILURE_PLANS = VList plans /\ length plans = 3%nat
                /\ Forall valid_plan plans.
Proof.
  eexists. split; [reflexivity|]. split; [reflexivity|].
  repeat constructor; valid_plan_tac.
Qed.

Lemma generic_plans_valid :
  exists plans, GENERIC_PLANS = VList plans /\ length plans = 4%nat
                /\ Forall valid_plan plans.
Proof.
  eexists. split; [reflexivity|]. split; [reflexivity|].
  repeat constructor; valid_plan_tac.
Qed.

Lemma fallback_plans_valid (incident_type : pystr) :
  exists plans, get_enhanced_fallback_plans incident_type = VList plans
                /\ length plans = 3%nat /\ Forall valid_plan plans.
Proof.
  unfold get_enhanced_fallback_plans, dict_get, base_plans. cbn [dict_lookup].
  destruct (str_eqb (lit "security") incident_type);
    [exact security_plans_valid|].
  destruct (str_eqb (lit "data-breach") incident_type);
    [exact data_breach_plans_valid|].
  destruct (str_eqb (lit "system-failure") incident_type);
    [exact system_failure_plans_valid|exact security_plans_valid].
Qed.

Lemma valid_plan_in_range (plans : list value) :
  Forall valid_plan plans ->
  Forall (fun v => exists p, v = plan_dict p /\ in_range p) plans.
Proof.
  apply Forall_impl. intros v (p & Hv & Hr & _). now exists p.
Qed.

(** X13. For every incident type [get_enhanced_fallback_plans] returns
    three plans that already satisfy what the validator enforces: their
    levels are in the enumeration, their hours in [1,8], and the validator
    returns them unchanged (the case mapping of the runtime being the ASCII
    one on ASCII text). The command uses them without validating them. *)
Theorem fallback_plans_pass_validation (rt : Runtime) (incident_type : pystr) :
  ascii_case_mapping rt ->
  exists plans,
    get_enhanced_fallback_plans incident_type = VList plans
    /\ length plans = 3%nat
    /\ Forall (fun v => exists p, v = plan_dict p /\ in_range p) plans
    /\ validate_and_enhance_plans plans incident_type = Ok plans.
Proof.
  intros Hcase.
  destruct (fallback_plans_valid incident_type) as (plans & Heq & Hlen & Hvalid).
  exists plans. split; [exact Heq|]. split; [exact Hlen|].
  split; [now apply valid_plan_in_range|].
  unfold validate_and_enhance_plans.
  exact (validate_loop_fixed Hcase plans [] Hvalid).
Qed.

Lemma fallback_plans_pass_validation_witness :
  exists plans,
    get_enhanced_fallback_plans (lit "data-breach") = VList plans
    /\ length plans = 3%nat
    /\ @validate_and_enhance_plans Ref.runtime plans (lit "data-breach") = Ok plans.
Proof.
  destruct (fallback_plans_pass_validation Ref.runtime (lit "data-breach")
              ref_ascii_case) as (plans & H1 & H2 & _ & H3).
  exists plans. repeat split; assumption.
Defined.

Ltac fall_back H :=
  cbv beta iota; cbn [fst snd ret];
  apply H;
  [ first [ reflexivity
          | match goal with Hs : same_tables _ (one_more_request _) |- _ => exact Hs end ]
  | first [ assumption
          | match goal with
            | Hc : calls_within _ _ (one_more_request _) |- _ => exact Hc
            end ] ].

Section PlanGeneratorFacts.
Context {rt : Runtime} {ext : External} {st : Settings}.

(** Two to four plans, each as the validator leaves it. *)
Lemma sliced_plans (all plans : value) (n : nat) (entries : list value) :
  py_len all = Ok n -> (2 <= n)%nat -> slice_to 4 all = Ok plans ->
  py_iter plans = Ok entries -> (2 <= length entries <= 4)%nat.
Proof.
  destruct all as [| | | |s|l|d]; cbn [py_len slice_to]; try discriminate;
    intros [= <-] Hn [= <-]; cbn [py_iter]; intros [= <-].
  - rewrite length_map, length_take. lia.
  - rewrite length_take. lia.
Qed.

Lemma generate_multiple_action_plans_run (client : option Client)
  (incident : Incident) (incident_type : pystr) (w : World) :
  exists plans w',
    generate_multiple_action_plans client incident incident_type w
    = (Ok (VList plans), w')
    /\ (2 <= length plans <= 4)%nat
    /\ Forall (fun v => exists p, v = plan_dict p /\ in_range p) plans
    /\ same_tables w w' /\ calls_within 1 w w'.
Proof.
  destruct (fallback_plans_valid incident_type) as (fb & Hfb & Hfblen & Hfbvalid).
  apply valid_plan_in_range in Hfbvalid.
  assert (Hfallback : forall w',
    same_tables w w' -> calls_within 1 w w' ->
    exists plans w'',
      (Ok (get_enhanced_fallback_plans incident_type), w') = (Ok (VList plans), w'')
      /\ (2 <= length plans <= 4)%nat
      /\ Forall (fun v => exists p, v = plan_dict p /\ in_range p) plans
      /\ same_tables w w'' /\ calls_within 1 w w'').
  { intros w' Hs Hc. exists fb, w'. rewrite Hfb, Hfblen.
    repeat split; try assumption; try apply Hs; try apply Hc; lia. }
  assert (Hhere : calls_within 1 w w) by (unfold calls_within; lia).
  assert (Hnext : calls_within 1 w (one_more_request w))
    by (unfold calls_within; cbn; lia).
  assert (Hsame : same_tables w (one_more_request w)) by (repeat split).
  unfold generate_multiple_action_plans, try_except.
  destruct client as [client|]; [|fall_back Hfallback].
  unfold bind at 1, lift at 1.
  destruct (py_int _) as [max_tokens|]; [|fall_back Hfallback].
  unfold bind at 1, lift at 1.
  destruct (py_float _) as [temperature|]; [|fall_back Hfallback].
  unfold bind at 1, chat_completion.
  destruct (llm_reply (llm_calls w)) as [content|]; [|fall_back Hfallback].
  unfold bind at 1, lift at 1.
  destruct (safe_json_parse_content content) as [parsed|]; [|fall_back Hfallback].
  unfold bind at 1, lift at 1.
  destruct (contains _ parsed) as [has|]; [|fall_back Hfallback].
  destruct has.
  2:{ unfold bind, ret. fall_back Hfallback. }
  unfold bind at 1. unfold bind at 1, lift at 1.
  destruct (getitem parsed _) as [all|]; [|fall_back Hfallback].
  unfold bind at 1, lift at 1.
  destruct (py_len all) as [n|] eqn:Hn; [|fall_back Hfallback].
  cbn [ret]. destruct (2 <=? n)%nat eqn:Hge; [|fall_back Hfallback].
  apply Nat.leb_le in Hge.
  unfold bind at 1, lift at 1.
  unfold bind at 1, lift at 1.
  destruct (slice_to 4 all) as [plans|] eqn:Hslice; [|fall_back Hfallback].
  unfold bind at 1, lift at 1.
  destruct (py_len plans) as [m|]; [|fall_back Hfallback].
  unfold bind at 1, lift at 1.
  destruct (py_iter plans) as [entries|] eqn:Hiter; [|fall_back Hfallback].
  unfold bind at 1, lift at 1.
  destruct (validate_and_enhance_plans entries incident_type) as [validated|] eqn:Hv;
    [|fall_back Hfallback].
  cbn [ret]. exists validated. eexists. split; [reflexivity|].
  unfold validate_and_enhance_plans in Hv.
  destruct (validate_loop_ok entries [] validated Hv) as (news & Hnews & Hlen & Hall).
  cbn [app] in Hnews. subst news.
  pose proof (sliced_plans all plans n entries Hn Hge Hslice Hiter).
  split; [lia|]. split; [|split; [exact Hsame|exact Hnext]].
  eapply Forall_impl; [|exact Hall]. intros v (p & Hp & Hr & _). now exists p.
Qed.

Lemma generate_multiple_action_plans_spec (client : option Client)
  (incident : Incident) (incident_type : pystr) (w : World) :
  exists plans,
    fst (generate_multiple_action_plans client incident incident_type w)
    = Ok (VList plans)
    /\ (2 <= length plans <= 4)%nat
    /\ Forall (fun v => exists p, v = plan_dict p /\ in_range p) plans
    /\ same_tables w (snd (generate_multiple_action_plans client incident
                             incident_type w))
    /\ calls_within 1 w (snd (generate_multiple_action_plans client incident
                                incident_type w)).
Proof.
  destruct (generate_multiple_action_plans_run client incident incident_type w)
    as (plans & w' & -> & H). now exists plans.
Qed.

(** When the parser falls back, the generator validates and returns the
    generic plans of the parser. *)
Lemma generate_from_generic_payload (client : Client) (incident : Incident)
  (incident_type s : pystr) (w : World) :
  ascii_case_mapping rt ->
  is_ok (py_int (VStr (default (lit "1000") MAX_TOKENS))) = true ->
  is_ok (py_float (default (lit "0.7") TEMPERATURE)) = true ->
  llm_reply (llm_calls w) = Ok (VStr s) ->
  safe_json_parse s = Ok FALLBACK_PAYLOAD ->
  fst (generate_multiple_action_plans (Some client) incident incident_type w)
  = Ok GENERIC_PLANS.
Proof.
  intros Hcase Hint Hfloat Hreply Hparse.
  destruct generic_plans_valid as (plans & Hplans & Hlen & Hvalid).
  unfold generate_multiple_action_plans, try_except.
  unfold bind at 1, lift at 1.
  destruct (py_int _) as [max_tokens|]; [|discriminate Hint].
  unfold bind at 1, lift at 1.
  destruct (py_float _) as [temperature|]; [|discriminate Hfloat].
  unfold bind at 1, chat_completion. rewrite Hreply.
  unfold bind at 1, lift at 1. cbn [safe_json_parse_content]. rewrite Hparse.
  unfold bind at 1, lift at 1.
  replace (contains (lit "action_plans") FALLBACK_PAYLOAD) with (Ok true)
    by (vm_compute; reflexivity).
  unfold bind at 1. unfold bind at 1, lift at 1.
  replace (getitem FALLBACK_PAYLOAD (lit "action_plans")) with (Ok GENERIC_PLANS)
    by (vm_compute; reflexivity).
  rewrite Hplans.
  unfold bind at 1, lift at 1. cbn [py_len ret]. rewrite Hlen. cbn [Nat.leb].
  unfold bind at 1, lift at 1.
  unfold bind at 1, lift at 1. cbn [slice_to].
  replace (take 4 plans) with plans
    by (symmetry; apply take_ge; rewrite Hlen; lia).
  unfold bind at 1, lift at 1. cbn [py_len].
  unfold bind at 1, lift at 1. cbn [py_iter].
  unfold bind at 1, lift at 1. unfold validate_and_enhance_plans.
  rewrite (validate_loop_fixed Hcase plans [] Hvalid). reflexivity.
Qed.

End PlanGeneratorFacts.

(** X14. [generate_multiple_action_plans] never raises and always
    returns between two and four plan records with levels in the
    enumeration and hours in [1,8], whatever the client, the settings and
    the reply of the model; it leaves the tables untouched and makes at
    most one request. *)
Theorem generated_plans_are_always_valid (rt : Runtime) (ext : External)
  (st : Settings) (client : option Client) (incident : Incident)
  (incident_type : pystr) (w : World) :
  exists plans,
    fst (generate_multiple_action_plans client incident incident_type w)
    = Ok (VList plans)
    /\ (2 <= length plans <= 4)%nat
    /\ Forall (fun v => exists p, v = plan_dict p
                          /\ In (risk_level p) LEVELS
                          /\ In (confidence_score p) LEVELS
                          /\ 1 <= estimated_hours p <= 8) plans
    /\ same_tables w (snd (generate_multiple_action_plans client incident
                             incident_type w))
    /\ (llm_calls (snd (generate_multiple_action_plans client incident
                          incident_type w)) <= llm_calls w + 1)%nat.
Proof.
  destruct (generate_multiple_action_plans_spec client incident incident_type w)
    as (plans & Hr & Hlen & Hall & Hs & Hc).
  exists plans. repeat split; try assumption; try apply Hlen; try apply Hs.
  apply Hc.
Qed.

(** X15. When the reply is text on which [safe_json_parse] falls back,
    the generator returns the four generic plans of the parser's payload,
    validated, and not the plans written for the incident type: those are
    used only without a client, on an exception, or when the decoded reply
    has fewer than two plans. *)
Theorem undecodable_reply_gets_the_generic_plans (rt : Runtime) (ext : External)
  (st : Settings) (client : Client) (incident : Incident)
  (incident_type s : pystr) (w : World) :
  ascii_case_mapping rt ->
  is_ok (py_int (VStr (default (lit "1000") MAX_TOKENS))) = true ->
  is_ok (py_float (default (lit "0.7") TEMPERATURE)) = true ->
  llm_reply (llm_calls w) = Ok (VStr s) ->
  safe_json_parse s = Ok FALLBACK_PAYLOAD ->
  fst (generate_multiple_action_plans (Some client) incident incident_type w)
  = Ok GENERIC_PLANS
  /\ GENERIC_PLANS <> get_enhanced_fallback_plans incident_type.
Proof.
  intros Hcase Hint Hfloat Hreply Hparse.
  split; [now apply (generate_from_generic_payload client incident incident_type s)|].
  destruct generic_plans_valid as (g & Hg & Hglen & _).
  destruct (fallback_plans_valid incident_type) as (f & Hf & Hflen & _).
  rewrite Hg, Hf. intros [= Heq]. rewrite Heq, Hflen in Hglen. discriminate.
Qed.

Lemma undecodable_reply_gets_the_generic_plans_witness :
  fst (@generate_multiple_action_plans Ref.runtime TRUNCATING DEMO_SETTINGS
         (Some OpenAIClient) DEMO_INCIDENT (lit "data-breach") DEMO_WORLD)
  = Ok GENERIC_PLANS.
Proof.
  refine (proj1 (undecodable_reply_gets_the_generic_plans Ref.runtime TRUNCATING
                   DEMO_SETTINGS OpenAIClient DEMO_INCIDENT (lit "data-breach")
                   TRUNCATED_REPLY DEMO_WORLD ref_ascii_case _ _ _ _));
    vm_compute; reflexivity.
Defined.

Lemma next_id_fresh {A} (pk : A -> Z) (rows : list A) (r : A) :
  In r rows -> pk r < next_id pk rows.
Proof.
  unfold next_id. induction rows as [|x rows IH]; intros Hin; [destruct Hin|].
  cbn [map fold_right]. destruct Hin as [->|Hin]; [lia|].
  specialize (IH Hin). lia.
Qed.

Lemma save_row_appended {A} (pk : A -> Z) (rows : list A) (obj obj' : A) :
  pk obj = next_id pk rows -> pk obj' = pk obj ->
  save_row pk obj' (rows ++ [obj]) = rows ++ [obj'].
Proof.
  intros Hid Heq. unfold save_row.
  assert (Hrows : forall r, In r rows -> (pk r =? pk obj') = false).
  { intros r Hin. apply Z.eqb_neq. pose proof (next_id_fresh pk rows r Hin). lia. }
  assert (Hlast : (pk obj =? pk obj') = true) by (apply Z.eqb_eq; congruence).
  rewrite existsb_app. cbn [existsb]. rewrite Hlast. cbn [orb]. rewrite orb_true_r.
  rewrite map_app. cbn [map]. rewrite Hlast. f_equal.
  rewrite <- (map_id rows) at 2. apply map_ext_in. intros r Hin.
  now rewrite (Hrows r Hin).
Qed.

Lemma add_plans_nil (w : World) : add_plans w [] = w.
Proof. destruct w. unfold add_plans. cbn. now rewrite app_nil_r. Qed.

Lemma add_plans_app (w : World) (a b : list ActionPlan) :
  add_plans (add_plans w a) b = add_plans w (a ++ b).
Proof. unfold add_plans. cbn. now rewrite app_assoc. Qed.

Lemma unique_plan_ids_fresh (w : World) (row : ActionPlan) :
  ap_id row = next_id ap_id (action_plans w) ->
  unique_plan_ids w -> unique_plan_ids (add_plans w [row]).
Proof.
  unfold unique_plan_ids. cbn [add_plans action_plans]. intros Hid Hnd.
  rewrite map_app. cbn [map]. apply List.NoDup_app; [exact Hnd| |].
  - repeat constructor. intros [].
  - intros x Hin [<-|[]]. apply in_map_iff in Hin as (r & Hr & Hin).
    pose proof (next_id_fresh ap_id _ r Hin). lia.
Qed.

Section PlanRecords.
Context {rt : Runtime} {ext : External} {st : Settings}.

Lemma create_action_plan_spec (incident : Incident) (n s t r c h q u : value)
  (w : World) :
  (exists e, create_action_plan incident n s t r c h q u w = (Raise e, w))
  \/ exists obj row,
       create_action_plan incident n s t r c h q u w = (Ok obj, add_plans w [row])
       /\ fresh_plan (inc_id incident) row
       /\ ap_id row = next_id ap_id (action_plans w).
Proof.
  unfold create_action_plan.
  destruct (stored_text n) as [n'|]; cbn [mbind option_bind]; [|eauto].
  destruct (stored_text s) as [s'|]; cbn [mbind option_bind]; [|eauto].
  destruct (stored_text t) as [t'|]; cbn [mbind option_bind]; [|eauto].
  destruct (stored_text r) as [r'|]; cbn [mbind option_bind]; [|eauto].
  destruct (stored_text c) as [c'|]; cbn [mbind option_bind]; [|eauto].
  destruct (stored_integer h) as [h'|]; cbn [mbind option_bind]; [|eauto].
  destruct (stored_text q) as [q'|]; cbn [mbind option_bind]; [|eauto].
  destruct (stored_text u) as [u'|]; cbn [mbind option_bind]; [|eauto].
  destruct (accepts_action_plan _); [|eauto].
  right. eexists _, _. split; [reflexivity|]. repeat split.
Qed.

Lemma create_plan_loop_spec (incident : Incident) (entries : list value) :
  forall (i : Z) (created : list PlanObject) (w : World),
  exists objs news,
    create_plan_loop incident entries i created w
    = (Ok (created ++ objs), add_plans w news)
    /\ length objs = length news
    /\ (length news <= length entries)%nat
    /\ Forall (fresh_plan (inc_id incident)) news
    /\ (unique_plan_ids w -> unique_plan_ids (add_plans w news)).
Proof.
  induction entries as [|plan_data rest IH]; intros i created w.
  - exists [], []. cbn [create_plan_loop ret]. rewrite app_nil_r, add_plans_nil.
    repeat split; try constructor; trivial.
  - cbn [create_plan_loop].
    assert (Hturn : exists objs news,
      try_except
        (do! d := lift (get_method plan_data) in
         do! action_plan := create_action_plan incident
           (dict_get d (lit "plan_name") (VStr (lit "Strategic Plan " ++ decimal i)))
           (dict_get d (lit "strategy") (VStr (lit "Comprehensive incident response approach")))
           (dict_get d (lit "timeline") (VStr (lit "2-4 hours")))
           (dict_get d (lit "risk_level") (VStr (lit "MEDIUM")))
           (dict_get d (lit "confidence_score") (VStr (lit "MEDIUM")))
           (dict_get d (lit "estimated_hours") (VInt 3))
           (dict_get d (lit "resource_requirements") (VStr (lit "Security Team")))
           (dict_get d (lit "success_criteria") (VStr (lit "Incident resolved successfully"))) in
         ret (created ++ [action_plan]))
        (fun _ => ret created) w
      = (Ok (created ++ objs), add_plans w news)
      /\ length objs = length news /\ (length news <= 1)%nat
      /\ Forall (fresh_plan (inc_id incident)) news
      /\ (unique_plan_ids w -> unique_plan_ids (add_plans w news))).
    { unfold try_except, bind at 1, lift.
      destruct (get_method plan_data) as [d|].
      2:{ exists [], []. cbn [ret]. rewrite app_nil_r, add_plans_nil.
          repeat split; try constructor; trivial. }
      unfold bind.
      destruct (create_action_plan_spec incident
                  (dict_get d (lit "plan_name") (VStr (lit "Strategic Plan " ++ decimal i)))
                  (dict_get d (lit "strategy") (VStr (lit "Comprehensive incident response approach")))
                  (dict_get d (lit "timeline") (VStr (lit "2-4 hours")))
                  (dict_get d (lit "risk_level") (VStr (lit "MEDIUM")))
                  (dict_get d (lit "confidence_score") (VStr (lit "MEDIUM")))
                  (dict_get d (lit "estimated_hours") (VInt 3))
                  (dict_get d (lit "resource_requirements") (VStr (lit "Security Team")))
                  (dict_get d (lit "success_criteria") (VStr (lit "Incident resolved successfully")))
                  w) as [[e ->]|(obj & row & -> & Hfresh & Hid)].
      - exists [], []. cbn [ret]. rewrite app_nil_r, add_plans_nil.
        repeat split; try constructor; trivial.
      - exists [obj], [row]. cbn [ret]. repeat split; try (cbn [length]; lia).
        + now constructor.
        + now apply unique_plan_ids_fresh. }
    destruct Hturn as (o1 & n1 & Hrun & Hlen1 & Hle1 & Hf1 & Hu1).
    rewrite (bind_ok _ _ _ _ _ Hrun).
    destruct (IH (i + 1) (created ++ o1) (add_plans w n1))
      as (o2 & n2 & Hrun2 & Hlen2 & Hle2 & Hf2 & Hu2).
    exists (o1 ++ o2), (n1 ++ n2). rewrite Hrun2, add_plans_app, <- app_assoc.
    split; [reflexivity|]. rewrite !length_app. cbn [length].
    split; [lia|]. split; [lia|]. split; [now apply Forall_app|].
    intros Hu. rewrite <- add_plans_app. auto.
Qed.

Lemma create_action_plan_records_spec (incident : Incident) (plans : list value)
  (w : World) :
  exists objs news,
    create_action_plan_records incident (VList plans) w
    = (Ok objs, add_plans w news)
    /\ length objs = length news
    /\ (length news <= length plans)%nat
    /\ Forall (fresh_plan (inc_id incident)) news
    /\ (unique_plan_ids w -> unique_plan_ids (add_plans w news)).
Proof.
  unfold create_action_plan_records, bind, lift. cbn [py_len py_iter].
  destruct (create_plan_loop_spec incident plans 1 [] w)
    as (objs & news & Hrun & H). exists objs, news. now rewrite Hrun.
Qed.

Lemma create_unique_incident_spec (incident_type : pystr) (w : World) :
  create_unique_incident incident_type w = (Ok None, w)
  \/ exists inc,
       create_unique_incident incident_type w = (Ok (Some inc), add_incident w inc)
       /\ inc_id inc = next_id inc_id (incidents w)
       /\ inc_status inc = lit "PLAN_GENERATION".
Proof.
  unfold create_unique_incident, try_except, bind, create_incident.
  destruct (accepts_incident _); [|now left].
  right. eexists. cbn [lift slice_to inc_description ret].
  split; [reflexivity|]. split; reflexivity.
Qed.

Lemma handle_run (incident_type : pystr) (w : World) :
  exists r w',
    AutoCreate.handle incident_type w = (r, w')
    /\ plans_generated w w'
    /\ (unique_plan_ids w -> unique_plan_ids w')
    /\ (is_ok r = false -> stored_and_awaiting w w').
Proof.
  unfold AutoCreate.handle. unfold bind at 1.
  destruct (create_unique_incident_spec incident_type w)
    as [->|(inc & -> & Hid & Hstatus)].
  { cbn [ret]. eexists _, _. split; [reflexivity|].
    split; [|split; [trivial|discriminate]]. repeat split. now left. }
  unfold bind at 1.
  destruct (generate_multiple_action_plans_run initialize_ai_client inc incident_type
              (add_incident w inc))
    as (plans & w1 & -> & Hlen & _ & (Si & Sp & Sa & Sd) & _).
  replace (truthy (VList plans)) with true
    by (destruct plans; [cbn [length] in Hlen; lia|reflexivity]).
  cbn [negb]. unfold bind at 1.
  destruct (create_action_plan_records_spec inc plans w1)
    as (objs & news & -> & Hol & Hnl & Hfresh & Huniq).
  cbn [add_incident incidents action_plans actions deliverables] in *.
  assert (Hu : forall w2, action_plans w2 = action_plans (add_plans w1 news) ->
                 unique_plan_ids w -> unique_plan_ids w2).
  { intros w2 H2 Hw. unfold unique_plan_ids. rewrite H2. apply Huniq.
    unfold unique_plan_ids. now rewrite Sp. }
  destruct objs as [|obj objs].
  - destruct news; [|discriminate Hol]. cbn [ret].
    eexists _, _. split; [reflexivity|].
    split; [|split; [now apply Hu|discriminate]].
    split; [exact Sa|]. split; [exact Sd|]. right. exists inc, [].
    cbn [add_plans incidents action_plans]. rewrite app_nil_r.
    split; [exact Si|]. split; [exact Hid|]. split; [now rewrite app_nil_r|].
    split; [cbn [length]; lia|]. split; [constructor|exact Hstatus].
  - destruct news as [|p news]; [discriminate Hol|].
    unfold bind at 1, save_incident, set_incidents.
    set (w2 := {| incidents := _ |}).
    assert (Hrow : incidents w2
                   = incidents w ++ [with_status inc (lit "AWAITING_PLAN_SELECTION")]).
    { subst w2. cbn [incidents action_plans add_plans with_status inc_id inc_status].
      rewrite Si. now apply save_row_appended. }
    assert (Hw2 : plans_generated w w2
                  /\ (unique_plan_ids w -> unique_plan_ids w2)
                  /\ stored_and_awaiting w w2).
    { split; [|split; [now apply Hu|]].
      - split; [exact Sa|]. split; [exact Sd|]. right.
        exists (with_status inc (lit "AWAITING_PLAN_SELECTION")), (p :: news).
        split; [exact Hrow|]. subst w2.
        cbn [incidents action_plans add_plans with_status inc_id inc_status].
        split; [exact Hid|]. split; [now rewrite Sp|]. split; [lia|].
        split; [exact Hfresh|reflexivity].
      - exists (with_status inc (lit "AWAITING_PLAN_SELECTION")), p, news.
        split; [exact Hrow|]. subst w2.
        cbn [incidents action_plans add_plans with_status inc_id inc_status].
        split; [reflexivity|]. split; [now rewrite Sp|exact Hfresh]. }
    destruct Hw2 as (Hg2 & Hu2 & Hs2).
    unfold bind, lift, ret.
    destruct (display_completion_summary _ _); [|eauto 10].
    destruct (display_plan_selection_instructions _); eauto 10.
Qed.

Lemma handle_plans_generated (incident_type : pystr) (w : World) :
  plans_generated w (snd (AutoCreate.handle incident_type w))
  /\ (unique_plan_ids w -> unique_plan_ids (snd (AutoCreate.handle incident_type w))).
Proof.
  destruct (handle_run incident_type w) as (r & w' & -> & Hg & Hu & _).
  now split.
Qed.

Lemma handle_fails_late (incident_type : pystr) (w : World) :
  is_ok (fst (AutoCreate.handle incident_type w)) = false ->
  stored_and_awaiting w (snd (AutoCreate.handle incident_type w)).
Proof.
  destruct (handle_run incident_type w) as (r & w' & -> & _ & _ & H). exact H.
Qed.

End PlanRecords.

Lemma selected_plans_app (incident_id : Z) (w w' : World) (news : list ActionPlan) :
  action_plans w' = action_plans w ++ news ->
  Forall (fun p => ap_is_selected p = false) news ->
  selected_plans incident_id w' = selected_plans incident_id w.
Proof.
  intros Hp Hnews. unfold selected_plans. rewrite Hp, List.filter_app.
  clear Hp.
  assert (Hnone : List.filter (fun p => (ap_incident p =? incident_id) && ap_is_selected p)
                    news = []).
  { induction Hnews as [|p news Hp' _ IH]; [reflexivity|].
    cbn [List.filter]. rewrite Hp', andb_false_r. exact IH. }
  rewrite Hnone. apply app_nil_r.
Qed.

Lemma no_plans_of_next_incident (w : World) :
  plans_have_incidents w ->
  selected_plans (next_id inc_id (incidents w)) w = [].
Proof.
  unfold plans_have_incidents, selected_plans. intros H.
  induction H as [|p rows (i & Hin & Hid) _ IH]; [reflexivity|].
  cbn [List.filter]. replace (ap_incident p =? _) with false; [exact IH|].
  symmetry. apply Z.eqb_neq. pose proof (next_id_fresh inc_id _ i Hin). lia.
Qed.

(** X16. One run of the plan-generation command adds nothing, or one
    incident with at most four plans, each attached to the new incident,
    in status GENERATED and not selected; the incident is left in
    AWAITING_PLAN_SELECTION exactly when a plan row was stored, and in
    PLAN_GENERATION otherwise. Plan keys stay unique, and the selected plans
    of every incident are the same as before: the command selects nothing.
    This holds also when the command ends with an exception. *)
Theorem plan_generation_selects_nothing (rt : Runtime) (ext : External)
  (st : Settings) (incident_type : pystr) (w : World) :
  plans_generated w (snd (AutoCreate.handle incident_type w))
  /\ (unique_plan_ids w -> unique_plan_ids (snd (AutoCreate.handle incident_type w)))
  /\ forall incident_id,
       selected_plans incident_id (snd (AutoCreate.handle incident_type w))
       = selected_plans incident_id w.
Proof.
  destruct (handle_plans_generated incident_type w) as [Hg Hu].
  split; [exact Hg|]. split; [exact Hu|]. intros incident_id.
  destruct Hg as (_ & _ & [[_ Hp]|(inc & news & _ & _ & Hp & _ & Hfresh & _)]).
  - unfold selected_plans. now rewrite Hp.
  - apply (selected_plans_app incident_id w _ news Hp).
    eapply Forall_impl; [|exact Hfresh]. intros p (_ & H & _). exact H.
Qed.

(** X17. The two commands together: on a database with unique plan keys
    in which every plan belongs to an incident, a run of the
    plan-generation command followed by any sequence of selection
    operations leaves at most one selected plan in the new incident, and in
    every incident that had at most one. *)
Theorem generated_plans_then_selections (rt : Runtime) (ext : External)
  (st : Settings) (incident_type : pystr) (ops : list selection) (w : World)
  (incident_id : Z) :
  unique_plan_ids w ->
  plans_have_incidents w ->
  at_most_one_selected incident_id w
  \/ incident_id = next_id inc_id (incidents w) ->
  at_most_one_selected incident_id
    (run_selections ops (snd (AutoCreate.handle incident_type w))).
Proof.
  intros Hu Hinc Hid.
  destruct (handle_plans_generated incident_type w) as [Hg Hu'].
  apply run_selections_invariant; [now apply Hu'|].
  unfold at_most_one_selected.
  replace (selected_plans incident_id (snd (AutoCreate.handle incident_type w)))
    with (selected_plans incident_id w).
  - destruct Hid as [H| ->]; [exact H|].
    rewrite (no_plans_of_next_incident w Hinc). cbn [length]. lia.
  - symmetry.
    destruct Hg as (_ & _ & [[_ Hp]|(inc & news & _ & _ & Hp & _ & Hfresh & _)]).
    + unfold selected_plans. now rewrite Hp.
    + apply (selected_plans_app incident_id w _ news Hp).
      eapply Forall_impl; [|exact Hfresh]. intros p (_ & H & _). exact H.
Qed.

Lemma demo_world_plans_have_incidents : plans_have_incidents DEMO_WORLD.
Proof.
  repeat constructor; exists DEMO_INCIDENT; split; try reflexivity; now left.
Qed.

Lemma generated_plans_then_selections_witness :
  at_most_one_selected 2
    (@run_selections Ref.runtime UNREACHABLE [ByCommand 3; ByEndpoint (VInt 4)]
       (snd (@AutoCreate.handle Ref.runtime UNREACHABLE DEMO_SETTINGS
               (lit "security") DEMO_WORLD))).
Proof.
  apply (generated_plans_then_selections Ref.runtime UNREACHABLE DEMO_SETTINGS
           (lit "security") [ByCommand 3; ByEndpoint (VInt 4)] DEMO_WORLD 2
           demo_world_unique demo_world_plans_have_incidents).
  right. reflexivity.
Defined.

(** X19. The plan-generation command raises only in its two displays:
    when a run ends with an exception, the new incident is already stored
    in AWAITING_PLAN_SELECTION together with at least one plan attached to
    it, so the failure leaves a complete, selectable result behind. A
    timeline such as [2 hours], which mentions hours but does not start
    with a numeral followed by a hyphen, is enough to make the summary
    raise. *)
Theorem plan_generation_fails_only_in_its_displays (rt : Runtime) (ext : External)
  (st : Settings) (incident_type : pystr) (w : World) :
  is_ok (fst (AutoCreate.handle incident_type w)) = false ->
  stored_and_awaiting w (snd (AutoCreate.handle incident_type w)).
Proof. apply handle_fails_late. Qed.

Lemma plan_generation_fails_only_in_its_displays_witness :
  fst (@AutoCreate.handle Ref.runtime HOURLY DEMO_SETTINGS (lit "security") DEMO_WORLD)
  = Raise ValueError
  /\ stored_and_awaiting DEMO_WORLD
       (snd (@AutoCreate.handle Ref.runtime HOURLY DEMO_SETTINGS (lit "security")
               DEMO_WORLD)).
Proof.
  split; [vm_compute; reflexivity|].
  apply (plan_generation_fails_only_in_its_displays Ref.runtime HOURLY DEMO_SETTINGS
           (lit "security") DEMO_WORLD).
  vm_compute. reflexivity.
Defined.

Lemma forallb_pointwise {A} (f g : A -> bool) (l : list A) :
  (forall x, f x = g x) -> forallb f l = forallb g l.
Proof.
  intros H. induction l as [|x l IH]; [reflexivity|].
  cbn [forallb]. now rewrite H, IH.
Qed.

Lemma count_where_ok {A} (test : A -> result bool) (l : list A) :
  is_ok (count_where test l) = forallb (fun x => is_ok (test x)) l.
Proof.
  induction l as [|x l IH]; [reflexivity|].
  cbn [count_where forallb]. destruct (test x) as [b|]; [|reflexivity].
  cbn [rbind is_ok andb]. rewrite <- IH. now destruct (count_where test l).
Qed.

Lemma for_each_ok {A} (body : A -> result unit) (l : list A) :
  is_ok (for_each body l) = forallb (fun x => is_ok (body x)) l.
Proof.
  induction l as [|x l IH]; [reflexivity|].
  cbn [for_each forallb]. destruct (body x) as [[]|]; [|reflexivity].
  cbn [rbind is_ok andb]. exact IH.
Qed.

Section DisplayFacts.
Context {rt : Runtime}.

Lemma hours_test_ok (cmp : Z -> bool) (p : PlanObject) :
  is_ok (hours_test cmp p) = timeline_countable (po_timeline p).
Proof.
  unfold hours_test, timeline_countable.
  destruct (po_timeline p) as [| | | |s|l|d]; try reflexivity;
    cbn [contains rbind split_method].
  - destruct (str_in (lit "hour") s); [|reflexivity].
    cbn [rbind]. destruct (split HYPHEN s) as [|first rest]; [reflexivity|].
    cbn [py_int]. now destruct (int_of_str first).
  - now destruct (existsb _ l).
  - now destruct (dict_lookup _ d).
Qed.

Lemma display_completion_summary_ok (incident : Incident) (plans : list PlanObject) :
  is_ok (display_completion_summary incident plans)
  = forallb (fun p => timeline_countable (po_timeline p)) plans.
Proof.
  unfold display_completion_summary.
  pose proof (count_where_ok (hours_test (fun n => n <=? 2)) plans) as H1.
  pose proof (count_where_ok (hours_test (fun n => 4 <=? n)) plans) as H2.
  rewrite (forallb_pointwise _ (fun p => timeline_countable (po_timeline p))) in H1
    by (intros p; apply hours_test_ok).
  rewrite (forallb_pointwise _ (fun p => timeline_countable (po_timeline p))) in H2
    by (intros p; apply hours_test_ok).
  destruct (count_where (hours_test (fun n => n <=? 2)) plans); cbn [rbind is_ok] in *;
    [|exact H1].
  destruct (count_where (hours_test (fun n => 4 <=? n)) plans); cbn [rbind is_ok] in *;
    [exact H1|exact H2].
Qed.

Lemma display_plan_selection_instructions_ok (plans : list PlanObject) :
  is_ok (display_plan_selection_instructions plans)
  = match plans with [] => false | _ :: _ => true end
    && forallb (fun p => sliceable (po_strategy p) && sliceable (po_success_criteria p))
               plans.
Proof.
  unfold display_plan_selection_instructions.
  pose proof (for_each_ok (fun plan =>
                 let! _ := slice_to 120 (po_strategy plan) in
                 let! _ := slice_to 80 (po_success_criteria plan) in
                 Ok tt) plans) as H.
  rewrite (forallb_pointwise _ (fun p => sliceable (po_strategy p)
                                   && sliceable (po_success_criteria p))) in H.
  2:{ intros p. destruct (po_strategy p), (po_success_criteria p); reflexivity. }
  rewrite <- H.
  destruct (for_each _ plans) as [[]|]; cbn [rbind is_ok];
    [|now rewrite andb_false_r].
  now destruct plans.
Qed.

End DisplayFacts.

(** X18. The two displays that end the plan-generation command raise
    on some stored plans. The summary returns exactly when every timeline
    is text that does not contain [hour] or whose part before the first
    hyphen is accepted by [int()], or a list or mapping without [hour];
    the selection instructions return exactly when there is a plan and the
    strategy and the success criteria of every plan are text or lists. *)
Theorem summary_needs_countable_timelines (rt : Runtime) (incident : Incident)
  (plans : list PlanObject) :
  is_ok (display_completion_summary incident plans)
  = forallb (fun p => timeline_countable (po_timeline p)) plans
  /\ is_ok (display_plan_selection_instructions plans)
     = match plans with [] => false | _ :: _ => true end
       && forallb (fun p => sliceable (po_strategy p)
                            && sliceable (po_success_criteria p)) plans.
Proof.
  split; [apply display_completion_summary_ok|
          apply display_plan_selection_instructions_ok].
Qed.
